(** * immudb: configuration, remote blob storage and admin tooling

    A shallow embedding of the parts of immudb that the specification talks
    about:
    - [GoStrings]: the byte-string helpers of Go's [strings] and [sort]
      packages that the Azure backend uses;
    - [Azure]: embedded/remotestorage/azure/blob.go ([Open], [Get], [Put],
      [Exists], [ListEntries]), with the Azure SDK and the file system as
      oracles that record every request they receive;
    - [StoreOptions]: embedded/store/options.go ([Options], [IndexOptions],
      [DefaultOptions], [DefaultIndexOptions], [validOptions],
      [validIndexOptions] and the functional-options setters acting on a
      heap of option structs);
    - [Admin]: cmd/immuadmin/command/database.go ([prepareDatabaseSettings]
      and the create and update commands);
    - [Chain]: the transaction hash chain of the commit log. *)

From Stdlib Require Import String Ascii List Sorted ZArith QArith Bool Lia.
From stdpp Require Import base gmap strings pretty.
Import ListNotations.

(* ===================================================================== *)
(** ** Go string helpers *)
(* ===================================================================== *)

Module GoStrings.

Local Open Scope string_scope.

(** Go strings are byte sequences; [String.string] is a sequence of 8-bit
    [ascii] characters, and [String.compare] orders them bytewise, as Go's
    [<] on strings does. The cut sets used by the code are all the single
    byte "/", so the [Trim*] functions take that byte. *)

(** strings.TrimLeft(s, c) *)
Fixpoint TrimLeft (s : string) (c : ascii) : string :=
  match s with
  | EmptyString => EmptyString
  | String d s' => if Ascii.eqb d c then TrimLeft s' c else s
  end.

(** strings.TrimRight(s, c) *)
Fixpoint TrimRight (s : string) (c : ascii) : string :=
  match s with
  | EmptyString => EmptyString
  | String d s' =>
      let r := TrimRight s' c in
      match r with
      | EmptyString => if Ascii.eqb d c then EmptyString else String d EmptyString
      | _ => String d r
      end
  end.

(** strings.Trim(s, c): Go trims the left side, then the right side. *)
Definition Trim (s : string) (c : ascii) : string :=
  TrimRight (TrimLeft s c) c.

(** strings.HasPrefix(s, p) *)
Definition HasPrefix (s p : string) : bool := String.prefix p s.

(** strings.HasSuffix(s, suf): [s] is [suf] or its tail ends with [suf]. *)
Fixpoint HasSuffix (s suf : string) : bool :=
  String.eqb s suf ||
  match s with
  | EmptyString => false
  | String _ s' => HasSuffix s' suf
  end.

(** strings.Contains(s, sub): some suffix of [s] starts with [sub]. *)
Fixpoint Contains (s sub : string) : bool :=
  String.prefix sub s ||
  match s with
  | EmptyString => false
  | String _ s' => Contains s' sub
  end.

(** Go's [a < b] on strings. *)
Definition lt (a b : string) : bool := String.ltb a b.

(** sort.SliceIsSorted(x, less): for i := n-1; i > 0; i-- { if less(i, i-1)
    { return false } }; return true. Equivalently no element is [less] than
    the element just before it. *)
Fixpoint SliceIsSorted {A} (less : A -> A -> bool) (l : list A) : bool :=
  match l with
  | a :: ((b :: _) as t) => negb (less b a) && SliceIsSorted less t
  | _ => true
  end.

(** sort.StringsAreSorted(x) *)
Definition StringsAreSorted (l : list string) : bool := SliceIsSorted lt l.

End GoStrings.

(* ===================================================================== *)
(** ** Azure blob remote storage (embedded/remotestorage/azure/blob.go) *)
(* ===================================================================== *)

Module Azure.

Import GoStrings.
Local Open Scope string_scope.
Local Open Scope Z_scope.

(** The errors the backend returns: its own sentinels, and errors coming
    from the SDK or the operating system, kept opaque. *)
Inductive error :=
  | ErrInvalidArguments
  | ErrInvalidResponse
  | ErrTooManyRedirects
  | ErrSDK (msg : string)
  | ErrOS (msg : string).

(** Outcome of a Go call: a value, an error, or a run-time panic. *)
Inductive result (A : Type) :=
  | Ok (a : A)
  | Err (e : error)
  | Panic (msg : string).
Arguments Ok {A} a.
Arguments Err {A} e.
Arguments Panic {A} msg.

(** Every request that leaves the process: to Azure or to the file system. *)
Inductive io_request :=
  | ReqDownload (name : string) (offs size : Z)
  | ReqOpenFile (fileName : string)
  | ReqUpload (name : string)
  | ReqGetProperties (name : string)
  | ReqListPage (prefix : string) (page : nat).

(** remotestorage.EntryInfo *)
Record EntryInfo := { Name : string; Size : Z }.

(** The listing types of the SDK, with their pointers as options
    ([None] is nil): [*BlobPrefix] with its [Name *string];
    [*BlobItemInternal] with its [Name *string] and
    [Properties *BlobPropertiesInternal], whose [ContentLength] is an
    [*int64]. *)
Record BlobPrefix := { PrefixName : option string }.
Record BlobPropertiesInternal := { ContentLength : option Z }.
Record BlobItemInternal := {
  ItemName : option string;
  Properties : option BlobPropertiesInternal
}.

(** BlobHierarchyListSegment: [BlobPrefixes []*BlobPrefix] and
    [BlobItems []*BlobItemInternal]. *)
Record BlobHierarchyListSegment := {
  BlobPrefixes : list (option BlobPrefix);
  BlobItems : list (option BlobItemInternal)
}.

(** One page response: its
    [ContainerListBlobHierarchySegmentResult.Segment], a pointer. *)
Record page := { Segment : option BlobHierarchyListSegment }.

(** The pager ListBlobsHierarchy returns, as the answers to the requests
    its [NextPage] sends. The first call always sends a request; a later
    call sends one only when the previous page had a continuation marker.
    [PagerFails]: the request fails and [NextPage] returns false (the code
    never reads [pager.Err()]). [LastPage p]: [NextPage] returns true with
    [p], which has no marker, so the next call returns false without a
    request. [MorePages p rest]: [p] has a marker and the pager goes on. *)
Inductive pager :=
  | PagerFails (e : error)
  | LastPage (p : page)
  | MorePages (p : page) (rest : pager).

(** Error of GetProperties: a StorageError with its code, or another one. *)
Inductive props_error :=
  | StorageError (ErrorCode : string)
  | OtherError (msg : string).

Definition StorageErrorCodeBlobNotFound : string := "BlobNotFound".

(** The container client ([*azblob.ContainerClient]) and the local file
    system, as the answers they give. [ListBlobsHierarchy] gives the pager
    for the prefix (the delimiter is always "/"). *)
Record ContainerClient := {
  DownloadBlobToBuffer : string -> Z -> Z -> error + list Byte.byte;
  osOpen : string -> option error;
  UploadFileToBlockBlob : string -> string -> option error;
  GetProperties : string -> option props_error;
  ListBlobsHierarchy : string -> pager
}.

(** Section over the credential type, which the code only passes along. *)
Section Blob.

Context {TokenCredential : Type}.

Record Storage := {
  endpoint : string;
  container : string;
  prefix : string;
  cred : TokenCredential;
  containerClient : ContainerClient
}.

(** azblob.NewContainerClient(endpoint, cred, nil) *)
Variable NewContainerClient : string -> TokenCredential -> error + ContainerClient.

Definition slash : ascii := "/"%char.

(** func Open(endpoint, container, prefix string, cred) *)
Definition Open (endpoint0 container0 prefix0 : string) (cred0 : TokenCredential)
  : result Storage :=
  let endpoint1 := TrimRight endpoint0 slash ++ "/" in
  let container1 := Trim container0 slash in
  if Contains container1 "/" then Err ErrInvalidArguments
  else
    let prefix1 := Trim prefix0 slash in
    let prefix2 := if String.eqb prefix1 "" then prefix1 else prefix1 ++ "/" in
    match NewContainerClient endpoint1 cred0 with
    | inl e => Err e
    | inr client =>
        Ok {| endpoint := endpoint1; container := container1; prefix := prefix2;
              cred := cred0; containerClient := client |}
    end.

End Blob.

(** Largest allocation [make([]byte, n)] accepts on 64-bit Linux (maxAlloc
    of the Go runtime); [makeslice] panics outside [0, maxAlloc]. *)
Definition maxAlloc : Z := 2 ^ 48.

(** The operations return the requests they sent, in order, with their
    outcome. *)

(** func (s *Storage) Get(ctx, name string, offs, size int64) *)
Definition Get {C} (s : @Storage C) (name : string) (offs size : Z)
  : list io_request * result (list Byte.byte) :=
  if (offs <? 0) || (size =? 0) then ([], Err ErrInvalidArguments)
  else if HasPrefix name "/" || HasSuffix name "/" then ([], Err ErrInvalidArguments)
  else if (size <? 0) || (maxAlloc <? size)
  then ([], Panic "runtime error: makeslice: len out of range")
  else
    match DownloadBlobToBuffer (containerClient s) name offs size with
    | inl e => ([ReqDownload name offs size], Err e)
    | inr bytes => ([ReqDownload name offs size], Ok bytes)
    end.

(** func (s *Storage) Put(ctx, name string, fileName string) error *)
Definition Put {C} (s : @Storage C) (name fileName : string)
  : list io_request * result unit :=
  if HasPrefix name "/" || HasSuffix name "/" then ([], Err ErrInvalidArguments)
  else
    match osOpen (containerClient s) fileName with
    | Some e => ([ReqOpenFile fileName], Err e)
    | None =>
        match UploadFileToBlockBlob (containerClient s) name fileName with
        | Some e => ([ReqOpenFile fileName; ReqUpload name], Err e)
        | None => ([ReqOpenFile fileName; ReqUpload name], Ok tt)
        end
    end.

(** func (s *Storage) Exists(ctx, name string) (bool, error); the boolean
    returned next to an error is [false]. *)
Definition Exists {C} (s : @Storage C) (name : string)
  : list io_request * result bool :=
  if HasPrefix name "/" || HasSuffix name "/" then ([], Err ErrInvalidArguments)
  else
    match GetProperties (containerClient s) name with
    | None => ([ReqGetProperties name], Ok true)
    | Some (StorageError code) =>
        if String.eqb code StorageErrorCodeBlobNotFound
        then ([ReqGetProperties name], Ok false)
        else ([ReqGetProperties name], Err (ErrSDK code))
    | Some (OtherError msg) => ([ReqGetProperties name], Err (ErrSDK msg))
    end.

(** Dereferencing a nil pointer panics. *)
Definition nilDeref {A} : result A :=
  Panic "runtime error: invalid memory address or nil pointer dereference".

Definition deref {A} (o : option A) : result A :=
  match o with
  | Some a => Ok a
  | None => nilDeref
  end.

(** Sequencing of Go statements that may panic. *)
Definition bind_res {A B} (r : result A) (k : A -> result B) : result B :=
  match r with
  | Ok a => k a
  | Err e => Err e
  | Panic m => Panic m
  end.

Local Notation "'let*' x := c 'in' k" := (bind_res c (fun x => k))
  (at level 200, x name, c at level 100, k at level 200).

(** [for _, v := range ...Segment.BlobPrefixes { subPaths = append(subPaths, *v.Name) }] *)
Fixpoint append_prefixes (l : list (option BlobPrefix)) (subPaths : list string)
  : result (list string) :=
  match l with
  | [] => Ok subPaths
  | v :: l' =>
      let* v := deref v in
      let* n := deref (PrefixName v) in
      append_prefixes l' (subPaths ++ [n])%list
  end.

(** [for _, v := range ...Segment.BlobItems { entries = append(entries,
    EntryInfo{Name: *v.Name, Size: *v.Properties.ContentLength}) }] *)
Fixpoint append_items (l : list (option BlobItemInternal)) (entries : list EntryInfo)
  : result (list EntryInfo) :=
  match l with
  | [] => Ok entries
  | v :: l' =>
      let* v := deref v in
      let* n := deref (ItemName v) in
      let* pr := deref (Properties v) in
      let* sz := deref (ContentLength pr) in
      append_items l' (entries ++ [{| Name := n; Size := sz |}])%list
  end.

(** The body of the pager loop for one page: both loops read
    [resp.ContainerListBlobHierarchySegmentResult.Segment]. *)
Definition read_page (p : page) (subPaths : list string) (entries : list EntryInfo)
  : result (list string * list EntryInfo) :=
  let* seg := deref (Segment p) in
  let* subPaths' := append_prefixes (BlobPrefixes seg) subPaths in
  let* seg' := deref (Segment p) in
  let* entries' := append_items (BlobItems seg') entries in
  Ok (subPaths', entries').

(** [for pager.NextPage(ctx) { ... }]: each request [NextPage] sends is
    recorded, numbered from [n]; a panic in the body ends the loop. *)
Fixpoint collect (str : string) (n : nat) (pg : pager)
    (subPaths : list string) (entries : list EntryInfo)
  : list io_request * result (list string * list EntryInfo) :=
  match pg with
  | PagerFails _ => ([ReqListPage str n], Ok (subPaths, entries))
  | LastPage p => ([ReqListPage str n], read_page p subPaths entries)
  | MorePages p rest =>
      match read_page p subPaths entries with
      | Ok (subPaths', entries') =>
          let (trace, r) := collect str (S n) rest subPaths' entries' in
          (ReqListPage str n :: trace, r)
      | Err e => ([ReqListPage str n], Err e)
      | Panic m => ([ReqListPage str n], Panic m)
      end
  end.

Definition entry_less (a b : EntryInfo) : bool := lt (Name a) (Name b).

(** func (s *Storage) ListEntries(ctx, path string) *)
Definition ListEntries {C} (s : @Storage C) (path : string)
  : list io_request * result (list EntryInfo * list string) :=
  if negb (String.eqb path "") && (negb (HasSuffix path "/") || Contains path "//")
  then ([], Err ErrInvalidArguments)
  else
    let str := prefix s ++ path in
    let (trace, r) := collect str 0 (ListBlobsHierarchy (containerClient s) str) [] [] in
    match r with
    | Ok (subPaths, entries) =>
        if negb (SliceIsSorted entry_less entries) || negb (StringsAreSorted subPaths)
        then (trace, Err ErrInvalidResponse)
        else (trace, Ok (entries, subPaths))
    | Err e => (trace, Err e)
    | Panic m => (trace, Panic m)
    end.

(** What a listing holds, read without the loop: the pages the pager
    returns, whether it ended on a failed request, and the names and sizes
    of the pages ([None] when one of the pointers read is nil). *)
Fixpoint pager_pages (pg : pager) : list page :=
  match pg with
  | PagerFails _ => []
  | LastPage p => [p]
  | MorePages p rest => p :: pager_pages rest
  end.

Fixpoint pager_failed (pg : pager) : bool :=
  match pg with
  | PagerFails _ => true
  | LastPage _ => false
  | MorePages _ rest => pager_failed rest
  end.

Fixpoint map_all {A B} (f : A -> option B) (l : list A) : option (list B) :=
  match l with
  | [] => Some []
  | x :: l' =>
      match f x, map_all f l' with
      | Some y, Some ys => Some (y :: ys)
      | _, _ => None
      end
  end.

Definition prefix_value (v : option BlobPrefix) : option string :=
  match v with
  | Some v => PrefixName v
  | None => None
  end.

Definition item_value (v : option BlobItemInternal) : option EntryInfo :=
  match v with
  | Some {| ItemName := Some n; Properties := Some {| ContentLength := Some sz |} |} =>
      Some {| Name := n; Size := sz |}
  | _ => None
  end.

Definition page_values (p : page) : option (list string * list EntryInfo) :=
  match Segment p with
  | Some seg =>
      match map_all prefix_value (BlobPrefixes seg), map_all item_value (BlobItems seg) with
      | Some sp, Some es => Some (sp, es)
      | _, _ => None
      end
  | None => None
  end.

Fixpoint listing (ps : list page) : option (list string * list EntryInfo) :=
  match ps with
  | [] => Some ([], [])
  | p :: ps' =>
      match page_values p, listing ps' with
      | Some (sp, es), Some (sp', es') => Some ((sp ++ sp')%list, (es ++ es')%list)
      | _, _ => None
      end
  end.

(** The path check of ListEntries. *)
Definition path_ok (path : string) : bool :=
  negb (negb (String.eqb path "") && (negb (HasSuffix path "/") || Contains path "//")).

(** Name order of entries and of sub-paths, as [Sorted] relations. *)
Definition entries_sorted (es : list EntryInfo) : Prop :=
  Sorted (fun a b => String.leb (Name a) (Name b) = true) es.
Definition strings_sorted (l : list string) : Prop :=
  Sorted (fun a b => String.leb a b = true) l.

(** A concrete client for the examples: every request succeeds, the blob
    has 4 bytes, and a listing yields one page. *)
Definition sample_client : ContainerClient := {|
  DownloadBlobToBuffer := fun _ _ size => inr (repeat Byte.x00 (Z.to_nat size));
  osOpen := fun _ => None;
  UploadFileToBlockBlob := fun _ _ => None;
  GetProperties := fun _ => None;
  ListBlobsHierarchy := fun _ =>
    LastPage {| Segment := Some {|
      BlobPrefixes := [Some {| PrefixName := Some "segs/a/" |};
                       Some {| PrefixName := Some "segs/b/" |}];
      BlobItems := [Some {| ItemName := Some "segs/0001";
                            Properties := Some {| ContentLength := Some 4 |} |}] |} |}
|}.

Definition sample_storage : @Storage unit := {|
  endpoint := "https://acct.blob.core.windows.net/"; container := "immudb";
  prefix := "db/"; cred := tt; containerClient := sample_client
|}.

(** A listing whose second page goes back in name order. *)
Definition unsorted_client : ContainerClient := {|
  DownloadBlobToBuffer := DownloadBlobToBuffer sample_client;
  osOpen := osOpen sample_client;
  UploadFileToBlockBlob := UploadFileToBlockBlob sample_client;
  GetProperties := GetProperties sample_client;
  ListBlobsHierarchy := fun _ =>
    MorePages {| Segment := Some {| BlobPrefixes := [];
      BlobItems := [Some {| ItemName := Some "b";
                            Properties := Some {| ContentLength := Some 1 |} |}] |} |}
    (LastPage {| Segment := Some {| BlobPrefixes := [];
      BlobItems := [Some {| ItemName := Some "a";
                            Properties := Some {| ContentLength := Some 1 |} |}] |} |})
|}.

Definition unsorted_storage : @Storage unit := {|
  endpoint := "https://acct.blob.core.windows.net/"; container := "immudb";
  prefix := ""; cred := tt; containerClient := unsorted_client
|}.

(** A storage whose listings all answer with the pager [pg]. *)
Definition listing_storage (pg : pager) : @Storage unit := {|
  endpoint := "https://acct.blob.core.windows.net/"; container := "immudb";
  prefix := ""; cred := tt;
  containerClient := {|
    DownloadBlobToBuffer := DownloadBlobToBuffer sample_client;
    osOpen := osOpen sample_client;
    UploadFileToBlockBlob := UploadFileToBlockBlob sample_client;
    GetProperties := GetProperties sample_client;
    ListBlobsHierarchy := fun _ => pg |} |}.

(** A listing whose first request fails. *)
Definition failing_pager : pager := PagerFails (ErrSDK "500 Internal Server Error").

(** A listing with an item whose Properties have no ContentLength. *)
Definition nil_length_pager : pager :=
  LastPage {| Segment := Some {| BlobPrefixes := [];
    BlobItems := [Some {| ItemName := Some "seg0";
                          Properties := Some {| ContentLength := None |} |}] |} |}.

(** azblob.NewContainerClient that accepts every endpoint. *)
Definition sample_new_client (_ : string) (_ : unit) : error + ContainerClient :=
  inr sample_client.

End Azure.

(* ===================================================================== *)
(** ** Store options (embedded/store/options.go) *)
(* ===================================================================== *)

Module StoreOptions.

Local Open Scope Z_scope.

(** A float32 as IEEE 754 has it: a finite value (a rational), an
    infinity, or NaN; every comparison with NaN is false. *)
Inductive float32 :=
  | F32 (q : Q)
  | F32Inf (negative : bool)
  | F32NaN.

(** [f >= 0] and [f <= 100] on float32. *)
Definition f32_ge0 (f : float32) : bool :=
  match f with F32 q => Qle_bool 0 q | F32Inf neg => negb neg | F32NaN => false end.
Definition f32_le100 (f : float32) : bool :=
  match f with F32 q => Qle_bool q 100 | F32Inf neg => neg | F32NaN => false end.

(** time.Duration: an int64 count of nanoseconds. *)
Abbreviation Duration := Z.

(** Interface and function values (logger.Logger, AppFactoryFunc,
    TimeFunc) are handles; [None] is Go's nil. *)
Abbreviation Logger := nat.
Abbreviation AppFactoryFunc := nat.
Abbreviation TimeFuncT := nat.

(** [x != nil] *)
Definition notNil {A} (x : option A) : bool :=
  match x with Some _ => true | None => false end.

(** A Go pointer: [None] is nil, [Some l] the address [l]. *)
Abbreviation ptr := (option positive).

Module Idx.

Record IndexOptions := {
  CacheSize : Z;
  FlushThld : Z;
  SyncThld : Z;
  FlushBufferSize : Z;
  CleanupPercentage : float32;
  MaxActiveSnapshots : Z;
  MaxNodeSize : Z;
  RenewSnapRootAfter : Duration;
  CompactionThld : Z;
  DelayDuringCompaction : Duration;
  NodesLogMaxOpenedFiles : Z;
  HistoryLogMaxOpenedFiles : Z;
  CommitLogMaxOpenedFiles : Z
}.


(** The IndexOptions structs reachable from the program, by address. *)
Abbreviation heap := (gmap positive IndexOptions).

(** The body of every setter: [opts.F = x; return opts]. A nil receiver
    panics on the assignment ([None]). *)
Definition update_idx (h : heap) (p : ptr) (f : IndexOptions -> IndexOptions)
  : option (heap * ptr) :=
  match p with
  | None => None
  | Some l =>
      match h !! l with
      | None => None
      | Some o => Some (<[l := f o]> h, p)
      end
  end.

(** func validIndexOptions(opts *IndexOptions) bool *)
Definition validIndexOptions (h : heap) (p : ptr) : bool :=
  match p with
  | None => false
  | Some l =>
      match h !! l with
      | None => false
      | Some opts =>
          (CacheSize opts >? 0) &&
          (FlushThld opts >? 0) &&
          (FlushBufferSize opts >? 0) &&
          f32_ge0 (CleanupPercentage opts) && f32_le100 (CleanupPercentage opts) &&
          (MaxActiveSnapshots opts >? 0) &&
          (MaxNodeSize opts >? 0) &&
          (RenewSnapRootAfter opts >=? 0) &&
          (NodesLogMaxOpenedFiles opts >? 0) &&
          (HistoryLogMaxOpenedFiles opts >? 0) &&
          (CommitLogMaxOpenedFiles opts >? 0)
      end
  end.

(** func (opts *IndexOptions) WithCacheSize(cacheSize) *IndexOptions *)
Definition WithCacheSize (h : heap) (p : ptr) (cacheSize : Z) : option (heap * ptr) :=
  update_idx h p (fun o =>
    {| CacheSize := cacheSize; FlushThld := FlushThld o; SyncThld := SyncThld o;
       FlushBufferSize := FlushBufferSize o; CleanupPercentage := CleanupPercentage o; MaxActiveSnapshots := MaxActiveSnapshots o;
       MaxNodeSize := MaxNodeSize o; RenewSnapRootAfter := RenewSnapRootAfter o; CompactionThld := CompactionThld o;
       DelayDuringCompaction := DelayDuringCompaction o; NodesLogMaxOpenedFiles := NodesLogMaxOpenedFiles o; HistoryLogMaxOpenedFiles := HistoryLogMaxOpenedFiles o;
       CommitLogMaxOpenedFiles := CommitLogMaxOpenedFiles o |}).

(** func (opts *IndexOptions) WithFlushThld(flushThld) *IndexOptions *)
Definition WithFlushThld (h : heap) (p : ptr) (flushThld : Z) : option (heap * ptr) :=
  update_idx h p (fun o =>
    {| CacheSize := CacheSize o; FlushThld := flushThld; SyncThld := SyncThld o;
       FlushBufferSize := FlushBufferSize o; CleanupPercentage := CleanupPercentage o; MaxActiveSnapshots := MaxActiveSnapshots o;
       MaxNodeSize := MaxNodeSize o; RenewSnapRootAfter := RenewSnapRootAfter o; CompactionThld := CompactionThld o;
       DelayDuringCompaction := DelayDuringCompaction o; NodesLogMaxOpenedFiles := NodesLogMaxOpenedFiles o; HistoryLogMaxOpenedFiles := HistoryLogMaxOpenedFiles o;
       CommitLogMaxOpenedFiles := CommitLogMaxOpenedFiles o |}).

(** func (opts *IndexOptions) WithSyncThld(syncThld) *IndexOptions *)
Definition WithSyncThld (h : heap) (p : ptr) (syncThld : Z) : option (heap * ptr) :=
  update_idx h p (fun o =>
    {| CacheSize := CacheSize o; FlushThld := FlushThld o; SyncThld := syncThld;
       FlushBufferSize := FlushBufferSize o; CleanupPercentage := CleanupPercentage o; MaxActiveSnapshots := MaxActiveSnapshots o;
       MaxNodeSize := MaxNodeSize o; RenewSnapRootAfter := RenewSnapRootAfter o; CompactionThld := CompactionThld o;
       DelayDuringCompaction := DelayDuringCompaction o; NodesLogMaxOpenedFiles := NodesLogMaxOpenedFiles o; HistoryLogMaxOpenedFiles := HistoryLogMaxOpenedFiles o;
       CommitLogMaxOpenedFiles := CommitLogMaxOpenedFiles o |}).

(** func (opts *IndexOptions) WithFlushBufferSize(flushBufferSize) *IndexOptions *)
Definition WithFlushBufferSize (h : heap) (p : ptr) (flushBufferSize : Z) : option (heap * ptr) :=
  update_idx h p (fun o =>
    {| CacheSize := CacheSize o; FlushThld := FlushThld o; SyncThld := SyncThld o;
       FlushBufferSize := flushBufferSize; CleanupPercentage := CleanupPercentage o; MaxActiveSnapshots := MaxActiveSnapshots o;
       MaxNodeSize := MaxNodeSize o; RenewSnapRootAfter := RenewSnapRootAfter o; CompactionThld := CompactionThld o;
       DelayDuringCompaction := DelayDuringCompaction o; NodesLogMaxOpenedFiles := NodesLogMaxOpenedFiles o; HistoryLogMaxOpenedFiles := HistoryLogMaxOpenedFiles o;
       CommitLogMaxOpenedFiles := CommitLogMaxOpenedFiles o |}).

(** func (opts *IndexOptions) WithCleanupPercentage(cleanupPercentage) *IndexOptions *)
Definition WithCleanupPercentage (h : heap) (p : ptr) (cleanupPercentage : float32) : option (heap * ptr) :=
  update_idx h p (fun o =>
    {| CacheSize := CacheSize o; FlushThld := FlushThld o; SyncThld := SyncThld o;
       FlushBufferSize := FlushBufferSize o; CleanupPercentage := cleanupPercentage; MaxActiveSnapshots := MaxActiveSnapshots o;
       MaxNodeSize := MaxNodeSize o; RenewSnapRootAfter := RenewSnapRootAfter o; CompactionThld := CompactionThld o;
       DelayDuringCompaction := DelayDuringCompaction o; NodesLogMaxOpenedFiles := NodesLogMaxOpenedFiles o; HistoryLogMaxOpenedFiles := HistoryLogMaxOpenedFiles o;
       CommitLogMaxOpenedFiles := CommitLogMaxOpenedFiles o |}).

(** func (opts *IndexOptions) WithMaxActiveSnapshots(maxActiveSnapshots) *IndexOptions *)
Definition WithMaxActiveSnapshots (h : heap) (p : ptr) (maxActiveSnapshots : Z) : option (heap * ptr) :=
  update_idx h p (fun o =>
    {| CacheSize := CacheSize o; FlushThld := FlushThld o; SyncThld := SyncThld o;
       FlushBufferSize := FlushBufferSize o; CleanupPercentage := CleanupPercentage o; MaxActiveSnapshots := maxActiveSnapshots;
       MaxNodeSize := MaxNodeSize o; RenewSnapRootAfter := RenewSnapRootAfter o; CompactionThld := CompactionThld o;
       DelayDuringCompaction := DelayDuringCompaction o; NodesLogMaxOpenedFiles := NodesLogMaxOpenedFiles o; HistoryLogMaxOpenedFiles := HistoryLogMaxOpenedFiles o;
       CommitLogMaxOpenedFiles := CommitLogMaxOpenedFiles o |}).

(** func (opts *IndexOptions) WithMaxNodeSize(maxNodeSize) *IndexOptions *)
Definition WithMaxNodeSize (h : heap) (p : ptr) (maxNodeSize : Z) : option (heap * ptr) :=
  update_idx h p (fun o =>
    {| CacheSize := CacheSize o; FlushThld := FlushThld o; SyncThld := SyncThld o;
       FlushBufferSize := FlushBufferSize o; CleanupPercentage := CleanupPercentage o; MaxActiveSnapshots := MaxActiveSnapshots o;
       MaxNodeSize := maxNodeSize; RenewSnapRootAfter := RenewSnapRootAfter o; CompactionThld := CompactionThld o;
       DelayDuringCompaction := DelayDuringCompaction o; NodesLogMaxOpenedFiles := NodesLogMaxOpenedFiles o; HistoryLogMaxOpenedFiles := HistoryLogMaxOpenedFiles o;
       CommitLogMaxOpenedFiles := CommitLogMaxOpenedFiles o |}).

(** func (opts *IndexOptions) WithRenewSnapRootAfter(renewSnapRootAfter) *IndexOptions *)
Definition WithRenewSnapRootAfter (h : heap) (p : ptr) (renewSnapRootAfter : Duration) : option (heap * ptr) :=
  update_idx h p (fun o =>
    {| CacheSize := CacheSize o; FlushThld := FlushThld o; SyncThld := SyncThld o;
       FlushBufferSize := FlushBufferSize o; CleanupPercentage := CleanupPercentage o; MaxActiveSnapshots := MaxActiveSnapshots o;
       MaxNodeSize := MaxNodeSize o; RenewSnapRootAfter := renewSnapRootAfter; CompactionThld := CompactionThld o;
       DelayDuringCompaction := DelayDuringCompaction o; NodesLogMaxOpenedFiles := NodesLogMaxOpenedFiles o; HistoryLogMaxOpenedFiles := HistoryLogMaxOpenedFiles o;
       CommitLogMaxOpenedFiles := CommitLogMaxOpenedFiles o |}).

(** func (opts *IndexOptions) WithCompactionThld(compactionThld) *IndexOptions *)
Definition WithCompactionThld (h : heap) (p : ptr) (compactionThld : Z) : option (heap * ptr) :=
  update_idx h p (fun o =>
    {| CacheSize := CacheSize o; FlushThld := FlushThld o; SyncThld := SyncThld o;
       FlushBufferSize := FlushBufferSize o; CleanupPercentage := CleanupPercentage o; MaxActiveSnapshots := MaxActiveSnapshots o;
       MaxNodeSize := MaxNodeSize o; RenewSnapRootAfter := RenewSnapRootAfter o; CompactionThld := compactionThld;
       DelayDuringCompaction := DelayDuringCompaction o; NodesLogMaxOpenedFiles := NodesLogMaxOpenedFiles o; HistoryLogMaxOpenedFiles := HistoryLogMaxOpenedFiles o;
       CommitLogMaxOpenedFiles := CommitLogMaxOpenedFiles o |}).

(** func (opts *IndexOptions) WithDelayDuringCompaction(delayDuringCompaction) *IndexOptions *)
Definition WithDelayDuringCompaction (h : heap) (p : ptr) (delayDuringCompaction : Duration) : option (heap * ptr) :=
  update_idx h p (fun o =>
    {| CacheSize := CacheSize o; FlushThld := FlushThld o; SyncThld := SyncThld o;
       FlushBufferSize := FlushBufferSize o; CleanupPercentage := CleanupPercentage o; MaxActiveSnapshots := MaxActiveSnapshots o;
       MaxNodeSize := MaxNodeSize o; RenewSnapRootAfter := RenewSnapRootAfter o; CompactionThld := CompactionThld o;
       DelayDuringCompaction := delayDuringCompaction; NodesLogMaxOpenedFiles := NodesLogMaxOpenedFiles o; HistoryLogMaxOpenedFiles := HistoryLogMaxOpenedFiles o;
       CommitLogMaxOpenedFiles := CommitLogMaxOpenedFiles o |}).

(** func (opts *IndexOptions) WithNodesLogMaxOpenedFiles(nodesLogMaxOpenedFiles) *IndexOptions *)
Definition WithNodesLogMaxOpenedFiles (h : heap) (p : ptr) (nodesLogMaxOpenedFiles : Z) : option (heap * ptr) :=
  update_idx h p (fun o =>
    {| CacheSize := CacheSize o; FlushThld := FlushThld o; SyncThld := SyncThld o;
       FlushBufferSize := FlushBufferSize o; CleanupPercentage := CleanupPercentage o; MaxActiveSnapshots := MaxActiveSnapshots o;
       MaxNodeSize := MaxNodeSize o; RenewSnapRootAfter := RenewSnapRootAfter o; CompactionThld := CompactionThld o;
       DelayDuringCompaction := DelayDuringCompaction o; NodesLogMaxOpenedFiles := nodesLogMaxOpenedFiles; HistoryLogMaxOpenedFiles := HistoryLogMaxOpenedFiles o;
       CommitLogMaxOpenedFiles := CommitLogMaxOpenedFiles o |}).

(** func (opts *IndexOptions) WithHistoryLogMaxOpenedFiles(historyLogMaxOpenedFiles) *IndexOptions *)
Definition WithHistoryLogMaxOpenedFiles (h : heap) (p : ptr) (historyLogMaxOpenedFiles : Z) : option (heap * ptr) :=
  update_idx h p (fun o =>
    {| CacheSize := CacheSize o; FlushThld := FlushThld o; SyncThld := SyncThld o;
       FlushBufferSize := FlushBufferSize o; CleanupPercentage := CleanupPercentage o; MaxActiveSnapshots := MaxActiveSnapshots o;
       MaxNodeSize := MaxNodeSize o; RenewSnapRootAfter := RenewSnapRootAfter o; CompactionThld := CompactionThld o;
       DelayDuringCompaction := DelayDuringCompaction o; NodesLogMaxOpenedFiles := NodesLogMaxOpenedFiles o; HistoryLogMaxOpenedFiles := historyLogMaxOpenedFiles;
       CommitLogMaxOpenedFiles := CommitLogMaxOpenedFiles o |}).

(** func (opts *IndexOptions) WithCommitLogMaxOpenedFiles(commitLogMaxOpenedFiles) *IndexOptions *)
Definition WithCommitLogMaxOpenedFiles (h : heap) (p : ptr) (commitLogMaxOpenedFiles : Z) : option (heap * ptr) :=
  update_idx h p (fun o =>
    {| CacheSize := CacheSize o; FlushThld := FlushThld o; SyncThld := SyncThld o;
       FlushBufferSize := FlushBufferSize o; CleanupPercentage := CleanupPercentage o; MaxActiveSnapshots := MaxActiveSnapshots o;
       MaxNodeSize := MaxNodeSize o; RenewSnapRootAfter := RenewSnapRootAfter o; CompactionThld := CompactionThld o;
       DelayDuringCompaction := DelayDuringCompaction o; NodesLogMaxOpenedFiles := NodesLogMaxOpenedFiles o; HistoryLogMaxOpenedFiles := HistoryLogMaxOpenedFiles o;
       CommitLogMaxOpenedFiles := commitLogMaxOpenedFiles |}).

(** One call of a setter, with its argument. *)
Inductive idx_setter :=
  | SI_WithCacheSize (cacheSize : Z)
  | SI_WithFlushThld (flushThld : Z)
  | SI_WithSyncThld (syncThld : Z)
  | SI_WithFlushBufferSize (flushBufferSize : Z)
  | SI_WithCleanupPercentage (cleanupPercentage : float32)
  | SI_WithMaxActiveSnapshots (maxActiveSnapshots : Z)
  | SI_WithMaxNodeSize (maxNodeSize : Z)
  | SI_WithRenewSnapRootAfter (renewSnapRootAfter : Duration)
  | SI_WithCompactionThld (compactionThld : Z)
  | SI_WithDelayDuringCompaction (delayDuringCompaction : Duration)
  | SI_WithNodesLogMaxOpenedFiles (nodesLogMaxOpenedFiles : Z)
  | SI_WithHistoryLogMaxOpenedFiles (historyLogMaxOpenedFiles : Z)
  | SI_WithCommitLogMaxOpenedFiles (commitLogMaxOpenedFiles : Z).

(** The fields of [IndexOptions]. *)
Inductive idx_field :=
  | FI_CacheSize
  | FI_FlushThld
  | FI_SyncThld
  | FI_FlushBufferSize
  | FI_CleanupPercentage
  | FI_MaxActiveSnapshots
  | FI_MaxNodeSize
  | FI_RenewSnapRootAfter
  | FI_CompactionThld
  | FI_DelayDuringCompaction
  | FI_NodesLogMaxOpenedFiles
  | FI_HistoryLogMaxOpenedFiles
  | FI_CommitLogMaxOpenedFiles.

Definition apply_idx_setter (s : idx_setter) (h : heap) (p : ptr) : option (heap * ptr) :=
  match s with
  | SI_WithCacheSize x => WithCacheSize h p x
  | SI_WithFlushThld x => WithFlushThld h p x
  | SI_WithSyncThld x => WithSyncThld h p x
  | SI_WithFlushBufferSize x => WithFlushBufferSize h p x
  | SI_WithCleanupPercentage x => WithCleanupPercentage h p x
  | SI_WithMaxActiveSnapshots x => WithMaxActiveSnapshots h p x
  | SI_WithMaxNodeSize x => WithMaxNodeSize h p x
  | SI_WithRenewSnapRootAfter x => WithRenewSnapRootAfter h p x
  | SI_WithCompactionThld x => WithCompactionThld h p x
  | SI_WithDelayDuringCompaction x => WithDelayDuringCompaction h p x
  | SI_WithNodesLogMaxOpenedFiles x => WithNodesLogMaxOpenedFiles h p x
  | SI_WithHistoryLogMaxOpenedFiles x => WithHistoryLogMaxOpenedFiles h p x
  | SI_WithCommitLogMaxOpenedFiles x => WithCommitLogMaxOpenedFiles h p x
  end.

(** The field a setter names. *)
Definition idx_setter_field (s : idx_setter) : idx_field :=
  match s with
  | SI_WithCacheSize _ => FI_CacheSize
  | SI_WithFlushThld _ => FI_FlushThld
  | SI_WithSyncThld _ => FI_SyncThld
  | SI_WithFlushBufferSize _ => FI_FlushBufferSize
  | SI_WithCleanupPercentage _ => FI_CleanupPercentage
  | SI_WithMaxActiveSnapshots _ => FI_MaxActiveSnapshots
  | SI_WithMaxNodeSize _ => FI_MaxNodeSize
  | SI_WithRenewSnapRootAfter _ => FI_RenewSnapRootAfter
  | SI_WithCompactionThld _ => FI_CompactionThld
  | SI_WithDelayDuringCompaction _ => FI_DelayDuringCompaction
  | SI_WithNodesLogMaxOpenedFiles _ => FI_NodesLogMaxOpenedFiles
  | SI_WithHistoryLogMaxOpenedFiles _ => FI_HistoryLogMaxOpenedFiles
  | SI_WithCommitLogMaxOpenedFiles _ => FI_CommitLogMaxOpenedFiles
  end.

(** The setter's field holds its argument in [o]. *)
Definition idx_setter_holds (s : idx_setter) (o : IndexOptions) : Prop :=
  match s with
  | SI_WithCacheSize x => CacheSize o = x
  | SI_WithFlushThld x => FlushThld o = x
  | SI_WithSyncThld x => SyncThld o = x
  | SI_WithFlushBufferSize x => FlushBufferSize o = x
  | SI_WithCleanupPercentage x => CleanupPercentage o = x
  | SI_WithMaxActiveSnapshots x => MaxActiveSnapshots o = x
  | SI_WithMaxNodeSize x => MaxNodeSize o = x
  | SI_WithRenewSnapRootAfter x => RenewSnapRootAfter o = x
  | SI_WithCompactionThld x => CompactionThld o = x
  | SI_WithDelayDuringCompaction x => DelayDuringCompaction o = x
  | SI_WithNodesLogMaxOpenedFiles x => NodesLogMaxOpenedFiles o = x
  | SI_WithHistoryLogMaxOpenedFiles x => HistoryLogMaxOpenedFiles o = x
  | SI_WithCommitLogMaxOpenedFiles x => CommitLogMaxOpenedFiles o = x
  end.

(** [o] and [o'] agree on field [f]. *)
Definition idx_field_agree (f : idx_field) (o o' : IndexOptions) : Prop :=
  match f with
  | FI_CacheSize => CacheSize o = CacheSize o'
  | FI_FlushThld => FlushThld o = FlushThld o'
  | FI_SyncThld => SyncThld o = SyncThld o'
  | FI_FlushBufferSize => FlushBufferSize o = FlushBufferSize o'
  | FI_CleanupPercentage => CleanupPercentage o = CleanupPercentage o'
  | FI_MaxActiveSnapshots => MaxActiveSnapshots o = MaxActiveSnapshots o'
  | FI_MaxNodeSize => MaxNodeSize o = MaxNodeSize o'
  | FI_RenewSnapRootAfter => RenewSnapRootAfter o = RenewSnapRootAfter o'
  | FI_CompactionThld => CompactionThld o = CompactionThld o'
  | FI_DelayDuringCompaction => DelayDuringCompaction o = DelayDuringCompaction o'
  | FI_NodesLogMaxOpenedFiles => NodesLogMaxOpenedFiles o = NodesLogMaxOpenedFiles o'
  | FI_HistoryLogMaxOpenedFiles => HistoryLogMaxOpenedFiles o = HistoryLogMaxOpenedFiles o'
  | FI_CommitLogMaxOpenedFiles => CommitLogMaxOpenedFiles o = CommitLogMaxOpenedFiles o'
  end.


(** A chain of setters, each called on the pointer the previous returned. *)
Fixpoint run_idx_chain (cs : list idx_setter) (h : heap) (p : ptr) : option (heap * ptr) :=
  match cs with
  | [] => Some (h, p)
  | c :: cs' =>
      match apply_idx_setter c h p with
      | None => None
      | Some (h', p') => run_idx_chain cs' h' p'
      end
  end.

(** Sample index options: the values immudb uses by default, and the same
    with a zero sync threshold and negative compaction settings. *)
Definition sample_index : IndexOptions := {|
  CacheSize := 100000; FlushThld := 100000; SyncThld := 1000000;
  FlushBufferSize := 4096; CleanupPercentage := F32 0; MaxActiveSnapshots := 100;
  MaxNodeSize := 4096; RenewSnapRootAfter := 1000000000; CompactionThld := 2;
  DelayDuringCompaction := 0; NodesLogMaxOpenedFiles := 10;
  HistoryLogMaxOpenedFiles := 1; CommitLogMaxOpenedFiles := 1 |}.

Definition unchecked_index : IndexOptions := {|
  CacheSize := 100000; FlushThld := 100000; SyncThld := 0;
  FlushBufferSize := 4096; CleanupPercentage := F32 0; MaxActiveSnapshots := 100;
  MaxNodeSize := 4096; RenewSnapRootAfter := 1000000000; CompactionThld := -1;
  DelayDuringCompaction := -1; NodesLogMaxOpenedFiles := 10;
  HistoryLogMaxOpenedFiles := 1; CommitLogMaxOpenedFiles := 1 |}.

(** The tbtree package's defaults, which DefaultIndexOptions copies; they
    are declared outside this file. *)
Record TbtreeDefaults := {
  DefaultCacheSize : Z;
  DefaultFlushThld : Z;
  DefaultSyncThld : Z;
  DefaultFlushBufferSize : Z;
  DefaultCleanUpPercentage : float32;
  DefaultMaxActiveSnapshots : Z;
  DefaultMaxNodeSize : Z;
  DefaultRenewSnapRootAfter : Duration;
  DefaultCompactionThld : Z;
  DefaultNodesLogMaxOpenedFiles : Z;
  DefaultHistoryLogMaxOpenedFiles : Z;
  DefaultCommitLogMaxOpenedFiles : Z
}.

(** [&T{...}]: a struct at an address not used before. *)
Definition alloc {A} (h : gmap positive A) : positive := fresh (dom h).

(** func DefaultIndexOptions() *IndexOptions *)
Definition DefaultIndexOptions (t : TbtreeDefaults) (h : heap) : heap * ptr :=
  let l := alloc h in
  (<[l := {| CacheSize := DefaultCacheSize t; FlushThld := DefaultFlushThld t;
             SyncThld := DefaultSyncThld t; FlushBufferSize := DefaultFlushBufferSize t;
             CleanupPercentage := DefaultCleanUpPercentage t;
             MaxActiveSnapshots := DefaultMaxActiveSnapshots t;
             MaxNodeSize := DefaultMaxNodeSize t;
             RenewSnapRootAfter := DefaultRenewSnapRootAfter t;
             CompactionThld := DefaultCompactionThld t; DelayDuringCompaction := 0;
             NodesLogMaxOpenedFiles := DefaultNodesLogMaxOpenedFiles t;
             HistoryLogMaxOpenedFiles := DefaultHistoryLogMaxOpenedFiles t;
             CommitLogMaxOpenedFiles := DefaultCommitLogMaxOpenedFiles t |}]> h, Some l).

(** Sample values for tbtree's defaults, used in the examples. *)
Definition tbtree_defaults : TbtreeDefaults := {|
  DefaultCacheSize := 100000; DefaultFlushThld := 100000; DefaultSyncThld := 1000000;
  DefaultFlushBufferSize := 4096; DefaultCleanUpPercentage := F32 0;
  DefaultMaxActiveSnapshots := 100; DefaultMaxNodeSize := 4096;
  DefaultRenewSnapRootAfter := 1000000000; DefaultCompactionThld := 2;
  DefaultNodesLogMaxOpenedFiles := 10; DefaultHistoryLogMaxOpenedFiles := 1;
  DefaultCommitLogMaxOpenedFiles := 1 |}.

End Idx.

Module Opts.

Import Idx.

Record Options := {
  ReadOnly : bool;
  Synced : bool;
  FileMode : N;
  log : option Logger;
  appFactory : option AppFactoryFunc;
  CompactionDisabled : bool;
  MaxConcurrency : Z;
  MaxIOConcurrency : Z;
  MaxLinearProofLen : Z;
  TxLogCacheSize : Z;
  VLogMaxOpenedFiles : Z;
  TxLogMaxOpenedFiles : Z;
  CommitLogMaxOpenedFiles : Z;
  WriteTxHeaderVersion : Z;
  MaxWaitees : Z;
  TimeFunc : option TimeFuncT;
  MaxTxEntries : Z;
  MaxKeyLen : Z;
  MaxValueLen : Z;
  FileSize : Z;
  CompressionFormat : Z;
  CompressionLevel : Z;
  IndexOpts : ptr
}.


(** The heap: the Options and IndexOptions structs, by address. *)
Record heap := {
  opts_heap : gmap positive Options;
  idx_heap : gmap positive IndexOptions
}.

(** [opts.F = x; return opts] on the heap; nil receiver panics ([None]). *)
Definition update_opts (h : heap) (p : ptr) (f : Options -> Options)
  : option (heap * ptr) :=
  match p with
  | None => None
  | Some l =>
      match opts_heap h !! l with
      | None => None
      | Some o => Some ({| opts_heap := <[l := f o]> (opts_heap h);
                           idx_heap := idx_heap h |}, p)
      end
  end.

(** The platform ceilings of the store package (MaxParallelIO, MaxKeyLen,
    MaxTxHeaderVersion) are declared in other files of the package; the
    validation is stated for any values of them. *)
Section Valid.

Variables MaxParallelIO MaxKeyLen_ceiling MaxTxHeaderVersion : Z.

(** const MaxFileSize = (1 << 31) - 1 // 2Gb *)
Definition MaxFileSize : Z := Z.shiftl 1 31 - 1.

(** func validOptions(opts *Options) bool *)
Definition validOptions (h : heap) (p : ptr) : bool :=
  match p with
  | None => false
  | Some l =>
      match opts_heap h !! l with
      | None => false
      | Some opts =>
          (MaxConcurrency opts >? 0) &&
          (MaxIOConcurrency opts >? 0) &&
          (MaxIOConcurrency opts <=? MaxParallelIO) &&
          (MaxLinearProofLen opts >=? 0) &&
          (VLogMaxOpenedFiles opts >? 0) &&
          (TxLogMaxOpenedFiles opts >? 0) &&
          (CommitLogMaxOpenedFiles opts >? 0) &&
          (TxLogCacheSize opts >=? 0) &&
          (MaxWaitees opts >=? 0) &&
          notNil (TimeFunc opts) &&
          (WriteTxHeaderVersion opts >=? 0) &&
          (WriteTxHeaderVersion opts <=? MaxTxHeaderVersion) &&
          (MaxTxEntries opts >? 0) &&
          (MaxKeyLen opts >? 0) &&
          (MaxKeyLen opts <=? MaxKeyLen_ceiling) &&
          (MaxValueLen opts >? 0) &&
          (FileSize opts >? 0) &&
          (FileSize opts <? MaxFileSize) &&
          notNil (log opts) &&
          validIndexOptions (idx_heap h) (IndexOpts opts)
      end
  end.

End Valid.

(** func (opts *Options) WithReadOnly(readOnly) *Options *)
Definition WithReadOnly (h : heap) (p : ptr) (readOnly : bool) : option (heap * ptr) :=
  update_opts h p (fun o =>
    {| ReadOnly := readOnly; Synced := Synced o; FileMode := FileMode o;
       log := log o; appFactory := appFactory o; CompactionDisabled := CompactionDisabled o;
       MaxConcurrency := MaxConcurrency o; MaxIOConcurrency := MaxIOConcurrency o; MaxLinearProofLen := MaxLinearProofLen o;
       TxLogCacheSize := TxLogCacheSize o; VLogMaxOpenedFiles := VLogMaxOpenedFiles o; TxLogMaxOpenedFiles := TxLogMaxOpenedFiles o;
       CommitLogMaxOpenedFiles := CommitLogMaxOpenedFiles o; WriteTxHeaderVersion := WriteTxHeaderVersion o; MaxWaitees := MaxWaitees o;
       TimeFunc := TimeFunc o; MaxTxEntries := MaxTxEntries o; MaxKeyLen := MaxKeyLen o;
       MaxValueLen := MaxValueLen o; FileSize := FileSize o; CompressionFormat := CompressionFormat o;
       CompressionLevel := CompressionLevel o; IndexOpts := IndexOpts o |}).

(** func (opts *Options) WithSynced(synced) *Options *)
Definition WithSynced (h : heap) (p : ptr) (synced : bool) : option (heap * ptr) :=
  update_opts h p (fun o =>
    {| ReadOnly := ReadOnly o; Synced := synced; FileMode := FileMode o;
       log := log o; appFactory := appFactory o; CompactionDisabled := CompactionDisabled o;
       MaxConcurrency := MaxConcurrency o; MaxIOConcurrency := MaxIOConcurrency o; MaxLinearProofLen := MaxLinearProofLen o;
       TxLogCacheSize := TxLogCacheSize o; VLogMaxOpenedFiles := VLogMaxOpenedFiles o; TxLogMaxOpenedFiles := TxLogMaxOpenedFiles o;
       CommitLogMaxOpenedFiles := CommitLogMaxOpenedFiles o; WriteTxHeaderVersion := WriteTxHeaderVersion o; MaxWaitees := MaxWaitees o;
       TimeFunc := TimeFunc o; MaxTxEntries := MaxTxEntries o; MaxKeyLen := MaxKeyLen o;
       MaxValueLen := MaxValueLen o; FileSize := FileSize o; CompressionFormat := CompressionFormat o;
       CompressionLevel := CompressionLevel o; IndexOpts := IndexOpts o |}).

(** func (opts *Options) WithFileMode(fileMode) *Options *)
Definition WithFileMode (h : heap) (p : ptr) (fileMode : N) : option (heap * ptr) :=
  update_opts h p (fun o =>
    {| ReadOnly := ReadOnly o; Synced := Synced o; FileMode := fileMode;
       log := log o; appFactory := appFactory o; CompactionDisabled := CompactionDisabled o;
       MaxConcurrency := MaxConcurrency o; MaxIOConcurrency := MaxIOConcurrency o; MaxLinearProofLen := MaxLinearProofLen o;
       TxLogCacheSize := TxLogCacheSize o; VLogMaxOpenedFiles := VLogMaxOpenedFiles o; TxLogMaxOpenedFiles := TxLogMaxOpenedFiles o;
       CommitLogMaxOpenedFiles := CommitLogMaxOpenedFiles o; WriteTxHeaderVersion := WriteTxHeaderVersion o; MaxWaitees := MaxWaitees o;
       TimeFunc := TimeFunc o; MaxTxEntries := MaxTxEntries o; MaxKeyLen := MaxKeyLen o;
       MaxValueLen := MaxValueLen o; FileSize := FileSize o; CompressionFormat := CompressionFormat o;
       CompressionLevel := CompressionLevel o; IndexOpts := IndexOpts o |}).

(** func (opts *Options) WithLog(log0) *Options *)
Definition WithLog (h : heap) (p : ptr) (log0 : option Logger) : option (heap * ptr) :=
  update_opts h p (fun o =>
    {| ReadOnly := ReadOnly o; Synced := Synced o; FileMode := FileMode o;
       log := log0; appFactory := appFactory o; CompactionDisabled := CompactionDisabled o;
       MaxConcurrency := MaxConcurrency o; MaxIOConcurrency := MaxIOConcurrency o; MaxLinearProofLen := MaxLinearProofLen o;
       TxLogCacheSize := TxLogCacheSize o; VLogMaxOpenedFiles := VLogMaxOpenedFiles o; TxLogMaxOpenedFiles := TxLogMaxOpenedFiles o;
       CommitLogMaxOpenedFiles := CommitLogMaxOpenedFiles o; WriteTxHeaderVersion := WriteTxHeaderVersion o; MaxWaitees := MaxWaitees o;
       TimeFunc := TimeFunc o; MaxTxEntries := MaxTxEntries o; MaxKeyLen := MaxKeyLen o;
       MaxValueLen := MaxValueLen o; FileSize := FileSize o; CompressionFormat := CompressionFormat o;
       CompressionLevel := CompressionLevel o; IndexOpts := IndexOpts o |}).

(** func (opts *Options) WithAppFactory(appFactory0) *Options *)
Definition WithAppFactory (h : heap) (p : ptr) (appFactory0 : option AppFactoryFunc) : option (heap * ptr) :=
  update_opts h p (fun o =>
    {| ReadOnly := ReadOnly o; Synced := Synced o; FileMode := FileMode o;
       log := log o; appFactory := appFactory0; CompactionDisabled := CompactionDisabled o;
       MaxConcurrency := MaxConcurrency o; MaxIOConcurrency := MaxIOConcurrency o; MaxLinearProofLen := MaxLinearProofLen o;
       TxLogCacheSize := TxLogCacheSize o; VLogMaxOpenedFiles := VLogMaxOpenedFiles o; TxLogMaxOpenedFiles := TxLogMaxOpenedFiles o;
       CommitLogMaxOpenedFiles := CommitLogMaxOpenedFiles o; WriteTxHeaderVersion := WriteTxHeaderVersion o; MaxWaitees := MaxWaitees o;
       TimeFunc := TimeFunc o; MaxTxEntries := MaxTxEntries o; MaxKeyLen := MaxKeyLen o;
       MaxValueLen := MaxValueLen o; FileSize := FileSize o; CompressionFormat := CompressionFormat o;
       CompressionLevel := CompressionLevel o; IndexOpts := IndexOpts o |}).

(** func (opts *Options) WithCompactionDisabled(disabled) *Options *)
Definition WithCompactionDisabled (h : heap) (p : ptr) (disabled : bool) : option (heap * ptr) :=
  update_opts h p (fun o =>
    {| ReadOnly := ReadOnly o; Synced := Synced o; FileMode := FileMode o;
       log := log o; appFactory := appFactory o; CompactionDisabled := disabled;
       MaxConcurrency := MaxConcurrency o; MaxIOConcurrency := MaxIOConcurrency o; MaxLinearProofLen := MaxLinearProofLen o;
       TxLogCacheSize := TxLogCacheSize o; VLogMaxOpenedFiles := VLogMaxOpenedFiles o; TxLogMaxOpenedFiles := TxLogMaxOpenedFiles o;
       CommitLogMaxOpenedFiles := CommitLogMaxOpenedFiles o; WriteTxHeaderVersion := WriteTxHeaderVersion o; MaxWaitees := MaxWaitees o;
       TimeFunc := TimeFunc o; MaxTxEntries := MaxTxEntries o; MaxKeyLen := MaxKeyLen o;
       MaxValueLen := MaxValueLen o; FileSize := FileSize o; CompressionFormat := CompressionFormat o;
       CompressionLevel := CompressionLevel o; IndexOpts := IndexOpts o |}).

(** func (opts *Options) WithMaxConcurrency(maxConcurrency) *Options *)
Definition WithMaxConcurrency (h : heap) (p : ptr) (maxConcurrency : Z) : option (heap * ptr) :=
  update_opts h p (fun o =>
    {| ReadOnly := ReadOnly o; Synced := Synced o; FileMode := FileMode o;
       log := log o; appFactory := appFactory o; CompactionDisabled := CompactionDisabled o;
       MaxConcurrency := maxConcurrency; MaxIOConcurrency := MaxIOConcurrency o; MaxLinearProofLen := MaxLinearProofLen o;
       TxLogCacheSize := TxLogCacheSize o; VLogMaxOpenedFiles := VLogMaxOpenedFiles o; TxLogMaxOpenedFiles := TxLogMaxOpenedFiles o;
       CommitLogMaxOpenedFiles := CommitLogMaxOpenedFiles o; WriteTxHeaderVersion := WriteTxHeaderVersion o; MaxWaitees := MaxWaitees o;
       TimeFunc := TimeFunc o; MaxTxEntries := MaxTxEntries o; MaxKeyLen := MaxKeyLen o;
       MaxValueLen := MaxValueLen o; FileSize := FileSize o; CompressionFormat := CompressionFormat o;
       CompressionLevel := CompressionLevel o; IndexOpts := IndexOpts o |}).

(** func (opts *Options) WithMaxIOConcurrency(maxIOConcurrency) *Options *)
Definition WithMaxIOConcurrency (h : heap) (p : ptr) (maxIOConcurrency : Z) : option (heap * ptr) :=
  update_opts h p (fun o =>
    {| ReadOnly := ReadOnly o; Synced := Synced o; FileMode := FileMode o;
       log := log o; appFactory := appFactory o; CompactionDisabled := CompactionDisabled o;
       MaxConcurrency := MaxConcurrency o; MaxIOConcurrency := maxIOConcurrency; MaxLinearProofLen := MaxLinearProofLen o;
       TxLogCacheSize := TxLogCacheSize o; VLogMaxOpenedFiles := VLogMaxOpenedFiles o; TxLogMaxOpenedFiles := TxLogMaxOpenedFiles o;
       CommitLogMaxOpenedFiles := CommitLogMaxOpenedFiles o; WriteTxHeaderVersion := WriteTxHeaderVersion o; MaxWaitees := MaxWaitees o;
       TimeFunc := TimeFunc o; MaxTxEntries := MaxTxEntries o; MaxKeyLen := MaxKeyLen o;
       MaxValueLen := MaxValueLen o; FileSize := FileSize o; CompressionFormat := CompressionFormat o;
       CompressionLevel := CompressionLevel o; IndexOpts := IndexOpts o |}).

(** func (opts *Options) WithMaxLinearProofLen(maxLinearProofLen) *Options *)
Definition WithMaxLinearProofLen (h : heap) (p : ptr) (maxLinearProofLen : Z) : option (heap * ptr) :=
  update_opts h p (fun o =>
    {| ReadOnly := ReadOnly o; Synced := Synced o; FileMode := FileMode o;
       log := log o; appFactory := appFactory o; CompactionDisabled := CompactionDisabled o;
       MaxConcurrency := MaxConcurrency o; MaxIOConcurrency := MaxIOConcurrency o; MaxLinearProofLen := maxLinearProofLen;
       TxLogCacheSize := TxLogCacheSize o; VLogMaxOpenedFiles := VLogMaxOpenedFiles o; TxLogMaxOpenedFiles := TxLogMaxOpenedFiles o;
       CommitLogMaxOpenedFiles := CommitLogMaxOpenedFiles o; WriteTxHeaderVersion := WriteTxHeaderVersion o; MaxWaitees := MaxWaitees o;
       TimeFunc := TimeFunc o; MaxTxEntries := MaxTxEntries o; MaxKeyLen := MaxKeyLen o;
       MaxValueLen := MaxValueLen o; FileSize := FileSize o; CompressionFormat := CompressionFormat o;
       CompressionLevel := CompressionLevel o; IndexOpts := IndexOpts o |}).

(** func (opts *Options) WithTxLogCacheSize(txLogCacheSize) *Options *)
Definition WithTxLogCacheSize (h : heap) (p : ptr) (txLogCacheSize : Z) : option (heap * ptr) :=
  update_opts h p (fun o =>
    {| ReadOnly := ReadOnly o; Synced := Synced o; FileMode := FileMode o;
       log := log o; appFactory := appFactory o; CompactionDisabled := CompactionDisabled o;
       MaxConcurrency := MaxConcurrency o; MaxIOConcurrency := MaxIOConcurrency o; MaxLinearProofLen := MaxLinearProofLen o;
       TxLogCacheSize := txLogCacheSize; VLogMaxOpenedFiles := VLogMaxOpenedFiles o; TxLogMaxOpenedFiles := TxLogMaxOpenedFiles o;
       CommitLogMaxOpenedFiles := CommitLogMaxOpenedFiles o; WriteTxHeaderVersion := WriteTxHeaderVersion o; MaxWaitees := MaxWaitees o;
       TimeFunc := TimeFunc o; MaxTxEntries := MaxTxEntries o; MaxKeyLen := MaxKeyLen o;
       MaxValueLen := MaxValueLen o; FileSize := FileSize o; CompressionFormat := CompressionFormat o;
       CompressionLevel := CompressionLevel o; IndexOpts := IndexOpts o |}).

(** func (opts *Options) WithVLogMaxOpenedFiles(vLogMaxOpenedFiles) *Options *)
Definition WithVLogMaxOpenedFiles (h : heap) (p : ptr) (vLogMaxOpenedFiles : Z) : option (heap * ptr) :=
  update_opts h p (fun o =>
    {| ReadOnly := ReadOnly o; Synced := Synced o; FileMode := FileMode o;
       log := log o; appFactory := appFactory o; CompactionDisabled := CompactionDisabled o;
       MaxConcurrency := MaxConcurrency o; MaxIOConcurrency := MaxIOConcurrency o; MaxLinearProofLen := MaxLinearProofLen o;
       TxLogCacheSize := TxLogCacheSize o; VLogMaxOpenedFiles := vLogMaxOpenedFiles; TxLogMaxOpenedFiles := TxLogMaxOpenedFiles o;
       CommitLogMaxOpenedFiles := CommitLogMaxOpenedFiles o; WriteTxHeaderVersion := WriteTxHeaderVersion o; MaxWaitees := MaxWaitees o;
       TimeFunc := TimeFunc o; MaxTxEntries := MaxTxEntries o; MaxKeyLen := MaxKeyLen o;
       MaxValueLen := MaxValueLen o; FileSize := FileSize o; CompressionFormat := CompressionFormat o;
       CompressionLevel := CompressionLevel o; IndexOpts := IndexOpts o |}).

(** func (opts *Options) WithTxLogMaxOpenedFiles(txLogMaxOpenedFiles) *Options *)
Definition WithTxLogMaxOpenedFiles (h : heap) (p : ptr) (txLogMaxOpenedFiles : Z) : option (heap * ptr) :=
  update_opts h p (fun o =>
    {| ReadOnly := ReadOnly o; Synced := Synced o; FileMode := FileMode o;
       log := log o; appFactory := appFactory o; CompactionDisabled := CompactionDisabled o;
       MaxConcurrency := MaxConcurrency o; MaxIOConcurrency := MaxIOConcurrency o; MaxLinearProofLen := MaxLinearProofLen o;
       TxLogCacheSize := TxLogCacheSize o; VLogMaxOpenedFiles := VLogMaxOpenedFiles o; TxLogMaxOpenedFiles := txLogMaxOpenedFiles;
       CommitLogMaxOpenedFiles := CommitLogMaxOpenedFiles o; WriteTxHeaderVersion := WriteTxHeaderVersion o; MaxWaitees := MaxWaitees o;
       TimeFunc := TimeFunc o; MaxTxEntries := MaxTxEntries o; MaxKeyLen := MaxKeyLen o;
       MaxValueLen := MaxValueLen o; FileSize := FileSize o; CompressionFormat := CompressionFormat o;
       CompressionLevel := CompressionLevel o; IndexOpts := IndexOpts o |}).

(** func (opts *Options) WithCommitLogMaxOpenedFiles(commitLogMaxOpenedFiles) *Options *)
Definition WithCommitLogMaxOpenedFiles (h : heap) (p : ptr) (commitLogMaxOpenedFiles : Z) : option (heap * ptr) :=
  update_opts h p (fun o =>
    {| ReadOnly := ReadOnly o; Synced := Synced o; FileMode := FileMode o;
       log := log o; appFactory := appFactory o; CompactionDisabled := CompactionDisabled o;
       MaxConcurrency := MaxConcurrency o; MaxIOConcurrency := MaxIOConcurrency o; MaxLinearProofLen := MaxLinearProofLen o;
       TxLogCacheSize := TxLogCacheSize o; VLogMaxOpenedFiles := VLogMaxOpenedFiles o; TxLogMaxOpenedFiles := TxLogMaxOpenedFiles o;
       CommitLogMaxOpenedFiles := commitLogMaxOpenedFiles; WriteTxHeaderVersion := WriteTxHeaderVersion o; MaxWaitees := MaxWaitees o;
       TimeFunc := TimeFunc o; MaxTxEntries := MaxTxEntries o; MaxKeyLen := MaxKeyLen o;
       MaxValueLen := MaxValueLen o; FileSize := FileSize o; CompressionFormat := CompressionFormat o;
       CompressionLevel := CompressionLevel o; IndexOpts := IndexOpts o |}).

(** func (opts *Options) WithWriteTxHeaderVersion(version) *Options *)
Definition WithWriteTxHeaderVersion (h : heap) (p : ptr) (version : Z) : option (heap * ptr) :=
  update_opts h p (fun o =>
    {| ReadOnly := ReadOnly o; Synced := Synced o; FileMode := FileMode o;
       log := log o; appFactory := appFactory o; CompactionDisabled := CompactionDisabled o;
       MaxConcurrency := MaxConcurrency o; MaxIOConcurrency := MaxIOConcurrency o; MaxLinearProofLen := MaxLinearProofLen o;
       TxLogCacheSize := TxLogCacheSize o; VLogMaxOpenedFiles := VLogMaxOpenedFiles o; TxLogMaxOpenedFiles := TxLogMaxOpenedFiles o;
       CommitLogMaxOpenedFiles := CommitLogMaxOpenedFiles o; WriteTxHeaderVersion := version; MaxWaitees := MaxWaitees o;
       TimeFunc := TimeFunc o; MaxTxEntries := MaxTxEntries o; MaxKeyLen := MaxKeyLen o;
       MaxValueLen := MaxValueLen o; FileSize := FileSize o; CompressionFormat := CompressionFormat o;
       CompressionLevel := CompressionLevel o; IndexOpts := IndexOpts o |}).

(** func (opts *Options) WithMaxWaitees(maxWaitees) *Options *)
Definition WithMaxWaitees (h : heap) (p : ptr) (maxWaitees : Z) : option (heap * ptr) :=
  update_opts h p (fun o =>
    {| ReadOnly := ReadOnly o; Synced := Synced o; FileMode := FileMode o;
       log := log o; appFactory := appFactory o; CompactionDisabled := CompactionDisabled o;
       MaxConcurrency := MaxConcurrency o; MaxIOConcurrency := MaxIOConcurrency o; MaxLinearProofLen := MaxLinearProofLen o;
       TxLogCacheSize := TxLogCacheSize o; VLogMaxOpenedFiles := VLogMaxOpenedFiles o; TxLogMaxOpenedFiles := TxLogMaxOpenedFiles o;
       CommitLogMaxOpenedFiles := CommitLogMaxOpenedFiles o; WriteTxHeaderVersion := WriteTxHeaderVersion o; MaxWaitees := maxWaitees;
       TimeFunc := TimeFunc o; MaxTxEntries := MaxTxEntries o; MaxKeyLen := MaxKeyLen o;
       MaxValueLen := MaxValueLen o; FileSize := FileSize o; CompressionFormat := CompressionFormat o;
       CompressionLevel := CompressionLevel o; IndexOpts := IndexOpts o |}).

(** func (opts *Options) WithTimeFunc(timeFunc) *Options *)
Definition WithTimeFunc (h : heap) (p : ptr) (timeFunc : option TimeFuncT) : option (heap * ptr) :=
  update_opts h p (fun o =>
    {| ReadOnly := ReadOnly o; Synced := Synced o; FileMode := FileMode o;
       log := log o; appFactory := appFactory o; CompactionDisabled := CompactionDisabled o;
       MaxConcurrency := MaxConcurrency o; MaxIOConcurrency := MaxIOConcurrency o; MaxLinearProofLen := MaxLinearProofLen o;
       TxLogCacheSize := TxLogCacheSize o; VLogMaxOpenedFiles := VLogMaxOpenedFiles o; TxLogMaxOpenedFiles := TxLogMaxOpenedFiles o;
       CommitLogMaxOpenedFiles := CommitLogMaxOpenedFiles o; WriteTxHeaderVersion := WriteTxHeaderVersion o; MaxWaitees := MaxWaitees o;
       TimeFunc := timeFunc; MaxTxEntries := MaxTxEntries o; MaxKeyLen := MaxKeyLen o;
       MaxValueLen := MaxValueLen o; FileSize := FileSize o; CompressionFormat := CompressionFormat o;
       CompressionLevel := CompressionLevel o; IndexOpts := IndexOpts o |}).

(** func (opts *Options) WithMaxTxEntries(maxTxEntries) *Options *)
Definition WithMaxTxEntries (h : heap) (p : ptr) (maxTxEntries : Z) : option (heap * ptr) :=
  update_opts h p (fun o =>
    {| ReadOnly := ReadOnly o; Synced := Synced o; FileMode := FileMode o;
       log := log o; appFactory := appFactory o; CompactionDisabled := CompactionDisabled o;
       MaxConcurrency := MaxConcurrency o; MaxIOConcurrency := MaxIOConcurrency o; MaxLinearProofLen := MaxLinearProofLen o;
       TxLogCacheSize := TxLogCacheSize o; VLogMaxOpenedFiles := VLogMaxOpenedFiles o; TxLogMaxOpenedFiles := TxLogMaxOpenedFiles o;
       CommitLogMaxOpenedFiles := CommitLogMaxOpenedFiles o; WriteTxHeaderVersion := WriteTxHeaderVersion o; MaxWaitees := MaxWaitees o;
       TimeFunc := TimeFunc o; MaxTxEntries := maxTxEntries; MaxKeyLen := MaxKeyLen o;
       MaxValueLen := MaxValueLen o; FileSize := FileSize o; CompressionFormat := CompressionFormat o;
       CompressionLevel := CompressionLevel o; IndexOpts := IndexOpts o |}).

(** func (opts *Options) WithMaxKeyLen(maxKeyLen) *Options *)
Definition WithMaxKeyLen (h : heap) (p : ptr) (maxKeyLen : Z) : option (heap * ptr) :=
  update_opts h p (fun o =>
    {| ReadOnly := ReadOnly o; Synced := Synced o; FileMode := FileMode o;
       log := log o; appFactory := appFactory o; CompactionDisabled := CompactionDisabled o;
       MaxConcurrency := MaxConcurrency o; MaxIOConcurrency := MaxIOConcurrency o; MaxLinearProofLen := MaxLinearProofLen o;
       TxLogCacheSize := TxLogCacheSize o; VLogMaxOpenedFiles := VLogMaxOpenedFiles o; TxLogMaxOpenedFiles := TxLogMaxOpenedFiles o;
       CommitLogMaxOpenedFiles := CommitLogMaxOpenedFiles o; WriteTxHeaderVersion := WriteTxHeaderVersion o; MaxWaitees := MaxWaitees o;
       TimeFunc := TimeFunc o; MaxTxEntries := MaxTxEntries o; MaxKeyLen := maxKeyLen;
       MaxValueLen := MaxValueLen o; FileSize := FileSize o; CompressionFormat := CompressionFormat o;
       CompressionLevel := CompressionLevel o; IndexOpts := IndexOpts o |}).

(** func (opts *Options) WithMaxValueLen(maxValueLen) *Options *)
Definition WithMaxValueLen (h : heap) (p : ptr) (maxValueLen : Z) : option (heap * ptr) :=
  update_opts h p (fun o =>
    {| ReadOnly := ReadOnly o; Synced := Synced o; FileMode := FileMode o;
       log := log o; appFactory := appFactory o; CompactionDisabled := CompactionDisabled o;
       MaxConcurrency := MaxConcurrency o; MaxIOConcurrency := MaxIOConcurrency o; MaxLinearProofLen := MaxLinearProofLen o;
       TxLogCacheSize := TxLogCacheSize o; VLogMaxOpenedFiles := VLogMaxOpenedFiles o; TxLogMaxOpenedFiles := TxLogMaxOpenedFiles o;
       CommitLogMaxOpenedFiles := CommitLogMaxOpenedFiles o; WriteTxHeaderVersion := WriteTxHeaderVersion o; MaxWaitees := MaxWaitees o;
       TimeFunc := TimeFunc o; MaxTxEntries := MaxTxEntries o; MaxKeyLen := MaxKeyLen o;
       MaxValueLen := maxValueLen; FileSize := FileSize o; CompressionFormat := CompressionFormat o;
       CompressionLevel := CompressionLevel o; IndexOpts := IndexOpts o |}).

(** func (opts *Options) WithFileSize(fileSize) *Options *)
Definition WithFileSize (h : heap) (p : ptr) (fileSize : Z) : option (heap * ptr) :=
  update_opts h p (fun o =>
    {| ReadOnly := ReadOnly o; Synced := Synced o; FileMode := FileMode o;
       log := log o; appFactory := appFactory o; CompactionDisabled := CompactionDisabled o;
       MaxConcurrency := MaxConcurrency o; MaxIOConcurrency := MaxIOConcurrency o; MaxLinearProofLen := MaxLinearProofLen o;
       TxLogCacheSize := TxLogCacheSize o; VLogMaxOpenedFiles := VLogMaxOpenedFiles o; TxLogMaxOpenedFiles := TxLogMaxOpenedFiles o;
       CommitLogMaxOpenedFiles := CommitLogMaxOpenedFiles o; WriteTxHeaderVersion := WriteTxHeaderVersion o; MaxWaitees := MaxWaitees o;
       TimeFunc := TimeFunc o; MaxTxEntries := MaxTxEntries o; MaxKeyLen := MaxKeyLen o;
       MaxValueLen := MaxValueLen o; FileSize := fileSize; CompressionFormat := CompressionFormat o;
       CompressionLevel := CompressionLevel o; IndexOpts := IndexOpts o |}).

(** func (opts *Options) WithCompressionFormat(compressionFormat) *Options *)
Definition WithCompressionFormat (h : heap) (p : ptr) (compressionFormat : Z) : option (heap * ptr) :=
  update_opts h p (fun o =>
    {| ReadOnly := ReadOnly o; Synced := Synced o; FileMode := FileMode o;
       log := log o; appFactory := appFactory o; CompactionDisabled := CompactionDisabled o;
       MaxConcurrency := MaxConcurrency o; MaxIOConcurrency := MaxIOConcurrency o; MaxLinearProofLen := MaxLinearProofLen o;
       TxLogCacheSize := TxLogCacheSize o; VLogMaxOpenedFiles := VLogMaxOpenedFiles o; TxLogMaxOpenedFiles := TxLogMaxOpenedFiles o;
       CommitLogMaxOpenedFiles := CommitLogMaxOpenedFiles o; WriteTxHeaderVersion := WriteTxHeaderVersion o; MaxWaitees := MaxWaitees o;
       TimeFunc := TimeFunc o; MaxTxEntries := MaxTxEntries o; MaxKeyLen := MaxKeyLen o;
       MaxValueLen := MaxValueLen o; FileSize := FileSize o; CompressionFormat := compressionFormat;
       CompressionLevel := CompressionLevel o; IndexOpts := IndexOpts o |}).

(** func (opts *Options) WithCompresionLevel(compressionLevel) *Options *)
Definition WithCompresionLevel (h : heap) (p : ptr) (compressionLevel : Z) : option (heap * ptr) :=
  update_opts h p (fun o =>
    {| ReadOnly := ReadOnly o; Synced := Synced o; FileMode := FileMode o;
       log := log o; appFactory := appFactory o; CompactionDisabled := CompactionDisabled o;
       MaxConcurrency := MaxConcurrency o; MaxIOConcurrency := MaxIOConcurrency o; MaxLinearProofLen := MaxLinearProofLen o;
       TxLogCacheSize := TxLogCacheSize o; VLogMaxOpenedFiles := VLogMaxOpenedFiles o; TxLogMaxOpenedFiles := TxLogMaxOpenedFiles o;
       CommitLogMaxOpenedFiles := CommitLogMaxOpenedFiles o; WriteTxHeaderVersion := WriteTxHeaderVersion o; MaxWaitees := MaxWaitees o;
       TimeFunc := TimeFunc o; MaxTxEntries := MaxTxEntries o; MaxKeyLen := MaxKeyLen o;
       MaxValueLen := MaxValueLen o; FileSize := FileSize o; CompressionFormat := CompressionFormat o;
       CompressionLevel := compressionLevel; IndexOpts := IndexOpts o |}).

(** func (opts *Options) WithIndexOptions(indexOptions) *Options *)
Definition WithIndexOptions (h : heap) (p : ptr) (indexOptions : ptr) : option (heap * ptr) :=
  update_opts h p (fun o =>
    {| ReadOnly := ReadOnly o; Synced := Synced o; FileMode := FileMode o;
       log := log o; appFactory := appFactory o; CompactionDisabled := CompactionDisabled o;
       MaxConcurrency := MaxConcurrency o; MaxIOConcurrency := MaxIOConcurrency o; MaxLinearProofLen := MaxLinearProofLen o;
       TxLogCacheSize := TxLogCacheSize o; VLogMaxOpenedFiles := VLogMaxOpenedFiles o; TxLogMaxOpenedFiles := TxLogMaxOpenedFiles o;
       CommitLogMaxOpenedFiles := CommitLogMaxOpenedFiles o; WriteTxHeaderVersion := WriteTxHeaderVersion o; MaxWaitees := MaxWaitees o;
       TimeFunc := TimeFunc o; MaxTxEntries := MaxTxEntries o; MaxKeyLen := MaxKeyLen o;
       MaxValueLen := MaxValueLen o; FileSize := FileSize o; CompressionFormat := CompressionFormat o;
       CompressionLevel := CompressionLevel o; IndexOpts := indexOptions |}).

(** One call of a setter, with its argument. *)
Inductive opt_setter :=
  | S_WithReadOnly (readOnly : bool)
  | S_WithSynced (synced : bool)
  | S_WithFileMode (fileMode : N)
  | S_WithLog (log0 : option Logger)
  | S_WithAppFactory (appFactory0 : option AppFactoryFunc)
  | S_WithCompactionDisabled (disabled : bool)
  | S_WithMaxConcurrency (maxConcurrency : Z)
  | S_WithMaxIOConcurrency (maxIOConcurrency : Z)
  | S_WithMaxLinearProofLen (maxLinearProofLen : Z)
  | S_WithTxLogCacheSize (txLogCacheSize : Z)
  | S_WithVLogMaxOpenedFiles (vLogMaxOpenedFiles : Z)
  | S_WithTxLogMaxOpenedFiles (txLogMaxOpenedFiles : Z)
  | S_WithCommitLogMaxOpenedFiles (commitLogMaxOpenedFiles : Z)
  | S_WithWriteTxHeaderVersion (version : Z)
  | S_WithMaxWaitees (maxWaitees : Z)
  | S_WithTimeFunc (timeFunc : option TimeFuncT)
  | S_WithMaxTxEntries (maxTxEntries : Z)
  | S_WithMaxKeyLen (maxKeyLen : Z)
  | S_WithMaxValueLen (maxValueLen : Z)
  | S_WithFileSize (fileSize : Z)
  | S_WithCompressionFormat (compressionFormat : Z)
  | S_WithCompresionLevel (compressionLevel : Z)
  | S_WithIndexOptions (indexOptions : ptr).

(** The fields of [Options]. *)
Inductive opt_field :=
  | F_ReadOnly
  | F_Synced
  | F_FileMode
  | F_log
  | F_appFactory
  | F_CompactionDisabled
  | F_MaxConcurrency
  | F_MaxIOConcurrency
  | F_MaxLinearProofLen
  | F_TxLogCacheSize
  | F_VLogMaxOpenedFiles
  | F_TxLogMaxOpenedFiles
  | F_CommitLogMaxOpenedFiles
  | F_WriteTxHeaderVersion
  | F_MaxWaitees
  | F_TimeFunc
  | F_MaxTxEntries
  | F_MaxKeyLen
  | F_MaxValueLen
  | F_FileSize
  | F_CompressionFormat
  | F_CompressionLevel
  | F_IndexOpts.

Definition apply_opt_setter (s : opt_setter) (h : heap) (p : ptr) : option (heap * ptr) :=
  match s with
  | S_WithReadOnly x => WithReadOnly h p x
  | S_WithSynced x => WithSynced h p x
  | S_WithFileMode x => WithFileMode h p x
  | S_WithLog x => WithLog h p x
  | S_WithAppFactory x => WithAppFactory h p x
  | S_WithCompactionDisabled x => WithCompactionDisabled h p x
  | S_WithMaxConcurrency x => WithMaxConcurrency h p x
  | S_WithMaxIOConcurrency x => WithMaxIOConcurrency h p x
  | S_WithMaxLinearProofLen x => WithMaxLinearProofLen h p x
  | S_WithTxLogCacheSize x => WithTxLogCacheSize h p x
  | S_WithVLogMaxOpenedFiles x => WithVLogMaxOpenedFiles h p x
  | S_WithTxLogMaxOpenedFiles x => WithTxLogMaxOpenedFiles h p x
  | S_WithCommitLogMaxOpenedFiles x => WithCommitLogMaxOpenedFiles h p x
  | S_WithWriteTxHeaderVersion x => WithWriteTxHeaderVersion h p x
  | S_WithMaxWaitees x => WithMaxWaitees h p x
  | S_WithTimeFunc x => WithTimeFunc h p x
  | S_WithMaxTxEntries x => WithMaxTxEntries h p x
  | S_WithMaxKeyLen x => WithMaxKeyLen h p x
  | S_WithMaxValueLen x => WithMaxValueLen h p x
  | S_WithFileSize x => WithFileSize h p x
  | S_WithCompressionFormat x => WithCompressionFormat h p x
  | S_WithCompresionLevel x => WithCompresionLevel h p x
  | S_WithIndexOptions x => WithIndexOptions h p x
  end.

(** The field a setter names. *)
Definition opt_setter_field (s : opt_setter) : opt_field :=
  match s with
  | S_WithReadOnly _ => F_ReadOnly
  | S_WithSynced _ => F_Synced
  | S_WithFileMode _ => F_FileMode
  | S_WithLog _ => F_log
  | S_WithAppFactory _ => F_appFactory
  | S_WithCompactionDisabled _ => F_CompactionDisabled
  | S_WithMaxConcurrency _ => F_MaxConcurrency
  | S_WithMaxIOConcurrency _ => F_MaxIOConcurrency
  | S_WithMaxLinearProofLen _ => F_MaxLinearProofLen
  | S_WithTxLogCacheSize _ => F_TxLogCacheSize
  | S_WithVLogMaxOpenedFiles _ => F_VLogMaxOpenedFiles
  | S_WithTxLogMaxOpenedFiles _ => F_TxLogMaxOpenedFiles
  | S_WithCommitLogMaxOpenedFiles _ => F_CommitLogMaxOpenedFiles
  | S_WithWriteTxHeaderVersion _ => F_WriteTxHeaderVersion
  | S_WithMaxWaitees _ => F_MaxWaitees
  | S_WithTimeFunc _ => F_TimeFunc
  | S_WithMaxTxEntries _ => F_MaxTxEntries
  | S_WithMaxKeyLen _ => F_MaxKeyLen
  | S_WithMaxValueLen _ => F_MaxValueLen
  | S_WithFileSize _ => F_FileSize
  | S_WithCompressionFormat _ => F_CompressionFormat
  | S_WithCompresionLevel _ => F_CompressionLevel
  | S_WithIndexOptions _ => F_IndexOpts
  end.

(** The setter's field holds its argument in [o]. *)
Definition opt_setter_holds (s : opt_setter) (o : Options) : Prop :=
  match s with
  | S_WithReadOnly x => ReadOnly o = x
  | S_WithSynced x => Synced o = x
  | S_WithFileMode x => FileMode o = x
  | S_WithLog x => log o = x
  | S_WithAppFactory x => appFactory o = x
  | S_WithCompactionDisabled x => CompactionDisabled o = x
  | S_WithMaxConcurrency x => MaxConcurrency o = x
  | S_WithMaxIOConcurrency x => MaxIOConcurrency o = x
  | S_WithMaxLinearProofLen x => MaxLinearProofLen o = x
  | S_WithTxLogCacheSize x => TxLogCacheSize o = x
  | S_WithVLogMaxOpenedFiles x => VLogMaxOpenedFiles o = x
  | S_WithTxLogMaxOpenedFiles x => TxLogMaxOpenedFiles o = x
  | S_WithCommitLogMaxOpenedFiles x => CommitLogMaxOpenedFiles o = x
  | S_WithWriteTxHeaderVersion x => WriteTxHeaderVersion o = x
  | S_WithMaxWaitees x => MaxWaitees o = x
  | S_WithTimeFunc x => TimeFunc o = x
  | S_WithMaxTxEntries x => MaxTxEntries o = x
  | S_WithMaxKeyLen x => MaxKeyLen o = x
  | S_WithMaxValueLen x => MaxValueLen o = x
  | S_WithFileSize x => FileSize o = x
  | S_WithCompressionFormat x => CompressionFormat o = x
  | S_WithCompresionLevel x => CompressionLevel o = x
  | S_WithIndexOptions x => IndexOpts o = x
  end.

(** [o] and [o'] agree on field [f]. *)
Definition opt_field_agree (f : opt_field) (o o' : Options) : Prop :=
  match f with
  | F_ReadOnly => ReadOnly o = ReadOnly o'
  | F_Synced => Synced o = Synced o'
  | F_FileMode => FileMode o = FileMode o'
  | F_log => log o = log o'
  | F_appFactory => appFactory o = appFactory o'
  | F_CompactionDisabled => CompactionDisabled o = CompactionDisabled o'
  | F_MaxConcurrency => MaxConcurrency o = MaxConcurrency o'
  | F_MaxIOConcurrency => MaxIOConcurrency o = MaxIOConcurrency o'
  | F_MaxLinearProofLen => MaxLinearProofLen o = MaxLinearProofLen o'
  | F_TxLogCacheSize => TxLogCacheSize o = TxLogCacheSize o'
  | F_VLogMaxOpenedFiles => VLogMaxOpenedFiles o = VLogMaxOpenedFiles o'
  | F_TxLogMaxOpenedFiles => TxLogMaxOpenedFiles o = TxLogMaxOpenedFiles o'
  | F_CommitLogMaxOpenedFiles => CommitLogMaxOpenedFiles o = CommitLogMaxOpenedFiles o'
  | F_WriteTxHeaderVersion => WriteTxHeaderVersion o = WriteTxHeaderVersion o'
  | F_MaxWaitees => MaxWaitees o = MaxWaitees o'
  | F_TimeFunc => TimeFunc o = TimeFunc o'
  | F_MaxTxEntries => MaxTxEntries o = MaxTxEntries o'
  | F_MaxKeyLen => MaxKeyLen o = MaxKeyLen o'
  | F_MaxValueLen => MaxValueLen o = MaxValueLen o'
  | F_FileSize => FileSize o = FileSize o'
  | F_CompressionFormat => CompressionFormat o = CompressionFormat o'
  | F_CompressionLevel => CompressionLevel o = CompressionLevel o'
  | F_IndexOpts => IndexOpts o = IndexOpts o'
  end.


(** A chain of setters, each called on the pointer the previous returned. *)
Fixpoint run_opt_chain (cs : list opt_setter) (h : heap) (p : ptr) : option (heap * ptr) :=
  match cs with
  | [] => Some (h, p)
  | c :: cs' =>
      match apply_opt_setter c h p with
      | None => None
      | Some (h', p') => run_opt_chain cs' h' p'
      end
  end.

(** Sample options (immudb's defaults; logger, time function and index
    options at address 1). *)
Definition sample_options : Options := {|
  ReadOnly := false; Synced := true; FileMode := 493%N; log := Some 0%nat;
  appFactory := None; CompactionDisabled := false; MaxConcurrency := 30;
  MaxIOConcurrency := 1; MaxLinearProofLen := 1024; TxLogCacheSize := 1000;
  VLogMaxOpenedFiles := 10; TxLogMaxOpenedFiles := 10; CommitLogMaxOpenedFiles := 10;
  WriteTxHeaderVersion := 1; MaxWaitees := 1000; TimeFunc := Some 0%nat;
  MaxTxEntries := 1024; MaxKeyLen := 1024; MaxValueLen := 4096;
  FileSize := 524288000; CompressionFormat := 0; CompressionLevel := 0;
  IndexOpts := Some 1%positive |}.

Definition sample_heap : heap :=
  {| opts_heap := {[1%positive := sample_options]};
     idx_heap := {[1%positive := sample_index]} |}.

Definition unchecked_heap : heap :=
  {| opts_heap := {[1%positive := sample_options]};
     idx_heap := {[1%positive := unchecked_index]} |}.

(** The fields validOptions does not read. *)
Definition unvalidated (f : opt_field) : bool :=
  match f with
  | F_ReadOnly | F_Synced | F_FileMode | F_appFactory | F_CompactionDisabled
  | F_CompressionFormat | F_CompressionLevel => true
  | _ => false
  end.

Definition DefaultMaxConcurrency : Z := 30.
Definition DefaultMaxIOConcurrency : Z := 1.
Definition DefaultMaxTxEntries : Z := Z.shiftl 1 10.
Definition DefaultMaxKeyLen : Z := 1024.
Definition DefaultMaxValueLen : Z := 4096.
(** os.FileMode(0755) *)
Definition DefaultFileMode : N := 493.
Definition DefaultMaxLinearProofLen : Z := Z.shiftl 1 10.
Definition DefaultTxLogCacheSize : Z := 1000.
Definition DefaultMaxWaitees : Z := 1000.
Definition DefaultVLogMaxOpenedFiles : Z := 10.
Definition DefaultTxLogMaxOpenedFiles : Z := 10.
Definition DefaultCommitLogMaxOpenedFiles : Z := 10.

(** What DefaultOptions takes from other packages: multiapp's and
    appendable's defaults, tbtree's defaults, the logger
    logger.NewSimpleLogger returns and the closure around time.Now (both
    non-nil). DefaultWriteTxHeaderVersion is MaxTxHeaderVersion, passed
    along as in [validOptions]. *)
Record ExternalDefaults := {
  DefaultFileSize : Z;
  DefaultCompressionFormat : Z;
  DefaultCompressionLevel : Z;
  tbtree : TbtreeDefaults;
  simpleLogger : Logger;
  timeNow : TimeFuncT
}.

(** func DefaultOptions() *Options *)
Definition DefaultOptions (MaxTxHeaderVersion : Z) (c : ExternalDefaults) (h : heap)
  : heap * ptr :=
  let '(ih, ip) := DefaultIndexOptions (tbtree c) (idx_heap h) in
  let l := alloc (opts_heap h) in
  ({| opts_heap := <[l := {|
        ReadOnly := false; Synced := true; FileMode := DefaultFileMode;
        log := Some (simpleLogger c); appFactory := None; CompactionDisabled := false;
        MaxConcurrency := DefaultMaxConcurrency;
        MaxIOConcurrency := DefaultMaxIOConcurrency;
        MaxLinearProofLen := DefaultMaxLinearProofLen;
        TxLogCacheSize := DefaultTxLogCacheSize;
        VLogMaxOpenedFiles := DefaultVLogMaxOpenedFiles;
        TxLogMaxOpenedFiles := DefaultTxLogMaxOpenedFiles;
        CommitLogMaxOpenedFiles := DefaultCommitLogMaxOpenedFiles;
        WriteTxHeaderVersion := MaxTxHeaderVersion;
        MaxWaitees := DefaultMaxWaitees; TimeFunc := Some (timeNow c);
        MaxTxEntries := DefaultMaxTxEntries; MaxKeyLen := DefaultMaxKeyLen;
        MaxValueLen := DefaultMaxValueLen; FileSize := DefaultFileSize c;
        CompressionFormat := DefaultCompressionFormat c;
        CompressionLevel := DefaultCompressionLevel c;
        IndexOpts := ip |}]> (opts_heap h);
      idx_heap := ih |}, Some l).

(** Sample external defaults for the examples: multiapp.DefaultFileSize
    (1 << 26), no compression format and appendable's compression level
    BestSpeed (1). *)
Definition external_defaults : ExternalDefaults := {|
  DefaultFileSize := Z.shiftl 1 26; DefaultCompressionFormat := 0;
  DefaultCompressionLevel := 1; tbtree := tbtree_defaults;
  simpleLogger := 0%nat; timeNow := 0%nat |}.

End Opts.

End StoreOptions.

(* ===================================================================== *)
(** ** immuadmin database command (cmd/immuadmin/command/database.go) *)
(* ===================================================================== *)

Module Admin.

Local Open Scope string_scope.

(** The value a flag of a pflag.FlagSet holds, with its declared type. *)
Inductive flag_value :=
  | FBool (b : bool)
  | FString (s : string)
  | FUint32 (n : N).

(** A pflag.FlagSet: the defined flags, by name. *)
Abbreviation FlagSet := (gmap string flag_value).

(** Errors are pflag's messages. *)
Abbreviation error := string.

(** flag.Value.Type() *)
Definition flag_type (v : flag_value) : string :=
  match v with
  | FBool _ => "bool"
  | FString _ => "string"
  | FUint32 _ => "uint32"
  end.

(** flags.GetBool / GetString / GetUint32 (pflag's getFlagType): an error
    when the flag is not defined or has another type. *)
Definition GetBool (flags : FlagSet) (name : string) : error + bool :=
  match flags !! name with
  | Some (FBool b) => inr b
  | Some v => inl ("trying to get bool value of flag of type " ++ flag_type v)
  | None => inl ("flag accessed but not defined: " ++ name)
  end.

Definition GetString (flags : FlagSet) (name : string) : error + string :=
  match flags !! name with
  | Some (FString s) => inr s
  | Some v => inl ("trying to get string value of flag of type " ++ flag_type v)
  | None => inl ("flag accessed but not defined: " ++ name)
  end.

Definition GetUint32 (flags : FlagSet) (name : string) : error + N :=
  match flags !! name with
  | Some (FUint32 n) => inr n
  | Some v => inl ("trying to get uint32 value of flag of type " ++ flag_type v)
  | None => inl ("flag accessed but not defined: " ++ name)
  end.

(** Go's [v, err := f(); if err != nil { return nil, err }]. *)
Definition bind_err {A B} (c : error + A) (k : A -> error + B) : error + B :=
  match c with
  | inl e => inl e
  | inr a => k a
  end.

Local Notation "'let!' x := c 'in' k" := (bind_err c (fun x => k))
  (at level 200, x name, c at level 100, k at level 200).

(** schema.DatabaseSettings (the fields the command sets; the others keep
    their zero values). *)
Record DatabaseSettings := {
  DatabaseName : string;
  Replica : bool;
  MasterDatabase : string;
  MasterAddress : string;
  MasterPort : N;
  ReplicaUsername : string;
  ReplicaPassword : string
}.

(** func prepareDatabaseSettings(db string, flags *pflag.FlagSet) *)
Definition prepareDatabaseSettings (db : string) (flags : FlagSet)
  : error + DatabaseSettings :=
  let! isReplica := GetBool flags "replica" in
  if negb isReplica then
    inr {| DatabaseName := db; Replica := false; MasterDatabase := "";
           MasterAddress := ""; MasterPort := 0%N; ReplicaUsername := "";
           ReplicaPassword := "" |}
  else
  let! masterDatabase := GetString flags "master-database" in
  let! masterAddress := GetString flags "master-address" in
  let! masterPort := GetUint32 flags "master-port" in
  let! replicaUsername := GetString flags "replica-username" in
  let! replicaPassword := GetString flags "replica-username" in
  inr {| DatabaseName := db; Replica := isReplica; MasterDatabase := masterDatabase;
         MasterAddress := masterAddress; MasterPort := masterPort;
         ReplicaUsername := replicaUsername; ReplicaPassword := replicaPassword |}.

(** The RPCs the create and update commands send through immuClient. *)
Inductive rpc :=
  | RpcCreateDatabase (settings : DatabaseSettings)
  | RpcUpdateDatabase (settings : DatabaseSettings).

Definition newline : string := String "010"%char EmptyString.

(** fmt's [%v] of a bool. *)
Definition fmt_bool (b : bool) : string := if b then "true" else "false".

Definition replicationWarning : string :=
  "Replication is a work-in-progress feature. Not ready for production use" ++ newline.

(** cmd/helper's colour codes c.Yellow and c.Reset, and
    [PrintfColorW(w, color, format)], which writes [color + format + Reset]
    with fmt.Fprintf (the warning has no formatting verbs). *)
Definition esc : ascii := "027"%char.
Definition Yellow : string := String esc "[33m".
Definition ColorReset : string := String esc "[0m".
Definition PrintfColorW (color format : string) : string := color ++ format ++ ColorReset.

(** cobra.ExactArgs(n): the error cobra returns before RunE runs. *)
Definition ExactArgs (n : nat) (args : list string) : option error :=
  if Nat.eqb (length args) n then None
  else Some ("accepts " ++ pretty (N.of_nat n) ++ " arg(s), received " ++
             pretty (N.of_nat (length args))).

(** [immuadmin database create {database_name}] run by cobra's Execute,
    once connected. [help] is the value of cobra's --help flag, which
    cobra declares as a bool on every command and checks before the
    arguments: then Execute runs the help function, which writes
    [helpText], and returns nil. Otherwise come the argument check of
    cobra and RunE. [CreateDatabase] is the client's RPC ([None] when it
    succeeds). The result is the RPCs sent, what is written to the
    command's standard output ([cmd.OutOrStdout()]) and the error
    returned; with no output writer set, cobra reports a returned error
    and the usage on standard error. *)
Definition create_cmd (CreateDatabase : DatabaseSettings -> option error)
    (help : bool) (helpText : string)
    (args : list string) (flags : FlagSet) : list rpc * string * option error :=
  if help then ([], helpText, None) else
  match ExactArgs 1 args with
  | Some e => ([], "", Some e)
  | None =>
      let db := hd "" args in
      match prepareDatabaseSettings db flags with
      | inl e => ([], "", Some e)
      | inr settings =>
          let out := if Replica settings then PrintfColorW Yellow replicationWarning else "" in
          match CreateDatabase settings with
          | Some e => ([RpcCreateDatabase settings], out, Some e)
          | None =>
              ([RpcCreateDatabase settings],
               out ++ "database '" ++ db ++ "' (replica = " ++ fmt_bool (Replica settings) ++
               ") successfully created" ++ newline, None)
          end
      end
  end.


(** The flags the create and update commands declare, with their
    defaults; a flag given on the command line ([Some v]) replaces the
    default, with the flag's declared type. *)
Definition cmd_flags (replica : option bool) (masterDatabase masterAddress : option string)
    (masterPort : option N) (replicaUsername replicaPassword : option string) : FlagSet :=
  <["replica" := FBool (default false replica)]>
  (<["master-database" := FString (default "" masterDatabase)]>
  (<["master-address" := FString (default "127.0.0.1" masterAddress)]>
  (<["master-port" := FUint32 (default 3322%N masterPort)]>
  (<["replica-username" := FString (default "" replicaUsername)]>
  (<["replica-password" := FString (default "" replicaPassword)]> ∅))))).

(** Flags of [immuadmin database create --replica ...]. *)
Definition sample_flags : FlagSet :=
  <["replica" := FBool true]> (<["master-database" := FString "defaultdb"]>
  (<["master-address" := FString "127.0.0.1"]> (<["master-port" := FUint32 3322%N]>
  (<["replica-username" := FString "replicator"]>
  (<["replica-password" := FString "s3cret"]> ∅))))).

End Admin.

(* ===================================================================== *)
(** ** Commit log hash chain *)
(* ===================================================================== *)

Module Chain.

(** Modelled from the spec: the commit log and its chained hash (the store's
    transaction log, embedded/store, is not among the sources). The spec
    states [chainedHash(tx_n) = H(chainedHash(tx_{n-1}), digest(entries_n))]
    with ids strictly increasing from 1 and one header appended per
    committed transaction. The entry type, the hash type, [H], [digest] and
    the chained hash before the first transaction are parameters. *)
Section Log.

Context {Entry Hash : Type}.
Variable H : Hash -> Hash -> Hash.
Variable digest : list Entry -> Hash.
Variable initialHash : Hash.

(** A committed transaction header. *)
Record Tx := {
  tx_id : nat;
  tx_entries : list Entry;
  tx_prevHash : Hash;
  tx_chainedHash : Hash
}.

(** The commit log: the headers in order, the last id and the last chained
    hash. *)
Record CommitLog := {
  txs : list Tx;
  lastId : nat;
  lastHash : Hash
}.

Definition emptyLog : CommitLog :=
  {| txs := []; lastId := 0; lastHash := initialHash |}.

(** Commit one transaction: next id, chain to the head, append the header;
    the caller gets the id and the chained hash. *)
Definition commit (l : CommitLog) (entries : list Entry) : CommitLog * (nat * Hash) :=
  let id := S (lastId l) in
  let h := H (lastHash l) (digest entries) in
  ({| txs := txs l ++ [{| tx_id := id; tx_entries := entries;
                          tx_prevHash := lastHash l; tx_chainedHash := h |}];
      lastId := id; lastHash := h |}, (id, h)).

(** Commit a sequence of transactions, collecting what each commit returned. *)
Fixpoint commitAll (l : CommitLog) (batches : list (list Entry))
  : CommitLog * list (nat * Hash) :=
  match batches with
  | [] => (l, [])
  | b :: bs =>
      let '(l1, r) := commit l b in
      let '(l2, rs) := commitAll l1 bs in
      (l2, r :: rs)
  end.

(** Recompute the chained hashes from scratch, from the entries alone. *)
Fixpoint recompute (prev : Hash) (ts : list Tx) : list (nat * Hash) :=
  match ts with
  | [] => []
  | t :: ts' =>
      let h := H prev (digest (tx_entries t)) in
      (tx_id t, h) :: recompute h ts'
  end.

(** The recomputed chained hash of transaction [id]. *)
Definition chainedHashOf (l : CommitLog) (id : nat) : option Hash :=
  option_map snd (find (fun p => Nat.eqb (fst p) id) (recompute initialHash (txs l))).

(** The chain invariant over a list of headers starting after [prev]. *)
Fixpoint chain_ok (prev : Hash) (ts : list Tx) : Prop :=
  match ts with
  | [] => True
  | t :: ts' =>
      tx_prevHash t = prev /\
      tx_chainedHash t = H prev (digest (tx_entries t)) /\
      chain_ok (tx_chainedHash t) ts'
  end.

End Log.

End Chain.

(* ===================================================================== *)
(** * Properties *)
(* ===================================================================== *)

(** ** Go string helpers *)

Module GoStringsFacts.

Import GoStrings.
Local Open Scope string_scope.

Lemma HasSuffix_append_slash (x : string) : HasSuffix (x ++ "/") "/" = true.
Proof.
  induction x as [|d x IH]; simpl; [reflexivity|].
  rewrite IH. apply orb_true_r.
Qed.

Lemma prefix_slash_cons (d : ascii) (x : string) :
  d <> "/"%char -> String.prefix "/" (String d x) = false.
Proof.
  intros Hd.
  change (match ascii_dec "/" d with
          | left _ => String.prefix "" x | right _ => false end = false).
  destruct (ascii_dec "/" d) as [E|E]; [congruence|reflexivity].
Qed.

(** After [TrimLeft s c] the string is empty or starts with another byte. *)
Lemma TrimLeft_head (s : string) (c : ascii) :
  TrimLeft s c = EmptyString \/
  exists d x, TrimLeft s c = String d x /\ d <> c.
Proof.
  induction s as [|d s IH]; simpl; [now left|].
  destruct (Ascii.eqb_spec d c) as [E|E]; [exact IH|].
  right. exists d, s. split; [reflexivity|exact E].
Qed.

(** [TrimRight] keeps a first byte that is not in the cut set. *)
Lemma TrimRight_cons (d : ascii) (x : string) (c : ascii) :
  d <> c -> TrimRight (String d x) c = String d (TrimRight x c).
Proof.
  intros Hd. simpl. destruct (TrimRight x c); [|reflexivity].
  destruct (Ascii.eqb_spec d c); [congruence|reflexivity].
Qed.

Lemma TrimRight_empty (c : ascii) : TrimRight EmptyString c = EmptyString.
Proof. reflexivity. Qed.

(** Go's [!less(b, a)] on strings is [a <= b]. *)
Lemma negb_lt_leb (a b : string) : negb (lt b a) = String.leb a b.
Proof.
  unfold lt, String.ltb, String.leb.
  rewrite (String.compare_antisym b a).
  destruct (String.compare a b); reflexivity.
Qed.

(** sort.SliceIsSorted decides [Sorted] for the order "not less". *)
Lemma SliceIsSorted_Sorted {A} (less : A -> A -> bool) (l : list A) :
  SliceIsSorted less l = true <-> Sorted (fun a b => less b a = false) l.
Proof.
  induction l as [|a l IH]; simpl.
  - split; [constructor|reflexivity].
  - destruct l as [|b l].
    + split; [repeat constructor|reflexivity].
    + rewrite andb_true_iff, negb_true_iff, IH. split.
      * intros [Hab Hs]. constructor; [exact Hs|constructor; exact Hab].
      * intros Hs. apply Sorted_inv in Hs as [Hs Hr].
        apply HdRel_inv in Hr. split; assumption.
Qed.

End GoStringsFacts.

(** ** Azure blob storage *)

Module AzureFacts.

Import GoStrings GoStringsFacts Azure.
Local Open Scope string_scope.
Local Open Scope Z_scope.

(** The two loops over a page append the values [page_values] reads, or
    panic on a nil pointer. *)
Lemma append_prefixes_values (l : list (option BlobPrefix)) (sp : list string) :
  append_prefixes l sp =
  match map_all prefix_value l with
  | Some x => Ok (sp ++ x)%list
  | None => nilDeref
  end.
Proof.
  revert sp. induction l as [|v l IH]; intros sp; simpl.
  - rewrite app_nil_r. reflexivity.
  - destruct v as [[[n|]]|]; simpl; try reflexivity.
    rewrite IH. destruct (map_all prefix_value l); [|reflexivity].
    rewrite <- app_assoc. reflexivity.
Qed.

Lemma append_items_values (l : list (option BlobItemInternal)) (es : list EntryInfo) :
  append_items l es =
  match map_all item_value l with
  | Some x => Ok (es ++ x)%list
  | None => nilDeref
  end.
Proof.
  revert es. induction l as [|v l IH]; intros es; simpl.
  - rewrite app_nil_r. reflexivity.
  - destruct v as [[[n|] [[[sz|]]|]]|]; simpl; try reflexivity.
    rewrite IH. destruct (map_all item_value l); [|reflexivity].
    rewrite <- app_assoc. reflexivity.
Qed.

Lemma read_page_values (p : page) (sp : list string) (es : list EntryInfo) :
  read_page p sp es =
  match page_values p with
  | Some (a, b) => Ok ((sp ++ a)%list, (es ++ b)%list)
  | None => nilDeref
  end.
Proof.
  unfold read_page, page_values.
  destruct (Segment p) as [seg|]; simpl; [|reflexivity].
  rewrite append_prefixes_values.
  destruct (map_all prefix_value _); simpl; [|reflexivity].
  rewrite append_items_values.
  destruct (map_all item_value _); reflexivity.
Qed.

(** The pager loop ends with the concatenation of what the pages hold,
    or panics when one of them has a nil pointer where it reads one. *)
Lemma collect_result (str : string) (pg : pager) (n : nat)
    (sp : list string) (es : list EntryInfo) :
  snd (collect str n pg sp es) =
  match listing (pager_pages pg) with
  | Some (a, b) => Ok ((sp ++ a)%list, (es ++ b)%list)
  | None => nilDeref
  end.
Proof.
  revert n sp es. induction pg as [e|p|p rest IH]; intros n sp es; simpl.
  - rewrite !app_nil_r. reflexivity.
  - rewrite read_page_values.
    destruct (page_values p) as [[a b]|]; [|reflexivity].
    rewrite !app_nil_r. reflexivity.
  - rewrite read_page_values.
    destruct (page_values p) as [[a b]|]; [|reflexivity].
    specialize (IH (S n) (sp ++ a)%list (es ++ b)%list).
    destruct (collect str (S n) rest _ _) as [tr r]. simpl in IH |- *. rewrite IH.
    destruct (listing (pager_pages rest)) as [[c d]|]; [|reflexivity].
    rewrite !app_assoc. reflexivity.
Qed.

(** When no page has a nil pointer, the loop sends one request per page,
    and one more when the pager ended on a failed request. *)
Lemma collect_trace (str : string) (pg : pager) (n : nat)
    (sp : list string) (es : list EntryInfo) :
  listing (pager_pages pg) <> None ->
  fst (collect str n pg sp es) =
  map (ReqListPage str)
    (seq n (length (pager_pages pg) + (if pager_failed pg then 1 else 0))).
Proof.
  revert n sp es. induction pg as [e|p|p rest IH]; intros n sp es Hl; simpl.
  - reflexivity.
  - reflexivity.
  - simpl in Hl. rewrite read_page_values.
    destruct (page_values p) as [[a b]|]; [|contradiction].
    assert (Hr : listing (pager_pages rest) <> None)
      by (destruct (listing (pager_pages rest)) as [[c d]|]; [discriminate|contradiction]).
    specialize (IH (S n) (sp ++ a)%list (es ++ b)%list Hr).
    destruct (collect str (S n) rest _ _) as [tr r]. simpl in IH |- *. rewrite IH.
    reflexivity.
Qed.

(** ListEntries after a passing path check. *)
Lemma ListEntries_unfold {C} (s : @Storage C) (path : string) :
  path_ok path = true ->
  let str := prefix s ++ path in
  let pg := ListBlobsHierarchy (containerClient s) str in
  ListEntries s path =
  (fst (collect str 0 pg [] []),
   match listing (pager_pages pg) with
   | Some (subPaths, entries) =>
       if negb (SliceIsSorted entry_less entries) || negb (StringsAreSorted subPaths)
       then Err ErrInvalidResponse else Ok (entries, subPaths)
   | None => nilDeref
   end).
Proof.
  unfold path_ok, ListEntries. intros Hp.
  apply negb_true_iff in Hp. rewrite Hp. cbv zeta.
  pose proof (collect_result (prefix s ++ path)
    (ListBlobsHierarchy (containerClient s) (prefix s ++ path)) 0 [] []) as Hr.
  destruct (collect _ _ _ _ _) as [tr r]. simpl in Hr |- *. subst r.
  destruct (listing _) as [[a b]|]; [|reflexivity].
  simpl. destruct (negb (SliceIsSorted _ _) || _); reflexivity.
Qed.

Lemma Sorted_rel_iff {A} (R R' : A -> A -> Prop) (l : list A) :
  (forall a b, R a b <-> R' a b) -> Sorted R l <-> Sorted R' l.
Proof.
  intros HR. induction l as [|a l IH]; [split; constructor|].
  split; intros Hs; apply Sorted_inv in Hs as [Hs Hh]; constructor;
    try (apply IH; exact Hs);
    (destruct Hh; constructor; apply HR; assumption).
Qed.

Lemma entries_sorted_iff (es : list EntryInfo) :
  SliceIsSorted entry_less es = true <-> entries_sorted es.
Proof.
  unfold entries_sorted. rewrite SliceIsSorted_Sorted.
  apply Sorted_rel_iff. intros a b. unfold entry_less.
  rewrite <- negb_lt_leb, negb_true_iff. reflexivity.
Qed.

Lemma strings_sorted_iff (l : list string) :
  StringsAreSorted l = true <-> strings_sorted l.
Proof.
  unfold StringsAreSorted, strings_sorted. rewrite SliceIsSorted_Sorted.
  apply Sorted_rel_iff. intros a b.
  rewrite <- negb_lt_leb, negb_true_iff. reflexivity.
Qed.

(** C3: a name that starts or ends with '/' makes Get, Put and Exists fail
    with ErrInvalidArguments, with no request sent. *)
Theorem separator_names_rejected {C} (s : @Storage C) (name fileName : string)
    (offs size : Z) :
  HasPrefix name "/" = true \/ HasSuffix name "/" = true ->
  Get s name offs size = ([], Err ErrInvalidArguments) /\
  Put s name fileName = ([], Err ErrInvalidArguments) /\
  Exists s name = ([], Err ErrInvalidArguments).
Proof.
  intros Hn.
  assert (E : (HasPrefix name "/" || HasSuffix name "/") = true)
    by (apply orb_true_iff; exact Hn).
  unfold Get, Put, Exists. rewrite E. split; [|split; reflexivity].
  destruct ((offs <? 0) || (size =? 0)); reflexivity.
Qed.

Lemma separator_names_rejected_witness :
  (HasPrefix "/seg0" "/" = true \/ HasSuffix "/seg0" "/" = true) /\
  (Get sample_storage "/seg0" 0 4 = ([], Err ErrInvalidArguments) /\
   Put sample_storage "/seg0" "/tmp/seg0" = ([], Err ErrInvalidArguments) /\
   Exists sample_storage "/seg0" = ([], Err ErrInvalidArguments)).
Proof.
  split; [left; reflexivity|].
  apply (separator_names_rejected sample_storage "/seg0" "/tmp/seg0" 0 4).
  left; reflexivity.
Defined.

(** C6, as stated, fails: a negative size passes Get's check ([size == 0]),
    so [Get] does not answer ErrInvalidArguments; it reaches
    [make([]byte, size)], which panics. *)
Lemma Get_negative_size_not_rejected :
  Get sample_storage "seg0" 0 (-1) <> ([], Err ErrInvalidArguments) /\
  Get sample_storage "seg0" 0 (-1) =
    ([], Panic "runtime error: makeslice: len out of range").
Proof. vm_compute. split; [discriminate|reflexivity]. Qed.

(** C6 (amended): a negative offset or a zero size makes Get fail with
    ErrInvalidArguments, with no request sent, whatever the name. The size
    check rejects only zero: Get answers ErrInvalidArguments before any
    request exactly when the offset is negative, the size is zero or the name starts or ends
    with '/'; so a negative size with a non-negative offset and an accepted
    name is not rejected, and reaches [make([]byte, size)], which panics. *)
Theorem Get_rejects_bad_range {C} (s : @Storage C) (name : string) (offs size : Z) :
  (offs < 0 \/ size = 0 -> Get s name offs size = ([], Err ErrInvalidArguments)) /\
  (Get s name offs size = ([], Err ErrInvalidArguments) <->
   offs < 0 \/ size = 0 \/ HasPrefix name "/" = true \/ HasSuffix name "/" = true) /\
  (0 <= offs -> size < 0 -> HasPrefix name "/" = false -> HasSuffix name "/" = false ->
   Get s name offs size = ([], Panic "runtime error: makeslice: len out of range")).
Proof.
  unfold Get. split; [|split].
  - intros Hr.
    assert (E : ((offs <? 0) || (size =? 0)) = true).
    { apply orb_true_iff. destruct Hr as [Hr|Hr]; [left; lia|right; subst; reflexivity]. }
    rewrite E. reflexivity.
  - destruct ((offs <? 0) || (size =? 0)) eqn:E1.
    { split; [intros _|intros _; reflexivity].
      apply orb_true_iff in E1 as [E1|E1]; [left; lia|right; left; lia]. }
    apply orb_false_iff in E1 as [E1a E1b]. apply Z.ltb_ge in E1a. apply Z.eqb_neq in E1b.
    destruct (HasPrefix name "/" || HasSuffix name "/") eqn:E2.
    { split; [intros _|intros _; reflexivity].
      apply orb_true_iff in E2 as [E2|E2]; right; right; [left|right]; exact E2. }
    apply orb_false_iff in E2 as [E2a E2b].
    split; [|intros [H|[H|[H|H]]]; [lia|lia|congruence|congruence]].
    destruct ((size <? 0) || (maxAlloc <? size)); [discriminate|].
    destruct (DownloadBlobToBuffer _ _ _ _); discriminate.
  - intros Ho Hs Hp Hq.
    replace ((offs <? 0) || (size =? 0)) with false
      by (symmetry; apply orb_false_iff; split; [apply Z.ltb_ge|apply Z.eqb_neq]; lia).
    rewrite Hp, Hq. simpl.
    replace (size <? 0) with true by (symmetry; apply Z.ltb_lt; exact Hs).
    reflexivity.
Qed.

Lemma Get_rejects_bad_range_witness :
  (-1 < 0 \/ 4 = 0) /\ Get sample_storage "seg0" (-1) 4 = ([], Err ErrInvalidArguments) /\
  (Get sample_storage "seg0" 0 (-1) = ([], Err ErrInvalidArguments) <->
   0 < 0 \/ -1 = 0 \/ HasPrefix "seg0" "/" = true \/ HasSuffix "seg0" "/" = true) /\
  Get sample_storage "seg0" 0 (-1) = ([], Panic "runtime error: makeslice: len out of range").
Proof.
  split; [left; lia|].
  destruct (Get_rejects_bad_range sample_storage "seg0" (-1) 4) as [H1 _].
  destruct (Get_rejects_bad_range sample_storage "seg0" 0 (-1)) as [_ [H2 H3]].
  split; [apply H1; left; lia|]. split; [exact H2|].
  apply H3; [lia|lia|reflexivity|reflexivity].
Defined.

(** C9: Open normalises its arguments: the endpoint of a storage it returns
    ends with '/', the container has no '/', the prefix is empty or ends
    with '/' and does not start with '/'; a container that still has a '/'
    after trimming is refused with ErrInvalidArguments. *)
Theorem Open_normalizes {TC} (ncc : string -> TC -> error + ContainerClient)
    (e c p : string) (cr : TC) :
  (forall st, Open ncc e c p cr = Ok st ->
     HasSuffix (endpoint st) "/" = true /\
     Contains (container st) "/" = false /\
     (prefix st = "" \/
      (HasSuffix (prefix st) "/" = true /\ HasPrefix (prefix st) "/" = false))) /\
  (Contains (Trim c slash) "/" = true -> Open ncc e c p cr = Err ErrInvalidArguments).
Proof.
  unfold Open. cbv zeta. split.
  - intros st. destruct (Contains (Trim c slash) "/") eqn:Ec; [discriminate|].
    destruct (ncc _ cr) as [err|client]; [discriminate|].
    intros Eq. injection Eq as <-. simpl.
    split; [apply HasSuffix_append_slash|]. split; [exact Ec|].
    destruct (String.eqb (Trim p slash) "") eqn:Ep.
    + left. apply String.eqb_eq in Ep. exact Ep.
    + right. split; [apply HasSuffix_append_slash|].
      unfold Trim in *.
      destruct (TrimLeft_head p slash) as [E|(d & x & E & Hd)]; rewrite E in *.
      * discriminate.
      * rewrite TrimRight_cons by exact Hd. unfold HasPrefix.
        apply prefix_slash_cons. exact Hd.
  - intros Hc. rewrite Hc. reflexivity.
Qed.

Lemma Open_normalizes_witness :
  (forall st, Open sample_new_client "https://acct.blob.core.windows.net//" "/immudb/" "//db/x//" tt = Ok st ->
     HasSuffix (endpoint st) "/" = true /\
     Contains (container st) "/" = false /\
     (prefix st = "" \/
      (HasSuffix (prefix st) "/" = true /\ HasPrefix (prefix st) "/" = false))) /\
  (Contains (Trim "/immudb/" slash) "/" = true ->
     Open sample_new_client "https://acct.blob.core.windows.net//" "/immudb/" "//db/x//" tt =
     Err ErrInvalidArguments).
Proof. exact (Open_normalizes sample_new_client _ _ _ tt). Defined.

(** C10: a non-empty path that does not end with '/' or contains "//" is
    refused by ListEntries with ErrInvalidArguments and no request; the
    empty path passes the check. *)
Theorem ListEntries_path_precondition {C} (s : @Storage C) (path : string) :
  (path <> "" -> HasSuffix path "/" = false \/ Contains path "//" = true ->
     ListEntries s path = ([], Err ErrInvalidArguments)) /\
  path_ok "" = true /\
  snd (ListEntries s "") <> Err ErrInvalidArguments.
Proof.
  split; [|split; [reflexivity|]].
  - intros Hne Hc. unfold ListEntries.
    assert (E : (negb (String.eqb path "") &&
                 (negb (HasSuffix path "/") || Contains path "//")) = true).
    { apply andb_true_iff. split.
      - apply negb_true_iff, String.eqb_neq. exact Hne.
      - apply orb_true_iff. destruct Hc as [Hc|Hc]; [left; rewrite Hc|right]; auto. }
    rewrite E. reflexivity.
  - rewrite (ListEntries_unfold s "" eq_refl). cbv zeta. simpl snd.
    destruct (listing _) as [[a b]|]; [|discriminate].
    destruct (negb (SliceIsSorted _ _) || _); discriminate.
Qed.

Lemma ListEntries_path_precondition_witness :
  ("segs" <> "" -> HasSuffix "segs" "/" = false \/ Contains "segs" "//" = true ->
     ListEntries sample_storage "segs" = ([], Err ErrInvalidArguments)) /\
  path_ok "" = true /\
  snd (ListEntries sample_storage "") <> Err ErrInvalidArguments.
Proof. apply (ListEntries_path_precondition sample_storage "segs"). Defined.

Lemma ListEntries_rejected_path {C} (s : @Storage C) (path : string) :
  path_ok path = false -> ListEntries s path = ([], Err ErrInvalidArguments).
Proof.
  unfold path_ok, ListEntries. intros Hp. apply negb_false_iff in Hp.
  rewrite Hp. reflexivity.
Qed.

(** C4: what ListEntries returns is sorted by name (entries) and sorted
    (sub-paths); when the path passes the check and the names the pager's
    pages hold (every pointer the loop reads being non-nil) are not sorted,
    ListEntries fails with ErrInvalidResponse. *)
Theorem ListEntries_sorted_or_invalid {C} (s : @Storage C) (path : string) :
  (forall trace entries subPaths,
     ListEntries s path = (trace, Ok (entries, subPaths)) ->
     entries_sorted entries /\ strings_sorted subPaths) /\
  (path_ok path = true ->
   forall subPaths entries,
   listing (pager_pages (ListBlobsHierarchy (containerClient s) (prefix s ++ path))) =
     Some (subPaths, entries) ->
   ~ entries_sorted entries \/ ~ strings_sorted subPaths ->
   snd (ListEntries s path) = Err ErrInvalidResponse).
Proof.
  split.
  - intros trace entries subPaths.
    destruct (path_ok path) eqn:Hp.
    + rewrite (ListEntries_unfold s path Hp). cbv zeta.
      destruct (listing _) as [[sp es]|]; [|discriminate].
      destruct (negb (SliceIsSorted _ _) || _) eqn:E; intros Eq; [discriminate|].
      injection Eq as _ <- <-.
      apply orb_false_iff in E as [E1 E2].
      apply negb_false_iff in E1, E2.
      split; [apply entries_sorted_iff|apply strings_sorted_iff]; assumption.
    + rewrite (ListEntries_rejected_path s path Hp). discriminate.
  - intros Hp subPaths entries Hl Hu.
    rewrite (ListEntries_unfold s path Hp). cbv zeta. rewrite Hl. simpl snd.
    destruct Hu as [Hu|Hu].
    + rewrite <- entries_sorted_iff in Hu.
      destruct (SliceIsSorted entry_less _); [contradiction|reflexivity].
    + rewrite <- strings_sorted_iff in Hu.
      destruct (StringsAreSorted _); [contradiction|].
      rewrite orb_true_r. reflexivity.
Qed.

Lemma ListEntries_sorted_or_invalid_witness :
  path_ok "" = true /\
  listing (pager_pages (ListBlobsHierarchy (containerClient unsorted_storage)
    (prefix unsorted_storage ++ ""))) =
    Some ([], [{| Name := "b"; Size := 1 |}; {| Name := "a"; Size := 1 |}]) /\
  (~ entries_sorted [{| Name := "b"; Size := 1 |}; {| Name := "a"; Size := 1 |}] \/
   ~ strings_sorted []) /\
  snd (ListEntries unsorted_storage "") = Err ErrInvalidResponse /\
  (ListEntries sample_storage "" =
     ([ReqListPage "db/" 0],
      Ok ([{| Name := "segs/0001"; Size := 4 |}], ["segs/a/"; "segs/b/"])) ->
   entries_sorted [{| Name := "segs/0001"; Size := 4 |}] /\
   strings_sorted ["segs/a/"; "segs/b/"]).
Proof.
  assert (Hu : ~ entries_sorted [{| Name := "b"; Size := 1 |}; {| Name := "a"; Size := 1 |}]).
  { rewrite <- entries_sorted_iff. vm_compute. discriminate. }
  assert (Hl : listing (pager_pages (ListBlobsHierarchy (containerClient unsorted_storage)
    (prefix unsorted_storage ++ ""))) =
    Some ([], [{| Name := "b"; Size := 1 |}; {| Name := "a"; Size := 1 |}]))
    by (vm_compute; reflexivity).
  split; [reflexivity|]. split; [exact Hl|]. split; [left; exact Hu|]. split.
  - exact (proj2 (ListEntries_sorted_or_invalid unsorted_storage "") eq_refl _ _ Hl (or_introl Hu)).
  - apply (ListEntries_sorted_or_invalid sample_storage "").
Defined.

End AzureFacts.

(** ** Store options *)

Module StoreOptionsFacts.

Import StoreOptions.
Local Open Scope Z_scope.

Module IdxFacts.

Import Idx.

Ltac unfold_idx_setters :=
  unfold apply_idx_setter,
    WithCacheSize, WithFlushThld, WithSyncThld,
    WithFlushBufferSize, WithCleanupPercentage,
    WithMaxActiveSnapshots, WithMaxNodeSize,
    WithRenewSnapRootAfter, WithCompactionThld,
    WithDelayDuringCompaction, WithNodesLogMaxOpenedFiles,
    WithHistoryLogMaxOpenedFiles, WithCommitLogMaxOpenedFiles in *.

(** One setter: the struct at the receiver's address gets the argument in
    the named field and keeps every other field; the receiver is returned. *)
Lemma apply_idx_setter_frame (s : idx_setter) (h : gmap positive IndexOptions)
    (l : positive) (o : IndexOptions) :
  h !! l = Some o ->
  exists o', apply_idx_setter s h (Some l) = Some (<[l := o']> h, Some l) /\
    idx_setter_holds s o' /\
    (forall f, f <> idx_setter_field s -> idx_field_agree f o o').
Proof.
  intros Hl. destruct s; unfold_idx_setters; unfold update_idx; rewrite Hl;
    eexists; (split; [reflexivity|]); (split; [reflexivity|]);
    intros f Hf; destruct f; first [reflexivity | exfalso; apply Hf; reflexivity].
Qed.

Lemma idx_field_agree_trans (f : idx_field) (o1 o2 o3 : IndexOptions) :
  idx_field_agree f o1 o2 -> idx_field_agree f o2 o3 -> idx_field_agree f o1 o3.
Proof. destruct f; simpl; congruence. Qed.

(** A chain of setters keeps every field no setter of the chain names. *)
Lemma run_idx_chain_frame (cs : list idx_setter) (h : gmap positive IndexOptions)
    (l : positive) (o : IndexOptions) :
  h !! l = Some o ->
  exists o', run_idx_chain cs h (Some l) = Some (<[l := o']> h, Some l) /\
    (forall f, ~ In f (map idx_setter_field cs) -> idx_field_agree f o o').
Proof.
  revert h o. induction cs as [|c cs IH]; intros h o Hl.
  - exists o. simpl. split.
    + rewrite insert_id by exact Hl. reflexivity.
    + intros f _. destruct f; reflexivity.
  - destruct (apply_idx_setter_frame c h l o Hl) as (o1 & E1 & _ & F1).
    simpl. rewrite E1.
    destruct (IH (<[l := o1]> h) o1 (lookup_insert_eq h l o1)) as (o2 & E2 & F2).
    exists o2. rewrite E2, insert_insert_eq. split; [reflexivity|].
    intros f Hf. simpl in Hf.
    apply (idx_field_agree_trans f o o1 o2).
    + apply F1. intros ->. apply Hf. left. reflexivity.
    + apply F2. intros Hin. apply Hf. right. exact Hin.
Qed.

End IdxFacts.

Module OptFacts.

Import Idx Opts.

Ltac unfold_opt_setters :=
  unfold apply_opt_setter,
    WithReadOnly, WithSynced, WithFileMode, WithLog,
    WithAppFactory, WithCompactionDisabled, WithMaxConcurrency,
    WithMaxIOConcurrency, WithMaxLinearProofLen,
    WithTxLogCacheSize, WithVLogMaxOpenedFiles,
    WithTxLogMaxOpenedFiles, WithCommitLogMaxOpenedFiles,
    WithWriteTxHeaderVersion, WithMaxWaitees, WithTimeFunc,
    WithMaxTxEntries, WithMaxKeyLen, WithMaxValueLen,
    WithFileSize, WithCompressionFormat, WithCompresionLevel,
    WithIndexOptions in *.

Lemma apply_opt_setter_frame (s : opt_setter) (h : heap) (l : positive) (o : Options) :
  opts_heap h !! l = Some o ->
  exists o', apply_opt_setter s h (Some l) =
      Some ({| opts_heap := <[l := o']> (opts_heap h); idx_heap := idx_heap h |}, Some l) /\
    opt_setter_holds s o' /\
    (forall f, f <> opt_setter_field s -> opt_field_agree f o o').
Proof.
  intros Hl. destruct s; unfold_opt_setters; unfold update_opts; rewrite Hl;
    eexists; (split; [reflexivity|]); (split; [reflexivity|]);
    intros f Hf; destruct f; first [reflexivity | exfalso; apply Hf; reflexivity].
Qed.

Lemma opt_field_agree_trans (f : opt_field) (o1 o2 o3 : Options) :
  opt_field_agree f o1 o2 -> opt_field_agree f o2 o3 -> opt_field_agree f o1 o3.
Proof. destruct f; simpl; congruence. Qed.

Lemma run_opt_chain_frame (cs : list opt_setter) (h : heap) (l : positive) (o : Options) :
  opts_heap h !! l = Some o ->
  exists o', run_opt_chain cs h (Some l) =
      Some ({| opts_heap := <[l := o']> (opts_heap h); idx_heap := idx_heap h |}, Some l) /\
    (forall f, ~ In f (map opt_setter_field cs) -> opt_field_agree f o o').
Proof.
  revert h o. induction cs as [|c cs IH]; intros h o Hl.
  - exists o. simpl. split.
    + rewrite insert_id by exact Hl. destruct h; reflexivity.
    + intros f _. destruct f; reflexivity.
  - destruct (apply_opt_setter_frame c h l o Hl) as (o1 & E1 & _ & F1).
    simpl. rewrite E1.
    destruct (IH {| opts_heap := <[l := o1]> (opts_heap h); idx_heap := idx_heap h |}
                 o1 (lookup_insert_eq (opts_heap h) l o1)) as (o2 & E2 & F2).
    exists o2. rewrite E2. simpl. rewrite insert_insert_eq. split; [reflexivity|].
    intros f Hf. simpl in Hf.
    apply (opt_field_agree_trans f o o1 o2).
    + apply F1. intros ->. apply Hf. left. reflexivity.
    + apply F2. intros Hin. apply Hf. right. exact Hin.
Qed.

End OptFacts.

Import Idx Opts.

(** C7: every setter of Options and of IndexOptions returns its receiver,
    sets exactly the field it names to its argument and keeps the others;
    after any chain of setters, each field that no setter of the chain
    names keeps its value. Other structs are left alone. *)
Theorem setters_frame :
  (forall (s : opt_setter) (h : heap) (l : positive) (o : Options),
     opts_heap h !! l = Some o ->
     exists o', apply_opt_setter s h (Some l) =
         Some ({| opts_heap := <[l := o']> (opts_heap h); idx_heap := idx_heap h |}, Some l) /\
       opt_setter_holds s o' /\
       (forall f, f <> opt_setter_field s -> opt_field_agree f o o')) /\
  (forall (cs : list opt_setter) (h : heap) (l : positive) (o : Options),
     opts_heap h !! l = Some o ->
     exists o', run_opt_chain cs h (Some l) =
         Some ({| opts_heap := <[l := o']> (opts_heap h); idx_heap := idx_heap h |}, Some l) /\
       (forall f, ~ In f (map opt_setter_field cs) -> opt_field_agree f o o')) /\
  (forall (s : idx_setter) (h : gmap positive IndexOptions) (l : positive) (o : IndexOptions),
     h !! l = Some o ->
     exists o', apply_idx_setter s h (Some l) = Some (<[l := o']> h, Some l) /\
       idx_setter_holds s o' /\
       (forall f, f <> idx_setter_field s -> idx_field_agree f o o')) /\
  (forall (cs : list idx_setter) (h : gmap positive IndexOptions) (l : positive) (o : IndexOptions),
     h !! l = Some o ->
     exists o', run_idx_chain cs h (Some l) = Some (<[l := o']> h, Some l) /\
       (forall f, ~ In f (map idx_setter_field cs) -> idx_field_agree f o o')).
Proof.
  split; [exact OptFacts.apply_opt_setter_frame|].
  split; [exact OptFacts.run_opt_chain_frame|].
  split; [exact IdxFacts.apply_idx_setter_frame|exact IdxFacts.run_idx_chain_frame].
Qed.

Lemma setters_frame_witness :
  opts_heap sample_heap !! 1%positive = Some sample_options /\
  exists o', run_opt_chain [S_WithReadOnly true; S_WithMaxKeyLen 512] sample_heap (Some 1%positive) =
      Some ({| opts_heap := <[1%positive := o']> (opts_heap sample_heap);
               idx_heap := idx_heap sample_heap |}, Some 1%positive) /\
    (forall f, ~ In f (map opt_setter_field [S_WithReadOnly true; S_WithMaxKeyLen 512]) ->
       opt_field_agree f sample_options o').
Proof.
  split; [reflexivity|].
  apply (proj1 (proj2 setters_frame)). reflexivity.
Defined.

(** C2: validOptions accepts only a non-nil Options whose bounds all hold:
    positive MaxConcurrency, MaxIOConcurrency in (0, MaxParallelIO],
    non-negative MaxLinearProofLen, positive max-opened-files of the value,
    tx and commit logs, positive MaxTxEntries, MaxKeyLen in (0, MaxKeyLen],
    positive MaxValueLen, and FileSize in (0, MaxFileSize) with
    MaxFileSize = 2^31 - 1. *)
Theorem validOptions_bounds (MaxParallelIO MaxKeyLen_ceiling MaxTxHeaderVersion : Z)
    (h : heap) (p : option positive) :
  validOptions MaxParallelIO MaxKeyLen_ceiling MaxTxHeaderVersion h p = true ->
  exists l o, p = Some l /\ opts_heap h !! l = Some o /\
    MaxConcurrency o > 0 /\
    MaxIOConcurrency o > 0 /\ MaxIOConcurrency o <= MaxParallelIO /\
    MaxLinearProofLen o >= 0 /\
    VLogMaxOpenedFiles o > 0 /\ TxLogMaxOpenedFiles o > 0 /\
    Opts.CommitLogMaxOpenedFiles o > 0 /\
    MaxTxEntries o > 0 /\
    MaxKeyLen o > 0 /\ MaxKeyLen o <= MaxKeyLen_ceiling /\
    MaxValueLen o > 0 /\
    FileSize o > 0 /\ FileSize o < MaxFileSize /\
    MaxFileSize = 2 ^ 31 - 1.
Proof.
  unfold validOptions. destruct p as [l|]; [|discriminate].
  destruct (opts_heap h !! l) as [o|] eqn:Hl; [|discriminate].
  intros Hv.
  repeat match goal with
         | H : _ && _ = true |- _ => apply andb_true_iff in H as [? ?]
         end.
  repeat match goal with
         | H : (_ >? _) = true |- _ => apply Z.gtb_lt in H
         | H : (_ >=? _) = true |- _ => apply Z.geb_le in H
         | H : (_ <=? _) = true |- _ => apply Z.leb_le in H
         | H : (_ <? _) = true |- _ => apply Z.ltb_lt in H
         end.
  exists l, o. repeat split; try assumption; try lia; reflexivity.
Qed.

Lemma validOptions_bounds_witness :
  validOptions 127 1024 1 sample_heap (Some 1%positive) = true /\
  exists l o, Some 1%positive = Some l /\ opts_heap sample_heap !! l = Some o /\
    MaxConcurrency o > 0 /\
    MaxIOConcurrency o > 0 /\ MaxIOConcurrency o <= 127 /\
    MaxLinearProofLen o >= 0 /\
    VLogMaxOpenedFiles o > 0 /\ TxLogMaxOpenedFiles o > 0 /\
    Opts.CommitLogMaxOpenedFiles o > 0 /\
    MaxTxEntries o > 0 /\
    MaxKeyLen o > 0 /\ MaxKeyLen o <= 1024 /\
    MaxValueLen o > 0 /\
    FileSize o > 0 /\ FileSize o < MaxFileSize /\
    MaxFileSize = 2 ^ 31 - 1.
Proof.
  split; [vm_compute; reflexivity|].
  apply (validOptions_bounds 127 1024 1 sample_heap (Some 1%positive)).
  vm_compute. reflexivity.
Defined.

(** C5, as stated, fails: an IndexOptions with a zero SyncThld, a negative
    CompactionThld and a negative DelayDuringCompaction passes
    validIndexOptions, and the Options pointing to it pass validOptions. *)
Lemma unchecked_index_accepted :
  SyncThld unchecked_index <= 0 /\
  CompactionThld unchecked_index < 0 /\
  DelayDuringCompaction unchecked_index < 0 /\
  idx_heap unchecked_heap !! 1%positive = Some unchecked_index /\
  validIndexOptions (idx_heap unchecked_heap) (Some 1%positive) = true /\
  validOptions 127 1024 1 unchecked_heap (Some 1%positive) = true.
Proof.
  split; [cbn; lia|]. split; [cbn; lia|]. split; [cbn; lia|].
  split; [reflexivity|]. split; vm_compute; reflexivity.
Qed.

(** C5 (amended): validIndexOptions does not look at SyncThld,
    CompactionThld or DelayDuringCompaction: setting them to any values
    through their setters leaves its result unchanged. *)
Theorem validIndexOptions_ignores_unchecked (h : gmap positive IndexOptions)
    (l : positive) (o : IndexOptions) (syncThld compactionThld : Z) (delay : Duration) :
  h !! l = Some o ->
  exists h', run_idx_chain [SI_WithSyncThld syncThld; SI_WithCompactionThld compactionThld;
                            SI_WithDelayDuringCompaction delay] h (Some l) = Some (h', Some l) /\
    validIndexOptions h' (Some l) = validIndexOptions h (Some l).
Proof.
  intros Hl. eexists. split.
  - cbn [run_idx_chain apply_idx_setter].
    unfold WithSyncThld, WithCompactionThld, WithDelayDuringCompaction, update_idx.
    rewrite Hl, !lookup_insert_eq. reflexivity.
  - unfold validIndexOptions. rewrite lookup_insert_eq, Hl. reflexivity.
Qed.

Lemma validIndexOptions_ignores_unchecked_witness :
  idx_heap sample_heap !! 1%positive = Some sample_index /\
  exists h', run_idx_chain [SI_WithSyncThld 0; SI_WithCompactionThld (-1);
                            SI_WithDelayDuringCompaction (-1)]
               (idx_heap sample_heap) (Some 1%positive) = Some (h', Some 1%positive) /\
    validIndexOptions h' (Some 1%positive) =
    validIndexOptions (idx_heap sample_heap) (Some 1%positive).
Proof.
  split; [reflexivity|].
  apply (validIndexOptions_ignores_unchecked (idx_heap sample_heap) 1%positive sample_index).
  reflexivity.
Defined.

End StoreOptionsFacts.

(** ** immuadmin database settings *)

Module AdminFacts.

Import Admin.
Local Open Scope string_scope.

(** C8: when the replica flag is set and every flag read succeeds, the
    replica password of the settings is the value of the
    "replica-username" flag, the same as the replica username; the
    "replica-password" flag is never read: changing it changes nothing. *)
Theorem replica_password_from_username (db : string) (flags : FlagSet)
    (s : DatabaseSettings) :
  (GetBool flags "replica" = inr true ->
   prepareDatabaseSettings db flags = inr s ->
   GetString flags "replica-username" = inr (ReplicaPassword s) /\
   ReplicaPassword s = ReplicaUsername s) /\
  (forall v : flag_value,
   prepareDatabaseSettings db (<["replica-password" := v]> flags) =
   prepareDatabaseSettings db flags).
Proof.
  split.
  - intros Hb. unfold prepareDatabaseSettings, bind_err. rewrite Hb. simpl.
    destruct (GetString flags "master-database"); [discriminate|].
    destruct (GetString flags "master-address"); [discriminate|].
    destruct (GetUint32 flags "master-port"); [discriminate|].
    destruct (GetString flags "replica-username") eqn:Eu; [discriminate|].
    intros [= <-]. simpl. split; reflexivity.
  - intros v. unfold prepareDatabaseSettings, GetBool, GetString, GetUint32.
    rewrite !lookup_insert_ne by discriminate. reflexivity.
Qed.

Lemma replica_password_from_username_witness :
  exists s, prepareDatabaseSettings "replicadb" sample_flags = inr s /\
  GetBool sample_flags "replica" = inr true /\
  ((GetBool sample_flags "replica" = inr true ->
    prepareDatabaseSettings "replicadb" sample_flags = inr s ->
    GetString sample_flags "replica-username" = inr (ReplicaPassword s) /\
    ReplicaPassword s = ReplicaUsername s) /\
   (forall v : flag_value,
    prepareDatabaseSettings "replicadb" (<["replica-password" := v]> sample_flags) =
    prepareDatabaseSettings "replicadb" sample_flags)) /\
  ReplicaPassword s = "replicator".
Proof.
  eexists. split; [vm_compute; reflexivity|]. split; [vm_compute; reflexivity|].
  split; [apply replica_password_from_username|reflexivity].
Defined.

End AdminFacts.

(** ** Commit log hash chain *)

Module ChainFacts.

Import Chain.

Section Facts.

Context {Entry Hash : Type}.
Variable H : Hash -> Hash -> Hash.
Variable digest : list Entry -> Hash.
Variable initialHash : Hash.

(** The chained hash at the end of a list of headers. *)
Fixpoint head_hash (prev : Hash) (ts : list (@Tx Entry Hash)) : Hash :=
  match ts with
  | [] => prev
  | t :: ts' => head_hash (tx_chainedHash t) ts'
  end.

(** What commit returns for a header. *)
Definition receipt (t : @Tx Entry Hash) : nat * Hash := (tx_id t, tx_chainedHash t).

(** The invariant of a commit log reached from the empty one. *)
Definition log_inv (l : @CommitLog Entry Hash) : Prop :=
  chain_ok H digest initialHash (txs l) /\
  lastHash l = head_hash initialHash (txs l) /\
  map tx_id (txs l) = seq 1 (length (txs l)) /\
  lastId l = length (txs l).

Lemma head_hash_app (prev : Hash) (ts : list Tx) (t : Tx) :
  head_hash prev (ts ++ [t]) = tx_chainedHash t.
Proof. revert prev. induction ts as [|u ts IH]; intros prev; simpl; auto. Qed.

Lemma chain_ok_snoc (prev : Hash) (ts : list Tx) (t : Tx) :
  chain_ok H digest prev ts ->
  tx_prevHash t = head_hash prev ts ->
  tx_chainedHash t = H (head_hash prev ts) (digest (tx_entries t)) ->
  chain_ok H digest prev (ts ++ [t]).
Proof.
  revert prev. induction ts as [|u ts IH]; intros prev Hc Hp Hh; simpl in *.
  - repeat split; auto.
  - destruct Hc as (Hu1 & Hu2 & Hc). repeat split; auto.
Qed.

Lemma recompute_chain (prev : Hash) (ts : list Tx) :
  chain_ok H digest prev ts -> recompute H digest prev ts = map receipt ts.
Proof.
  revert prev. induction ts as [|t ts IH]; intros prev Hc; simpl; [reflexivity|].
  destruct Hc as (_ & Ht & Hc). rewrite <- Ht. unfold receipt at 1.
  f_equal. apply IH. exact Hc.
Qed.

Lemma emptyLog_inv : log_inv (emptyLog initialHash).
Proof. repeat split. Qed.

Lemma commit_inv (l : CommitLog) (b : list Entry) :
  log_inv l ->
  exists t, commit H digest l b = ({| txs := txs l ++ [t]; lastId := tx_id t;
                                      lastHash := tx_chainedHash t |}, receipt t) /\
            log_inv {| txs := txs l ++ [t]; lastId := tx_id t;
                       lastHash := tx_chainedHash t |}.
Proof.
  intros (Hc & Hh & Hid & Hlast).
  exists {| tx_id := S (lastId l); tx_entries := b; tx_prevHash := lastHash l;
            tx_chainedHash := H (lastHash l) (digest b) |}.
  split; [reflexivity|]. unfold log_inv; simpl.
  split; [apply chain_ok_snoc; simpl; congruence|].
  split; [rewrite head_hash_app; reflexivity|].
  rewrite length_app, map_app, Hid, Hlast. simpl. split.
  - rewrite Nat.add_1_r, seq_S. reflexivity.
  - lia.
Qed.

Lemma commitAll_inv (bs : list (list Entry)) (l : CommitLog) :
  log_inv l ->
  exists news, txs (fst (commitAll H digest l bs)) = txs l ++ news /\
    snd (commitAll H digest l bs) = map receipt news /\
    length news = length bs /\
    log_inv (fst (commitAll H digest l bs)).
Proof.
  revert l. induction bs as [|b bs IH]; intros l Hl.
  - exists []. simpl. rewrite app_nil_r. auto.
  - destruct (commit_inv l b Hl) as (t & Ec & Hl1).
    destruct (IH _ Hl1) as (news & E1 & E2 & E3 & E4).
    exists (t :: news). cbn [commitAll]. rewrite Ec.
    destruct (commitAll H digest _ bs) as [l2 rs] eqn:Ea. simpl in *.
    rewrite E1, <- app_assoc. simpl. rewrite E2. auto.
Qed.

(** Looking up a receipt by id in a list whose ids are contiguous. *)
Lemma find_receipts (rs : list (nat * Hash)) (k : nat) :
  map fst rs = seq k (length rs) ->
  Forall (fun r => find (fun p => Nat.eqb (fst p) (fst r)) rs = Some r) rs.
Proof.
  revert k. induction rs as [|r0 rs IH]; intros k Hs; [constructor|].
  simpl in Hs. injection Hs as H0 Hs.
  constructor.
  - simpl. rewrite Nat.eqb_refl. reflexivity.
  - specialize (IH (S k) Hs). rewrite List.Forall_forall in *.
    intros r Hr. simpl. rewrite H0.
    assert (Hlt : S k <= fst r).
    { assert (Hin : In (fst r) (seq (S k) (length rs))).
      { rewrite <- Hs. apply in_map. exact Hr. }
      apply in_seq in Hin. lia. }
    destruct (Nat.eqb_spec k (fst r)); [lia|]. apply IH. exact Hr.
Qed.

End Facts.

(** C1: committing any sequence of transactions from the empty log gives
    headers chained by [chainedHash(tx_n) = H(chainedHash(tx_{n-1}),
    digest(entries_n))] with ids 1, 2, ...; recomputing the chained hashes
    from scratch over the log gives exactly the ids and hashes returned at
    commit time, and the recomputed hash of every returned id is the one
    returned for it. *)
Theorem chain_recomputes {Entry Hash : Type} (H : Hash -> Hash -> Hash)
    (digest : list Entry -> Hash) (initialHash : Hash) (batches : list (list Entry)) :
  let (l, receipts) := commitAll H digest (emptyLog initialHash) batches in
  chain_ok H digest initialHash (txs l) /\
  map tx_id (txs l) = seq 1 (length batches) /\
  recompute H digest initialHash (txs l) = receipts /\
  Forall (fun r => chainedHashOf H digest initialHash l (fst r) = Some (snd r)) receipts.
Proof.
  destruct (commitAll_inv H digest initialHash batches (emptyLog initialHash)
              (emptyLog_inv H digest initialHash))
    as (news & E1 & E2 & E3 & (Hc & _ & Hid & _)).
  destruct (commitAll H digest (emptyLog initialHash) batches) as [l rs].
  simpl in E1, E2, Hc, Hid. subst rs.
  assert (Hrec : recompute H digest initialHash (txs l) = map receipt news).
  { rewrite (recompute_chain H digest initialHash (txs l) Hc), E1. reflexivity. }
  split; [exact Hc|]. split; [rewrite Hid, E1; simpl; rewrite E3; reflexivity|].
  split; [exact Hrec|].
  assert (Hf : map fst (map receipt news) = seq 1 (length (map receipt news))).
  { rewrite map_map, length_map. unfold receipt. simpl.
    rewrite E1 in Hid. exact Hid. }
  apply find_receipts in Hf. rewrite List.Forall_forall in *.
  intros r Hr. unfold chainedHashOf. rewrite Hrec, (Hf r Hr). reflexivity.
Qed.

Lemma chain_recomputes_witness :
  let (l, receipts) := commitAll (fun a b : Z => (a * 31 + b)%Z)
                         (fun es : list Z => fold_left Z.add es 0%Z) (emptyLog 7%Z)
                         [[1%Z]; [2%Z; 3%Z]] in
  chain_ok (fun a b : Z => (a * 31 + b)%Z) (fun es : list Z => fold_left Z.add es 0%Z)
    7%Z (txs l) /\
  map tx_id (txs l) = seq 1 (length [[1%Z]; [2%Z; 3%Z]]) /\
  recompute (fun a b : Z => (a * 31 + b)%Z) (fun es : list Z => fold_left Z.add es 0%Z)
    7%Z (txs l) = receipts /\
  Forall (fun r => chainedHashOf (fun a b : Z => (a * 31 + b)%Z)
                     (fun es : list Z => fold_left Z.add es 0%Z) 7%Z l (fst r) = Some (snd r))
    receipts.
Proof. exact (chain_recomputes _ _ 7%Z [[1%Z]; [2%Z; 3%Z]]). Defined.

End ChainFacts.

(* ===================================================================== *)
(** * Further properties of the code *)
(* ===================================================================== *)

(** ** Go string helpers: trimming is idempotent *)

Module GoStringsMore.

Import GoStrings GoStringsFacts.
Local Open Scope string_scope.

Lemma TrimRight_snoc (x : string) (c : ascii) :
  TrimRight (x ++ String c EmptyString) c = TrimRight x c.
Proof.
  induction x as [|d x IH]; simpl.
  - rewrite Ascii.eqb_refl. reflexivity.
  - rewrite IH. reflexivity.
Qed.

Lemma TrimRight_cons_ne (d : ascii) (y : string) (c : ascii) :
  TrimRight y c <> EmptyString -> TrimRight (String d y) c = String d (TrimRight y c).
Proof. intros Hy. simpl. destruct (TrimRight y c); [contradiction|reflexivity]. Qed.

Lemma TrimRight_idem (x : string) (c : ascii) :
  TrimRight (TrimRight x c) c = TrimRight x c.
Proof.
  induction x as [|d x IH]; [reflexivity|]. simpl.
  destruct (TrimRight x c) as [|e r] eqn:Er.
  - destruct (Ascii.eqb_spec d c) as [E|E]; [reflexivity|].
    simpl. destruct (Ascii.eqb_spec d c); [congruence|reflexivity].
  - rewrite TrimRight_cons_ne; rewrite IH; [reflexivity|discriminate].
Qed.

End GoStringsMore.

Module AzureMore.

Import GoStrings GoStringsFacts GoStringsMore Azure AzureFacts.
Local Open Scope string_scope.
Local Open Scope Z_scope.

(** A string whose first byte is not the cut byte is left alone by TrimLeft. *)
Lemma TrimLeft_cons_ne (d : ascii) (x : string) (c : ascii) :
  d <> c -> TrimLeft (String d x) c = String d x.
Proof. intros Hd. simpl. destruct (Ascii.eqb_spec d c); [contradiction|reflexivity]. Qed.

Lemma Trim_head (s : string) (c : ascii) :
  Trim s c = EmptyString \/ exists d x, Trim s c = String d x /\ d <> c.
Proof.
  unfold Trim. destruct (TrimLeft_head s c) as [E|(d & x & E & Hd)]; rewrite E.
  - left. reflexivity.
  - right. rewrite TrimRight_cons by exact Hd. eauto.
Qed.

Lemma TrimRight_Trim (s : string) (c : ascii) : TrimRight (Trim s c) c = Trim s c.
Proof. unfold Trim. apply TrimRight_idem. Qed.

Lemma Trim_idem (s : string) (c : ascii) : Trim (Trim s c) c = Trim s c.
Proof.
  destruct (Trim_head s c) as [E|(d & x & E & Hd)].
  - rewrite E. reflexivity.
  - assert (L : TrimLeft (Trim s c) c = Trim s c)
      by (rewrite E; apply TrimLeft_cons_ne; exact Hd).
    change (Trim (Trim s c) c) with (TrimRight (TrimLeft (Trim s c) c) c).
    rewrite L. apply TrimRight_Trim.
Qed.

(** Trimming a trimmed, non-empty string with the cut byte appended gives
    the trimmed string back. *)
Lemma Trim_snoc (s : string) (c : ascii) :
  Trim s c <> EmptyString ->
  Trim (Trim s c ++ String c EmptyString) c = Trim s c.
Proof.
  intros Hne. destruct (Trim_head s c) as [E|(d & x & E & Hd)]; [contradiction|].
  assert (L : TrimLeft (Trim s c ++ String c EmptyString) c =
              Trim s c ++ String c EmptyString)
    by (rewrite E; apply TrimLeft_cons_ne; exact Hd).
  change (Trim (Trim s c ++ String c EmptyString) c)
    with (TrimRight (TrimLeft (Trim s c ++ String c EmptyString) c) c).
  rewrite L, TrimRight_snoc. apply TrimRight_Trim.
Qed.

Lemma endpoint_norm_idem (e : string) :
  TrimRight (TrimRight e slash ++ "/") slash ++ "/" = TrimRight e slash ++ "/".
Proof.
  change "/" with (String slash EmptyString).
  rewrite TrimRight_snoc, TrimRight_idem. reflexivity.
Qed.

Lemma prefix_norm_idem (p : string) :
  (if String.eqb (Trim (if String.eqb (Trim p slash) "" then Trim p slash
                         else Trim p slash ++ "/") slash) ""
   then Trim (if String.eqb (Trim p slash) "" then Trim p slash else Trim p slash ++ "/") slash
   else Trim (if String.eqb (Trim p slash) "" then Trim p slash else Trim p slash ++ "/") slash
        ++ "/") =
  (if String.eqb (Trim p slash) "" then Trim p slash else Trim p slash ++ "/").
Proof.
  destruct (String.eqb (Trim p slash) "") eqn:Ep.
  - apply String.eqb_eq in Ep. rewrite Ep. reflexivity.
  - assert (Hne : Trim p slash <> EmptyString) by (apply String.eqb_neq; exact Ep).
    change "/" with (String slash EmptyString).
    rewrite (Trim_snoc p slash Hne), Ep. reflexivity.
Qed.

(** Open is idempotent: opening again with the endpoint, container and
    prefix of a storage Open returned gives them back unchanged. *)
Theorem Open_idempotent {TC} (ncc : string -> TC -> error + ContainerClient)
    (e c p : string) (cr : TC) (st : Storage) (client : ContainerClient) :
  Open ncc e c p cr = Ok st ->
  ncc (endpoint st) cr = inr client ->
  Open ncc (endpoint st) (container st) (prefix st) cr =
  Ok {| endpoint := endpoint st; container := container st; prefix := prefix st;
        cred := cr; containerClient := client |}.
Proof.
  unfold Open at 1. cbv zeta.
  destruct (Contains (Trim c slash) "/") eqn:Ec; [discriminate|].
  destruct (ncc _ cr) as [err|cl]; [discriminate|].
  intros Eq. injection Eq as <-. cbn [endpoint container prefix]. intros Hn.
  unfold Open. cbv zeta. rewrite endpoint_norm_idem, Trim_idem, Ec, Hn.
  rewrite (prefix_norm_idem p). reflexivity.
Qed.

Lemma Open_idempotent_witness :
  Open sample_new_client "https://acct.blob.core.windows.net//" "/immudb/" "//db/x//" tt =
    Ok {| endpoint := "https://acct.blob.core.windows.net/"; container := "immudb";
          prefix := "db/x/"; cred := tt; containerClient := sample_client |} /\
  sample_new_client "https://acct.blob.core.windows.net/" tt = inr sample_client /\
  Open sample_new_client "https://acct.blob.core.windows.net/" "immudb" "db/x/" tt =
    Ok {| endpoint := "https://acct.blob.core.windows.net/"; container := "immudb";
          prefix := "db/x/"; cred := tt; containerClient := sample_client |}.
Proof.
  assert (H1 : Open sample_new_client "https://acct.blob.core.windows.net//" "/immudb/" "//db/x//" tt =
    Ok {| endpoint := "https://acct.blob.core.windows.net/"; container := "immudb";
          prefix := "db/x/"; cred := tt; containerClient := sample_client |})
    by (vm_compute; reflexivity).
  split; [exact H1|]. split; [reflexivity|].
  exact (Open_idempotent sample_new_client _ _ _ tt _ sample_client H1 eq_refl).
Defined.

(** A name Get, Put and Exists accept. *)
Lemma name_ok_iff (name : string) :
  (HasPrefix name "/" || HasSuffix name "/") = false <->
  HasPrefix name "/" = false /\ HasSuffix name "/" = false.
Proof. apply orb_false_iff. Qed.

(** Get sends at most one request, a download of exactly the range asked
    for; it sends it only when the offset is non-negative, the size is in
    (0, maxAlloc] and the name is accepted, and then its result is the
    download's. *)
Theorem Get_request_discipline {C} (s : @Storage C) (name : string) (offs size : Z) :
  fst (Get s name offs size) <> [] ->
  fst (Get s name offs size) = [ReqDownload name offs size] /\
  0 <= offs /\ 0 < size <= maxAlloc /\
  HasPrefix name "/" = false /\ HasSuffix name "/" = false /\
  snd (Get s name offs size) =
    match DownloadBlobToBuffer (containerClient s) name offs size with
    | inl e => Err e
    | inr bytes => Ok bytes
    end.
Proof.
  unfold Get.
  destruct ((offs <? 0) || (size =? 0)) eqn:E1; [simpl; congruence|].
  destruct (HasPrefix name "/" || HasSuffix name "/") eqn:E2; [simpl; congruence|].
  destruct ((size <? 0) || (maxAlloc <? size)) eqn:E3; [simpl; congruence|].
  intros _. apply orb_false_iff in E1 as [E1a E1b], E2 as [E2a E2b], E3 as [E3a E3b].
  apply Z.ltb_ge in E1a, E3a, E3b. apply Z.eqb_neq in E1b.
  destruct (DownloadBlobToBuffer _ _ _ _); simpl;
    (split; [reflexivity|]); repeat split; auto; lia.
Qed.

Lemma Get_request_discipline_witness :
  fst (Get sample_storage "seg0" 8 4) <> [] /\
  fst (Get sample_storage "seg0" 8 4) = [ReqDownload "seg0" 8 4] /\
  0 <= 8 /\ 0 < 4 <= maxAlloc /\
  HasPrefix "seg0" "/" = false /\ HasSuffix "seg0" "/" = false /\
  snd (Get sample_storage "seg0" 8 4) =
    match DownloadBlobToBuffer (containerClient sample_storage) "seg0" 8 4 with
    | inl e => Err e
    | inr bytes => Ok bytes
    end.
Proof.
  assert (H : fst (Get sample_storage "seg0" 8 4) <> []) by (vm_compute; discriminate).
  split; [exact H|]. exact (Get_request_discipline sample_storage "seg0" 8 4 H).
Defined.

(** Get panics exactly when the arguments pass its checks but the size is
    negative or above maxAlloc ([make([]byte, size)] fails); it then sends
    no request. *)
Theorem Get_panics_iff {C} (s : @Storage C) (name : string) (offs size : Z) :
  (exists msg, snd (Get s name offs size) = Panic msg) <->
  0 <= offs /\ HasPrefix name "/" = false /\ HasSuffix name "/" = false /\
  (size < 0 \/ maxAlloc < size).
Proof.
  unfold Get.
  destruct ((offs <? 0) || (size =? 0)) eqn:E1.
  { split; [intros [msg Hm]; discriminate|].
    intros (Ho & _ & _ & Hs). apply orb_true_iff in E1 as [E1|E1].
    - apply Z.ltb_lt in E1. lia.
    - apply Z.eqb_eq in E1. unfold maxAlloc in Hs. lia. }
  destruct (HasPrefix name "/" || HasSuffix name "/") eqn:E2.
  { split; [intros [msg Hm]; discriminate|].
    intros (_ & Hp & Hs & _). rewrite Hp, Hs in E2. discriminate. }
  apply orb_false_iff in E1 as [E1a _], E2 as [E2a E2b]. apply Z.ltb_ge in E1a.
  destruct ((size <? 0) || (maxAlloc <? size)) eqn:E3.
  - split; [|intros _; eexists; reflexivity].
    intros _. apply orb_true_iff in E3.
    repeat split; try assumption.
    destruct E3 as [E3|E3]; [left|right]; apply Z.ltb_lt; exact E3.
  - apply orb_false_iff in E3 as [E3a E3b]. apply Z.ltb_ge in E3a, E3b.
    split; [|intros (_ & _ & _ & [Hs|Hs]); lia].
    intros [msg Hm]. destruct (DownloadBlobToBuffer _ _ _ _); discriminate.
Qed.

(** Put sends an upload only after the file was opened; it succeeds exactly
    when the name is accepted, the file opens and the upload succeeds. *)
Theorem Put_upload_discipline {C} (s : @Storage C) (name fileName : string) :
  (In (ReqUpload name) (fst (Put s name fileName)) ->
   fst (Put s name fileName) = [ReqOpenFile fileName; ReqUpload name] /\
   osOpen (containerClient s) fileName = None) /\
  (snd (Put s name fileName) = Ok tt <->
   HasPrefix name "/" = false /\ HasSuffix name "/" = false /\
   osOpen (containerClient s) fileName = None /\
   UploadFileToBlockBlob (containerClient s) name fileName = None).
Proof.
  unfold Put.
  destruct (HasPrefix name "/" || HasSuffix name "/") eqn:En.
  { split; [intros []|]. split; [discriminate|].
    intros (Hp & Hs & _). rewrite Hp, Hs in En. discriminate. }
  apply name_ok_iff in En as [Hp Hs].
  destruct (osOpen _ fileName) as [e|] eqn:Eo.
  { split; [intros [H|[]]; discriminate|]. split; [discriminate|intros (_ & _ & H & _); discriminate]. }
  destruct (UploadFileToBlockBlob _ name fileName) as [e|] eqn:Eu.
  - split; [intros _; split; reflexivity|].
    split; [discriminate|intros (_ & _ & _ & H); discriminate].
  - split; [intros _; split; reflexivity|]. split; intros; auto.
Qed.

Lemma Put_upload_discipline_witness :
  (In (ReqUpload "seg0") (fst (Put sample_storage "seg0" "/tmp/seg0")) ->
   fst (Put sample_storage "seg0" "/tmp/seg0") = [ReqOpenFile "/tmp/seg0"; ReqUpload "seg0"] /\
   osOpen (containerClient sample_storage) "/tmp/seg0" = None) /\
  (snd (Put sample_storage "seg0" "/tmp/seg0") = Ok tt <->
   HasPrefix "seg0" "/" = false /\ HasSuffix "seg0" "/" = false /\
   osOpen (containerClient sample_storage) "/tmp/seg0" = None /\
   UploadFileToBlockBlob (containerClient sample_storage) "seg0" "/tmp/seg0" = None).
Proof. exact (Put_upload_discipline sample_storage "seg0" "/tmp/seg0"). Defined.

(** Exists answers [true] exactly when GetProperties succeeds and [false]
    exactly when it fails with the BlobNotFound storage error; any other
    failure is returned as an error, never as [false]. *)
Theorem Exists_answers {C} (s : @Storage C) (name : string) (b : bool) :
  snd (Exists s name) = Ok b <->
  HasPrefix name "/" = false /\ HasSuffix name "/" = false /\
  GetProperties (containerClient s) name =
    (if b then None else Some (StorageError StorageErrorCodeBlobNotFound)).
Proof.
  unfold Exists.
  destruct (HasPrefix name "/" || HasSuffix name "/") eqn:En.
  { split; [discriminate|].
    intros (Hp & Hs & _). rewrite Hp, Hs in En. discriminate. }
  apply name_ok_iff in En as [Hp Hs].
  destruct (GetProperties _ name) as [[code|msg]|] eqn:Eg.
  - destruct (String.eqb_spec code StorageErrorCodeBlobNotFound) as [->|Hc].
    + split.
      * intros [= <-]. auto.
      * intros (_ & _ & Hb). destruct b; [discriminate|reflexivity].
    + split; [discriminate|].
      intros (_ & _ & Hb). destruct b; [discriminate|]. injection Hb as Hb. contradiction.
  - split; [discriminate|]. intros (_ & _ & Hb). destruct b; discriminate.
  - split.
    + intros [= <-]. auto.
    + intros (_ & _ & Hb). destruct b; [reflexivity|discriminate].
Qed.

(** ListEntries succeeds exactly when the path passes its check, no page
    has a nil pointer where the loop reads one and the listing is sorted;
    it then returns the names of the pages, entries and sub-paths in page
    order, and it has sent one request per page, each with the prefix of
    the storage followed by the path, and one more when the pager ended on
    a failed request (which is not reported). *)
Theorem ListEntries_ok_iff {C} (s : @Storage C) (path : string) trace entries subPaths :
  ListEntries s path = (trace, Ok (entries, subPaths)) <->
  path_ok path = true /\
  listing (pager_pages (ListBlobsHierarchy (containerClient s) (prefix s ++ path))) =
    Some (subPaths, entries) /\
  entries_sorted entries /\ strings_sorted subPaths /\
  trace = map (ReqListPage (prefix s ++ path))
            (seq 0 (length (pager_pages (ListBlobsHierarchy (containerClient s) (prefix s ++ path))) +
                    (if pager_failed (ListBlobsHierarchy (containerClient s) (prefix s ++ path))
                     then 1 else 0))).
Proof.
  destruct (path_ok path) eqn:Hp.
  2:{ rewrite (ListEntries_rejected_path s path Hp).
      split; [discriminate|intros [H _]; discriminate]. }
  rewrite (ListEntries_unfold s path Hp). cbv zeta.
  destruct (listing _) as [[sp es]|] eqn:El.
  2:{ split; [discriminate|intros (_ & H & _); discriminate]. }
  rewrite (collect_trace _ _ 0 [] [] ltac:(rewrite El; discriminate)).
  rewrite <- entries_sorted_iff, <- strings_sorted_iff.
  destruct (SliceIsSorted entry_less es) eqn:E1, (StringsAreSorted sp) eqn:E2; simpl.
  - split.
    + intros [= <- <- <-]. repeat split; assumption.
    + intros (_ & [= <- <-] & _ & _ & ->). reflexivity.
  - split; [discriminate|]. intros (_ & [= <- <-] & _ & H & _). congruence.
  - split; [discriminate|]. intros (_ & [= <- <-] & H & _). congruence.
  - split; [discriminate|]. intros (_ & [= <- <-] & H & _). congruence.
Qed.

Lemma ListEntries_ok_iff_witness :
  ListEntries (listing_storage failing_pager) "" = ([ReqListPage "" 0], Ok ([], [])) /\
  (path_ok "" = true /\
   listing (pager_pages (ListBlobsHierarchy (containerClient (listing_storage failing_pager))
     (prefix (listing_storage failing_pager) ++ ""))) = Some ([], []) /\
   entries_sorted [] /\ strings_sorted [] /\
   [ReqListPage "" 0] =
     map (ReqListPage (prefix (listing_storage failing_pager) ++ ""))
       (seq 0 (length (pager_pages (ListBlobsHierarchy (containerClient (listing_storage failing_pager))
                 (prefix (listing_storage failing_pager) ++ ""))) +
               (if pager_failed (ListBlobsHierarchy (containerClient (listing_storage failing_pager))
                      (prefix (listing_storage failing_pager) ++ ""))
                then 1 else 0)))).
Proof.
  assert (H : ListEntries (listing_storage failing_pager) "" = ([ReqListPage "" 0], Ok ([], [])))
    by (vm_compute; reflexivity).
  split; [exact H|].
  exact (proj1 (ListEntries_ok_iff (listing_storage failing_pager) "" _ _ _) H).
Defined.

(** ListEntries panics exactly when the path passes its check and a page
    the pager returns has a nil pointer where the loop dereferences one
    (the segment, a prefix or item, its name, its properties or its
    content length); it fails only with ErrInvalidArguments (a rejected
    path) or ErrInvalidResponse (an unsorted listing): a failing pager
    request is not reported as an error. *)
Theorem ListEntries_errors {C} (s : @Storage C) (path : string) :
  ((exists msg, snd (ListEntries s path) = Panic msg) <->
   path_ok path = true /\
   listing (pager_pages (ListBlobsHierarchy (containerClient s) (prefix s ++ path))) = None) /\
  (forall e, snd (ListEntries s path) = Err e ->
     (e = ErrInvalidArguments /\ path_ok path = false) \/
     (e = ErrInvalidResponse /\ path_ok path = true)).
Proof.
  destruct (path_ok path) eqn:Hp.
  - rewrite (ListEntries_unfold s path Hp). cbv zeta. simpl snd. unfold nilDeref.
    destruct (listing _) as [[sp es]|].
    + destruct (negb _ || negb _).
      * split; [split; [intros [m H]; discriminate|intros [_ H]; discriminate]|].
        intros e [= <-]. right. split; reflexivity.
      * split; [split; [intros [m H]; discriminate|intros [_ H]; discriminate]|].
        intros e H; discriminate.
    + split; [split; [intros _; split; reflexivity|intros _; eexists; reflexivity]|].
      intros e H; discriminate.
  - rewrite (ListEntries_rejected_path s path Hp). simpl snd.
    split; [split; [intros [m H]; discriminate|intros [H _]; discriminate]|].
    intros e [= <-]. left. split; reflexivity.
Qed.

Lemma ListEntries_errors_witness :
  snd (ListEntries (listing_storage nil_length_pager) "") =
    Panic "runtime error: invalid memory address or nil pointer dereference" /\
  (path_ok "" = true /\
   listing (pager_pages (ListBlobsHierarchy (containerClient (listing_storage nil_length_pager))
     (prefix (listing_storage nil_length_pager) ++ ""))) = None) /\
  snd (ListEntries unsorted_storage "") = Err ErrInvalidResponse /\
  ((ErrInvalidResponse = ErrInvalidArguments /\ path_ok "" = false) \/
   (ErrInvalidResponse = ErrInvalidResponse /\ path_ok "" = true)).
Proof.
  assert (H1 : snd (ListEntries (listing_storage nil_length_pager) "") =
    Panic "runtime error: invalid memory address or nil pointer dereference")
    by (vm_compute; reflexivity).
  assert (H2 : snd (ListEntries unsorted_storage "") = Err ErrInvalidResponse)
    by (vm_compute; reflexivity).
  split; [exact H1|]. split.
  - exact (proj1 (proj1 (ListEntries_errors (listing_storage nil_length_pager) "")) (ex_intro _ _ H1)).
  - split; [exact H2|].
    exact (proj2 (ListEntries_errors unsorted_storage "") ErrInvalidResponse H2).
Defined.

End AzureMore.

Module StoreOptionsMore.

Import StoreOptions Idx Opts StoreOptionsFacts.IdxFacts StoreOptionsFacts.OptFacts.
Local Open Scope Z_scope.

Lemma run_opt_chain_app (cs1 cs2 : list opt_setter) (h : heap) (p : ptr) :
  run_opt_chain (cs1 ++ cs2) h p =
  match run_opt_chain cs1 h p with
  | None => None
  | Some (h', p') => run_opt_chain cs2 h' p'
  end.
Proof.
  revert h p. induction cs1 as [|c cs1 IH]; intros h p; [reflexivity|].
  simpl. destruct (apply_opt_setter c h p) as [[h' p']|]; [apply IH|reflexivity].
Qed.

Lemma run_idx_chain_app (cs1 cs2 : list idx_setter) (h : gmap positive IndexOptions) (p : ptr) :
  run_idx_chain (cs1 ++ cs2) h p =
  match run_idx_chain cs1 h p with
  | None => None
  | Some (h', p') => run_idx_chain cs2 h' p'
  end.
Proof.
  revert h p. induction cs1 as [|c cs1 IH]; intros h p; [reflexivity|].
  simpl. destruct (apply_idx_setter c h p) as [[h' p']|]; [apply IH|reflexivity].
Qed.

Lemma opt_setter_holds_agree (s : opt_setter) (o o' : Options) :
  opt_setter_holds s o -> opt_field_agree (opt_setter_field s) o o' -> opt_setter_holds s o'.
Proof. destruct s; simpl; congruence. Qed.

Lemma idx_setter_holds_agree (s : idx_setter) (o o' : IndexOptions) :
  idx_setter_holds s o -> idx_field_agree (idx_setter_field s) o o' -> idx_setter_holds s o'.
Proof. destruct s; simpl; congruence. Qed.

(** In a chain of Options setters the last call naming a field decides
    its value: a setter followed only by setters of other fields leaves
    its argument in the struct. *)
Theorem opt_chain_last_write_wins (cs1 : list opt_setter) (s : opt_setter)
    (cs2 : list opt_setter) (h : heap) (l : positive) (o : Options) :
  opts_heap h !! l = Some o ->
  ~ In (opt_setter_field s) (map opt_setter_field cs2) ->
  exists o', run_opt_chain (cs1 ++ s :: cs2) h (Some l) =
      Some ({| opts_heap := <[l := o']> (opts_heap h); idx_heap := idx_heap h |}, Some l) /\
    opt_setter_holds s o'.
Proof.
  intros Hl Hn. rewrite run_opt_chain_app.
  destruct (run_opt_chain_frame cs1 h l o Hl) as (o1 & E1 & _). rewrite E1.
  cbn [run_opt_chain].
  destruct (apply_opt_setter_frame s
              {| opts_heap := <[l := o1]> (opts_heap h); idx_heap := idx_heap h |}
              l o1 (lookup_insert_eq (opts_heap h) l o1)) as (o2 & E2 & H2 & _).
  rewrite E2. cbn [opts_heap idx_heap] in *.
  destruct (run_opt_chain_frame cs2
              {| opts_heap := <[l := o2]> (<[l := o1]> (opts_heap h)); idx_heap := idx_heap h |}
              l o2 (lookup_insert_eq _ l o2)) as (o3 & E3 & F3).
  rewrite E3. exists o3. cbn [opts_heap idx_heap]. rewrite !insert_insert_eq.
  split; [reflexivity|]. apply (opt_setter_holds_agree s o2); [exact H2|]. apply F3, Hn.
Qed.

Lemma opt_chain_last_write_wins_witness :
  opts_heap sample_heap !! 1%positive = Some sample_options /\
  ~ In (opt_setter_field (S_WithMaxKeyLen 512)) (map opt_setter_field [S_WithReadOnly true]) /\
  exists o', run_opt_chain ([S_WithMaxKeyLen 64] ++ S_WithMaxKeyLen 512 :: [S_WithReadOnly true])
                sample_heap (Some 1%positive) =
      Some ({| opts_heap := <[1%positive := o']> (opts_heap sample_heap);
               idx_heap := idx_heap sample_heap |}, Some 1%positive) /\
    opt_setter_holds (S_WithMaxKeyLen 512) o'.
Proof.
  assert (Hn : ~ In (opt_setter_field (S_WithMaxKeyLen 512))
                    (map opt_setter_field [S_WithReadOnly true]))
    by (simpl; intros [H|[]]; discriminate).
  split; [reflexivity|]. split; [exact Hn|].
  exact (opt_chain_last_write_wins [S_WithMaxKeyLen 64] (S_WithMaxKeyLen 512)
           [S_WithReadOnly true] sample_heap 1%positive sample_options eq_refl Hn).
Defined.

(** The same for IndexOptions setters. *)
Theorem idx_chain_last_write_wins (cs1 : list idx_setter) (s : idx_setter)
    (cs2 : list idx_setter) (h : gmap positive IndexOptions) (l : positive) (o : IndexOptions) :
  h !! l = Some o ->
  ~ In (idx_setter_field s) (map idx_setter_field cs2) ->
  exists o', run_idx_chain (cs1 ++ s :: cs2) h (Some l) = Some (<[l := o']> h, Some l) /\
    idx_setter_holds s o'.
Proof.
  intros Hl Hn. rewrite run_idx_chain_app.
  destruct (run_idx_chain_frame cs1 h l o Hl) as (o1 & E1 & _). rewrite E1.
  cbn [run_idx_chain].
  destruct (apply_idx_setter_frame s _ l o1 (lookup_insert_eq h l o1)) as (o2 & E2 & H2 & _).
  rewrite E2.
  destruct (run_idx_chain_frame cs2 (<[l := o2]> (<[l := o1]> h)) l o2
              (lookup_insert_eq _ l o2)) as (o3 & E3 & F3).
  rewrite E3. exists o3. rewrite !insert_insert_eq.
  split; [reflexivity|]. apply (idx_setter_holds_agree s o2); [exact H2|]. apply F3, Hn.
Qed.

Lemma idx_chain_last_write_wins_witness :
  idx_heap sample_heap !! 1%positive = Some sample_index /\
  ~ In (idx_setter_field (SI_WithCacheSize 10)) (map idx_setter_field [SI_WithFlushThld 5]) /\
  exists o', run_idx_chain ([SI_WithCacheSize 1] ++ SI_WithCacheSize 10 :: [SI_WithFlushThld 5])
                (idx_heap sample_heap) (Some 1%positive) =
      Some (<[1%positive := o']> (idx_heap sample_heap), Some 1%positive) /\
    idx_setter_holds (SI_WithCacheSize 10) o'.
Proof.
  assert (Hn : ~ In (idx_setter_field (SI_WithCacheSize 10))
                    (map idx_setter_field [SI_WithFlushThld 5]))
    by (simpl; intros [H|[]]; discriminate).
  split; [reflexivity|]. split; [exact Hn|].
  exact (idx_chain_last_write_wins [SI_WithCacheSize 1] (SI_WithCacheSize 10)
           [SI_WithFlushThld 5] (idx_heap sample_heap) 1%positive sample_index eq_refl Hn).
Defined.

(** validOptions looks only at the validated fields and at the index
    struct the Options point to. *)
Lemma validOptions_ext (MaxParallelIO MaxKeyLen_ceiling MaxTxHeaderVersion : Z)
    (h h' : heap) (l : positive) (o o' : Options) :
  opts_heap h !! l = Some o -> opts_heap h' !! l = Some o' ->
  idx_heap h' = idx_heap h ->
  (forall f, unvalidated f = false -> opt_field_agree f o o') ->
  validOptions MaxParallelIO MaxKeyLen_ceiling MaxTxHeaderVersion h' (Some l) =
  validOptions MaxParallelIO MaxKeyLen_ceiling MaxTxHeaderVersion h (Some l).
Proof.
  intros Hl Hl' Hi Ha. unfold validOptions. rewrite Hl, Hl', Hi.
  rewrite (Ha F_MaxConcurrency eq_refl), (Ha F_MaxIOConcurrency eq_refl),
    (Ha F_MaxLinearProofLen eq_refl), (Ha F_VLogMaxOpenedFiles eq_refl),
    (Ha F_TxLogMaxOpenedFiles eq_refl), (Ha F_CommitLogMaxOpenedFiles eq_refl),
    (Ha F_TxLogCacheSize eq_refl), (Ha F_MaxWaitees eq_refl), (Ha F_TimeFunc eq_refl),
    (Ha F_WriteTxHeaderVersion eq_refl), (Ha F_MaxTxEntries eq_refl),
    (Ha F_MaxKeyLen eq_refl), (Ha F_MaxValueLen eq_refl), (Ha F_FileSize eq_refl),
    (Ha F_log eq_refl), (Ha F_IndexOpts eq_refl).
  reflexivity.
Qed.

(** Setting only fields validOptions does not read (ReadOnly, Synced,
    FileMode, appFactory, CompactionDisabled, CompressionFormat,
    CompressionLevel), with any values, never changes its verdict. *)
Theorem validOptions_unvalidated_setters (MaxParallelIO MaxKeyLen_ceiling MaxTxHeaderVersion : Z)
    (cs : list opt_setter) (h : heap) (l : positive) (o : Options) :
  opts_heap h !! l = Some o ->
  forallb (fun c => unvalidated (opt_setter_field c)) cs = true ->
  exists h', run_opt_chain cs h (Some l) = Some (h', Some l) /\
    validOptions MaxParallelIO MaxKeyLen_ceiling MaxTxHeaderVersion h' (Some l) =
    validOptions MaxParallelIO MaxKeyLen_ceiling MaxTxHeaderVersion h (Some l).
Proof.
  intros Hl Hcs. destruct (run_opt_chain_frame cs h l o Hl) as (o' & E & F).
  eexists. split; [exact E|].
  apply (validOptions_ext _ _ _ h
           {| opts_heap := <[l := o']> (opts_heap h); idx_heap := idx_heap h |}
           l o o' Hl (lookup_insert_eq _ l o') eq_refl).
  intros f Hf. apply F. intros Hin. apply in_map_iff in Hin as (c & Hc & Hin).
  rewrite forallb_forall in Hcs. specialize (Hcs c Hin). simpl in Hcs.
  rewrite Hc, Hf in Hcs. discriminate.
Qed.

Lemma validOptions_unvalidated_setters_witness :
  opts_heap sample_heap !! 1%positive = Some sample_options /\
  forallb (fun c => unvalidated (opt_setter_field c))
    [S_WithReadOnly true; S_WithFileMode 0%N; S_WithCompresionLevel (-7)] = true /\
  exists h', run_opt_chain [S_WithReadOnly true; S_WithFileMode 0%N; S_WithCompresionLevel (-7)]
               sample_heap (Some 1%positive) = Some (h', Some 1%positive) /\
    validOptions 127 1024 1 h' (Some 1%positive) =
    validOptions 127 1024 1 sample_heap (Some 1%positive).
Proof.
  split; [reflexivity|]. split; [reflexivity|].
  apply (validOptions_unvalidated_setters 127 1024 1 _ sample_heap 1%positive sample_options);
    reflexivity.
Defined.

(** The index options are shared through a pointer: when two Options point
    to the same IndexOptions, a non-positive WithCacheSize called on the
    index options of the first makes the second fail validOptions, though
    no Options struct was written. *)
Theorem validOptions_shared_index (MaxParallelIO MaxKeyLen_ceiling MaxTxHeaderVersion : Z)
    (h : heap) (l1 l2 : positive) (o1 o2 : Options) (x : Z)
    (ih' : gmap positive IndexOptions) (p' : ptr) :
  opts_heap h !! l1 = Some o1 -> opts_heap h !! l2 = Some o2 ->
  IndexOpts o2 = IndexOpts o1 -> x <= 0 ->
  WithCacheSize (idx_heap h) (IndexOpts o1) x = Some (ih', p') ->
  validOptions MaxParallelIO MaxKeyLen_ceiling MaxTxHeaderVersion
    {| opts_heap := opts_heap h; idx_heap := ih' |} (Some l2) = false.
Proof.
  intros _ Hl2 Hsh Hx Hw. unfold WithCacheSize, update_idx in Hw.
  destruct (IndexOpts o1) as [li|] eqn:Ep; [|discriminate].
  destruct (idx_heap h !! li) as [oi|] eqn:Ei; [|discriminate].
  injection Hw as <- _.
  unfold validOptions. cbn [opts_heap idx_heap]. rewrite Hl2, Hsh.
  unfold validIndexOptions. rewrite lookup_insert_eq. cbn [CacheSize].
  assert (E : (x >? 0) = false) by (rewrite Z.gtb_ltb; apply Z.ltb_ge; exact Hx).
  rewrite E. simpl andb. apply andb_false_r.
Qed.

Lemma validOptions_shared_index_witness :
  let h := {| opts_heap := <[2%positive := sample_options]> (opts_heap sample_heap);
              idx_heap := idx_heap sample_heap |} in
  opts_heap h !! 1%positive = Some sample_options /\
  opts_heap h !! 2%positive = Some sample_options /\
  WithCacheSize (idx_heap h) (IndexOpts sample_options) 0 =
    Some (<[1%positive := Build_IndexOptions 0 100000 1000000 4096 (F32 0) 100 4096
                             1000000000 2 0 10 1 1]> (idx_heap h), Some 1%positive) /\
  validOptions 127 1024 1 h (Some 2%positive) = true /\
  validOptions 127 1024 1
    {| opts_heap := opts_heap h;
       idx_heap := <[1%positive := Build_IndexOptions 0 100000 1000000 4096 (F32 0) 100 4096
                                     1000000000 2 0 10 1 1]> (idx_heap h) |}
    (Some 2%positive) = false.
Proof.
  cbv zeta.
  split; [reflexivity|]. split; [reflexivity|].
  split; [reflexivity|]. split; [vm_compute; reflexivity|].
  exact (validOptions_shared_index 127 1024 1
           {| opts_heap := <[2%positive := sample_options]> (opts_heap sample_heap);
              idx_heap := idx_heap sample_heap |} 1%positive 2%positive sample_options
           sample_options 0 _ (Some 1%positive) eq_refl eq_refl eq_refl
           ltac:(lia) eq_refl).
Defined.

(** validIndexOptions accepts only a finite CleanupPercentage in [0, 100]:
    NaN and the infinities are refused. *)
Theorem validIndexOptions_cleanup_finite (h : gmap positive IndexOptions) (p : ptr) :
  validIndexOptions h p = true ->
  exists l o q, p = Some l /\ h !! l = Some o /\ CleanupPercentage o = F32 q /\
    (0 <= q)%Q /\ (q <= 100)%Q.
Proof.
  unfold validIndexOptions. destruct p as [l|]; [|discriminate].
  destruct (h !! l) as [o|] eqn:Hl; [|discriminate].
  intros Hv.
  repeat match goal with
         | H : _ && _ = true |- _ => apply andb_true_iff in H as [? ?]
         end.
  destruct (CleanupPercentage o) as [q|[|]|] eqn:Ec;
    simpl in *; try discriminate.
  exists l, o, q. split; [reflexivity|]. split; [exact Hl|]. split; [exact Ec|].
  split; apply Qle_bool_iff; assumption.
Qed.

Lemma validIndexOptions_cleanup_finite_witness :
  validIndexOptions (idx_heap sample_heap) (Some 1%positive) = true /\
  exists l o q, Some 1%positive = Some l /\ idx_heap sample_heap !! l = Some o /\
    CleanupPercentage o = F32 q /\ (0 <= q)%Q /\ (q <= 100)%Q.
Proof.
  assert (H : validIndexOptions (idx_heap sample_heap) (Some 1%positive) = true)
    by (vm_compute; reflexivity).
  split; [exact H|]. exact (validIndexOptions_cleanup_finite _ _ H).
Defined.

(** DefaultOptions passes validOptions exactly when the defaults it takes
    from other packages are in range: multiapp's file size in
    (0, MaxFileSize) and tbtree's defaults as validIndexOptions wants them;
    the defaults of this file always are, given the platform ceilings
    (MaxParallelIO at least 1, MaxKeyLen at least 1024, MaxTxHeaderVersion
    non-negative). *)
Theorem DefaultOptions_valid_iff (MaxParallelIO MaxKeyLen_ceiling MaxTxHeaderVersion : Z)
    (c : ExternalDefaults) (h : heap) :
  0 < MaxParallelIO -> 1024 <= MaxKeyLen_ceiling -> 0 <= MaxTxHeaderVersion ->
  validOptions MaxParallelIO MaxKeyLen_ceiling MaxTxHeaderVersion
    (fst (DefaultOptions MaxTxHeaderVersion c h))
    (snd (DefaultOptions MaxTxHeaderVersion c h)) = true <->
  (0 < DefaultFileSize c /\ DefaultFileSize c < MaxFileSize /\
   0 < DefaultCacheSize (tbtree c) /\ 0 < DefaultFlushThld (tbtree c) /\
   0 < DefaultFlushBufferSize (tbtree c) /\
   f32_ge0 (DefaultCleanUpPercentage (tbtree c)) = true /\
   f32_le100 (DefaultCleanUpPercentage (tbtree c)) = true /\
   0 < DefaultMaxActiveSnapshots (tbtree c) /\ 0 < DefaultMaxNodeSize (tbtree c) /\
   0 <= DefaultRenewSnapRootAfter (tbtree c) /\
   0 < DefaultNodesLogMaxOpenedFiles (tbtree c) /\
   0 < DefaultHistoryLogMaxOpenedFiles (tbtree c) /\
   0 < Idx.DefaultCommitLogMaxOpenedFiles (tbtree c)).
Proof.
  intros H1 H2 H3.
  unfold DefaultOptions, DefaultIndexOptions. cbv beta iota zeta. cbn [fst snd].
  unfold validOptions. cbn [opts_heap idx_heap]. rewrite lookup_insert_eq.
  cbn [IndexOpts]. unfold validIndexOptions. rewrite lookup_insert_eq.
  cbn [MaxConcurrency MaxIOConcurrency MaxLinearProofLen VLogMaxOpenedFiles
       TxLogMaxOpenedFiles Opts.CommitLogMaxOpenedFiles TxLogCacheSize MaxWaitees TimeFunc
       WriteTxHeaderVersion MaxTxEntries MaxKeyLen MaxValueLen FileSize log
       CacheSize FlushThld FlushBufferSize CleanupPercentage MaxActiveSnapshots MaxNodeSize
       RenewSnapRootAfter NodesLogMaxOpenedFiles HistoryLogMaxOpenedFiles
       Idx.CommitLogMaxOpenedFiles].
  assert (E1 : (DefaultMaxIOConcurrency <=? MaxParallelIO) = true)
    by (apply Z.leb_le; unfold DefaultMaxIOConcurrency; lia).
  assert (E2 : (DefaultMaxKeyLen <=? MaxKeyLen_ceiling) = true)
    by (apply Z.leb_le; unfold DefaultMaxKeyLen; lia).
  assert (E3 : (MaxTxHeaderVersion >=? 0) = true) by (apply Z.geb_le; lia).
  assert (E4 : (MaxTxHeaderVersion <=? MaxTxHeaderVersion) = true) by (apply Z.leb_le; lia).
  rewrite E1, E2, E3, E4. simpl notNil.
  change (DefaultMaxConcurrency >? 0) with true.
  change (DefaultMaxIOConcurrency >? 0) with true.
  change (DefaultMaxLinearProofLen >=? 0) with true.
  change (DefaultVLogMaxOpenedFiles >? 0) with true.
  change (DefaultTxLogMaxOpenedFiles >? 0) with true.
  change (DefaultCommitLogMaxOpenedFiles >? 0) with true.
  change (DefaultTxLogCacheSize >=? 0) with true.
  change (DefaultMaxWaitees >=? 0) with true.
  change (DefaultMaxTxEntries >? 0) with true.
  change (DefaultMaxKeyLen >? 0) with true.
  change (DefaultMaxValueLen >? 0) with true.
  rewrite !andb_true_iff, !Z.gtb_lt, !Z.ltb_lt, !Z.geb_le.
  tauto.
Qed.

Lemma DefaultOptions_valid_iff_witness :
  0 < 127 /\ 1024 <= 1024 /\ 0 <= 1 /\
  validOptions 127 1024 1 (fst (DefaultOptions 1 external_defaults sample_heap))
    (snd (DefaultOptions 1 external_defaults sample_heap)) = true /\
  (validOptions 127 1024 1 (fst (DefaultOptions 1 external_defaults sample_heap))
     (snd (DefaultOptions 1 external_defaults sample_heap)) = true <->
   (0 < DefaultFileSize external_defaults /\ DefaultFileSize external_defaults < MaxFileSize /\
    0 < DefaultCacheSize (tbtree external_defaults) /\
    0 < DefaultFlushThld (tbtree external_defaults) /\
    0 < DefaultFlushBufferSize (tbtree external_defaults) /\
    f32_ge0 (DefaultCleanUpPercentage (tbtree external_defaults)) = true /\
    f32_le100 (DefaultCleanUpPercentage (tbtree external_defaults)) = true /\
    0 < DefaultMaxActiveSnapshots (tbtree external_defaults) /\
    0 < DefaultMaxNodeSize (tbtree external_defaults) /\
    0 <= DefaultRenewSnapRootAfter (tbtree external_defaults) /\
    0 < DefaultNodesLogMaxOpenedFiles (tbtree external_defaults) /\
    0 < DefaultHistoryLogMaxOpenedFiles (tbtree external_defaults) /\
    0 < Idx.DefaultCommitLogMaxOpenedFiles (tbtree external_defaults))).
Proof.
  split; [lia|]. split; [lia|]. split; [lia|]. split; [vm_compute; reflexivity|].
  apply (DefaultOptions_valid_iff 127 1024 1 external_defaults sample_heap); lia.
Defined.

End StoreOptionsMore.

Module AdminMore.

Import Admin.
Local Open Scope string_scope.

Lemma GetBool_insert_ne (flags : FlagSet) (k name : string) (v : flag_value) :
  k <> name -> GetBool (<[k := v]> flags) name = GetBool flags name.
Proof. intros Hk. unfold GetBool. rewrite lookup_insert_ne by exact Hk. reflexivity. Qed.

(** A missing or ill-typed "replica" flag makes prepareDatabaseSettings
    fail with pflag's error; when it is false, the settings carry only the
    database name and zero values, and no other flag is read. *)
Theorem prepare_not_replica (db : string) (flags : FlagSet) :
  (forall e, GetBool flags "replica" = inl e -> prepareDatabaseSettings db flags = inl e) /\
  (GetBool flags "replica" = inr false ->
   prepareDatabaseSettings db flags =
     inr {| DatabaseName := db; Replica := false; MasterDatabase := "";
            MasterAddress := ""; MasterPort := 0%N; ReplicaUsername := "";
            ReplicaPassword := "" |} /\
   forall k v, k <> "replica" ->
     prepareDatabaseSettings db (<[k := v]> flags) = prepareDatabaseSettings db flags).
Proof.
  split.
  - intros e He. unfold prepareDatabaseSettings, bind_err. rewrite He. reflexivity.
  - intros Hb. split.
    + unfold prepareDatabaseSettings, bind_err. rewrite Hb. reflexivity.
    + intros k v Hk. unfold prepareDatabaseSettings, bind_err.
      rewrite (GetBool_insert_ne flags k "replica" v Hk), Hb. reflexivity.
Qed.

Lemma prepare_not_replica_witness :
  GetBool (<["replica" := FBool false]> sample_flags) "replica" = inr false /\
  ((forall e, GetBool (<["replica" := FBool false]> sample_flags) "replica" = inl e ->
     prepareDatabaseSettings "db1" (<["replica" := FBool false]> sample_flags) = inl e) /\
   (GetBool (<["replica" := FBool false]> sample_flags) "replica" = inr false ->
    prepareDatabaseSettings "db1" (<["replica" := FBool false]> sample_flags) =
      inr {| DatabaseName := "db1"; Replica := false; MasterDatabase := "";
             MasterAddress := ""; MasterPort := 0%N; ReplicaUsername := "";
             ReplicaPassword := "" |} /\
    forall k v, k <> "replica" ->
      prepareDatabaseSettings "db1" (<[k := v]> (<["replica" := FBool false]> sample_flags)) =
      prepareDatabaseSettings "db1" (<["replica" := FBool false]> sample_flags))).
Proof.
  split; [reflexivity|].
  exact (prepare_not_replica "db1" (<["replica" := FBool false]> sample_flags)).
Defined.

(** With the replica flag set, prepareDatabaseSettings succeeds exactly
    when "master-database", "master-address", "master-port" and
    "replica-username" can be read with their types, and the settings are
    the values read, under the given database name. *)
Theorem prepare_replica_iff (db : string) (flags : FlagSet) (s : DatabaseSettings) :
  GetBool flags "replica" = inr true ->
  prepareDatabaseSettings db flags = inr s <->
  DatabaseName s = db /\ Replica s = true /\
  GetString flags "master-database" = inr (MasterDatabase s) /\
  GetString flags "master-address" = inr (MasterAddress s) /\
  GetUint32 flags "master-port" = inr (MasterPort s) /\
  GetString flags "replica-username" = inr (ReplicaUsername s) /\
  ReplicaPassword s = ReplicaUsername s.
Proof.
  intros Hb. unfold prepareDatabaseSettings, bind_err. rewrite Hb. simpl negb. cbv iota.
  split.
  - destruct (GetString flags "master-database") as [|md] eqn:E1; [discriminate|].
    destruct (GetString flags "master-address") as [|ma] eqn:E2; [discriminate|].
    destruct (GetUint32 flags "master-port") as [|mp] eqn:E3; [discriminate|].
    destruct (GetString flags "replica-username") as [|ru] eqn:E4; [discriminate|].
    intros [= <-]. cbn. repeat split; reflexivity.
  - destruct s as [n r md ma mp ru rp]. cbn.
    intros (-> & -> & -> & -> & -> & -> & ->). reflexivity.
Qed.

Lemma prepare_replica_iff_witness :
  GetBool sample_flags "replica" = inr true /\
  (prepareDatabaseSettings "replicadb" sample_flags =
     inr {| DatabaseName := "replicadb"; Replica := true; MasterDatabase := "defaultdb";
            MasterAddress := "127.0.0.1"; MasterPort := 3322%N;
            ReplicaUsername := "replicator"; ReplicaPassword := "replicator" |} <->
   "replicadb" = "replicadb" /\ true = true /\
   GetString sample_flags "master-database" = inr "defaultdb" /\
   GetString sample_flags "master-address" = inr "127.0.0.1" /\
   GetUint32 sample_flags "master-port" = inr 3322%N /\
   GetString sample_flags "replica-username" = inr "replicator" /\
   "replicator" = "replicator").
Proof.
  split; [reflexivity|].
  exact (prepare_replica_iff "replicadb" sample_flags
           {| DatabaseName := "replicadb"; Replica := true; MasterDatabase := "defaultdb";
              MasterAddress := "127.0.0.1"; MasterPort := 3322%N;
              ReplicaUsername := "replicator"; ReplicaPassword := "replicator" |} eq_refl).
Defined.

(** With the flags the create and update commands declare, whatever values
    the command line gives them, prepareDatabaseSettings never fails; the
    settings are a replica's exactly when "--replica" is given as true. *)
Theorem prepare_cmd_flags_total (db : string) (replica : option bool)
    (masterDatabase masterAddress : option string) (masterPort : option N)
    (replicaUsername replicaPassword : option string) :
  exists s, prepareDatabaseSettings db
      (cmd_flags replica masterDatabase masterAddress masterPort replicaUsername replicaPassword)
    = inr s /\
    DatabaseName s = db /\ Replica s = default false replica.
Proof.
  unfold prepareDatabaseSettings, bind_err, cmd_flags, GetBool, GetString, GetUint32.
  rewrite lookup_insert_eq.
  destruct (default false replica); simpl negb; cbv iota.
  - rewrite lookup_insert_ne, lookup_insert_eq by discriminate.
    rewrite (lookup_insert_ne _ "replica"), (lookup_insert_ne _ "master-database"),
      lookup_insert_eq by discriminate.
    rewrite (lookup_insert_ne _ "replica"), (lookup_insert_ne _ "master-database"),
      (lookup_insert_ne _ "master-address"), lookup_insert_eq by discriminate.
    rewrite (lookup_insert_ne _ "replica"), (lookup_insert_ne _ "master-database"),
      (lookup_insert_ne _ "master-address"), (lookup_insert_ne _ "master-port"),
      lookup_insert_eq by discriminate.
    eexists. split; [reflexivity|]. split; reflexivity.
  - eexists. split; [reflexivity|]. split; reflexivity.
Qed.

Lemma prefix_app (x y : string) : String.prefix x (x ++ y) = true.
Proof.
  induction x as [|a x IH]; [destruct y; reflexivity|].
  simpl. destruct (Ascii.ascii_dec a a) as [_|n]; [exact IH|contradiction].
Qed.

Ltac settle_cmd :=
  simpl;
  split; [discriminate|];
  first
  [ split; [intros _ H; exfalso; apply H; reflexivity|];
    split; [intros _ H; discriminate|]; intros _; split; [reflexivity|];
    eexists _, _; split; [reflexivity|]; split; [eassumption|];
    split; [reflexivity|]; split; [congruence|];
    first [ unfold PrintfColorW; rewrite prefix_app; congruence
          | transitivity true; [reflexivity|congruence]
          | transitivity false; [reflexivity|congruence] ]
  | split; [intros _ _; reflexivity|];
    split; [intros _ _; split; [reflexivity|discriminate]|];
    intros H; exfalso; apply H; reflexivity ].

(** [immuadmin database create]: with --help, cobra writes the help, sends
    no RPC and returns nil. Otherwise an RPC is sent only when exactly one
    argument is given and the settings are prepared; it is then the only
    RPC, it carries those settings, the command returns its error, and the
    output starts with the replication warning in yellow exactly when the
    settings are a replica's. Without --help and without an RPC the
    command fails and writes nothing to its output. *)
Theorem create_cmd_effects (CreateDatabase : DatabaseSettings -> option error)
    (help : bool) (helpText : string) (args : list string) (flags : FlagSet) :
  match create_cmd CreateDatabase help helpText args flags with
  | (rpcs, out, err) =>
      (help = true -> rpcs = [] /\ out = helpText /\ err = None) /\
      (help = false -> length args <> 1 -> rpcs = []) /\
      (help = false -> rpcs = [] -> out = "" /\ err <> None) /\
      (rpcs <> [] -> help = false /\ exists db s, args = [db] /\
         prepareDatabaseSettings db flags = inr s /\
         rpcs = [RpcCreateDatabase s] /\ err = CreateDatabase s /\
         String.prefix (PrintfColorW Yellow replicationWarning) out = Replica s)
  end.
Proof.
  unfold create_cmd, ExactArgs. destruct help.
  { cbn beta iota. split; [intros _; auto|]. split; [discriminate|].
    split; [discriminate|]. intros H; exfalso; apply H; reflexivity. }
  destruct args as [|db [|a rest]]; [settle_cmd|cbn [hd length Nat.eqb]|settle_cmd].
  destruct (prepareDatabaseSettings db flags) as [e|st] eqn:Ep; [settle_cmd|].
  destruct (Replica st) eqn:Er, (CreateDatabase st) eqn:Ec; settle_cmd.
Qed.

Lemma create_cmd_effects_witness :
  create_cmd (fun _ => None) false "" ["replicadb"] sample_flags =
    ([RpcCreateDatabase {| DatabaseName := "replicadb"; Replica := true;
        MasterDatabase := "defaultdb"; MasterAddress := "127.0.0.1"; MasterPort := 3322%N;
        ReplicaUsername := "replicator"; ReplicaPassword := "replicator" |}],
     PrintfColorW Yellow replicationWarning ++
       "database 'replicadb' (replica = true) successfully created" ++ newline,
     None) /\
  match create_cmd (fun _ => None) false "" ["replicadb"] sample_flags with
  | (rpcs, out, err) =>
      (false = true -> rpcs = [] /\ out = "" /\ err = None) /\
      (false = false -> length ["replicadb"] <> 1 -> rpcs = []) /\
      (false = false -> rpcs = [] -> out = "" /\ err <> None) /\
      (rpcs <> [] -> false = false /\ exists db s, ["replicadb"] = [db] /\
         prepareDatabaseSettings db sample_flags = inr s /\
         rpcs = [RpcCreateDatabase s] /\ err = (fun _ => None) s /\
         String.prefix (PrintfColorW Yellow replicationWarning) out = Replica s)
  end.
Proof.
  split; [vm_compute; reflexivity|].
  exact (create_cmd_effects (fun _ => None) false "" ["replicadb"] sample_flags).
Defined.



End AdminMore.
